(** * Resilience core of the DUIX avatar gateway (server.js)

    A shallow embedding of the gateway's server module: the token signer
    [createDUIXToken], the connection profile builder [createHTTPSAgent],
    the circuit breaker ([updateCircuitBreaker], [shouldAttemptDuixCall]),
    the upstream call executor ([callDUIXServiceWithToken],
    [createFallbackResponse]), the latency-echo route, the routes that
    sign, test, list and stop ([Routes]), [handleError] and the in-memory
    rate limiter.

    Conventions.
    - Readings of the clock, counters, statuses and timeouts are integers
      and are [Z]. Numbers that come from outside, the [clientSendTime]
      of a body and the lifetime of a token, are doubles ([Js.number]):
      their sums, differences and products are rounded as IEEE 754
      rounds them. The backoff delay is computed in [Q]; the double of
      the source is the rounding of that rational, and the bounds stated
      of the delays are those that rounding preserves.
    - [Date.now()], [Math.random()] and the network are effects: the
      [World] carries an arbitrary clock, an arbitrary random source and an
      arbitrary upstream; every call of [Date.now()] in the source,
      including those inside log statements, is one reading of the clock.
    - One handler runs at a time: between the [await]s of a call no other
      request touches the breaker.
    - Console output is not part of the model. *)

From Stdlib Require Import ZArith QArith Qminmax String Ascii List Bool Lia.
From Stdlib Require Import DecimalString Lqa.
From Stdlib Require SpecFloat.
From ExtLib Require Import Structures.Monad Structures.MonadState.
From ExtLib Require Import Data.Monads.StateMonad.
Import ListNotations.
Import MonadNotation.
Local Open Scope monad_scope.
Local Open Scope string_scope.
Local Open Scope Z_scope.
Local Set Warnings "-register-all".

(** ** JavaScript values *)

Module Js.

(** A number is written as a numeral: NaN, an infinity, an integer, or a
    dyadic fraction [m / 2^k]. It stands for the IEEE 754 double nearest
    to the numeral, ties going to the even significand, as a numeric
    literal of the language or of a JSON text does; every double is the
    value of such a numeral. The two zeros are one numeral: the module
    only subtracts, adds, multiplies, compares and prints numbers, which
    does not tell them apart. *)
Inductive number : Type :=
| NaN : number
| Num : Z -> number
| Infinity : bool -> number            (* [true]: the negative one *)
| Frac : Z -> positive -> number.

(** Values that JSON bodies and object literals of the module hold.
    [JIsoDate ms] is the string [new Date(ms).toISOString()]. *)
Inductive value : Type :=
| JUndefined : value
| JNull : value
| JBool : bool -> value
| JNumber : number -> value
| JString : string -> value
| JIsoDate : Z -> value
| JArray : list value -> value
| JObject : list (string * value) -> value.

Definition object : Type := list (string * value).

(** An exception: the name of its constructor and its message. *)
Record error : Type := mkError {
  name : string;
  message : string
}.

(** Property read [o.k]: [undefined] when the key is absent. *)
Fixpoint get (k : string) (o : object) : value :=
  match o with
  | [] => JUndefined
  | (k', v) :: rest => if String.eqb k k' then v else get k rest
  end.

Definition keys (o : object) : list string := map fst o.

(** [Object.keys] of a value. *)
Definition keys_of (v : value) : list string :=
  match v with
  | JObject o => keys o
  | _ => []
  end.

(** [typeof]. *)
Definition typeof (v : value) : string :=
  match v with
  | JUndefined => "undefined"
  | JBool _ => "boolean"
  | JNumber _ => "number"
  | JString _ | JIsoDate _ => "string"
  | JNull | JArray _ | JObject _ => "object"
  end.

(** Property read on any value. *)
Definition prop (k : string) (v : value) : value :=
  match v with
  | JObject o => get k o
  | _ => JUndefined
  end.

Definition is_nan (n : number) : bool :=
  match n with NaN => true | _ => false end.

(** The number a number-valued field holds. *)
Definition number_of (v : value) : number :=
  match v with
  | JNumber n => n
  | _ => NaN
  end.

(** *** Double precision *)

(** The number of binary digits of an integer. *)
Definition digits (n : Z) : Z :=
  if n =? 0 then 0 else Z.log2 (Z.abs n) + 1.

(** [m * 2^e] rounded to a significand of 53 bits with an exponent of at
    least -1074, the smallest of the format; a tie goes to the even
    significand. *)
Definition round (m e : Z) : Z * Z :=
  let e' := Z.max (e + digits m - 53) (-1074) in
  if e' <=? e then (m, e)
  else
    let shift := e' - e in
    let q := Z.abs m / 2 ^ shift in
    let r := Z.abs m mod 2 ^ shift in
    let half := 2 ^ (shift - 1) in
    let up := (half <? r) || ((half =? r) && Z.odd q) in
    (Z.sgn m * (if up then q + 1 else q), e').

(** The numeral of [m / 2^k] in lowest terms. *)
Fixpoint lowest (fuel : nat) (m k : Z) : number :=
  match fuel with
  | O => Num m
  | S fuel' =>
      if Z.odd m then Frac m (Z.to_pos k) else lowest fuel' (m / 2) (k - 1)
  end.

(** The double nearest to [m * 2^e]: an infinity from [2^1024] on. *)
Definition of_dyadic (m e : Z) : number :=
  let (m', e') := round m e in
  if 1024 <? digits m' + e' then Infinity (m' <? 0)
  else if 0 <=? e' then Num (Z.shiftl m' e')
  else lowest (Z.to_nat (- e')) m' (- e').

Definition dyadic (x : number) : option (Z * Z) :=
  match x with
  | Num z => Some (z, 0)
  | Frac m k => Some (m, Z.neg k)
  | NaN | Infinity _ => None
  end.

(** The double a numeral stands for, as the numeral of its value. *)
Definition norm (x : number) : number :=
  match dyadic x with
  | Some (m, e) => of_dyadic m e
  | None => x
  end.

(** Binary [-], [+] and [*] on numbers: the exact result of the two
    doubles, rounded. *)
Definition sub (a b : number) : number :=
  match norm a, norm b with
  | NaN, _ | _, NaN => NaN
  | Infinity s, Infinity s' => if Bool.eqb s s' then NaN else Infinity s
  | Infinity s, _ => Infinity s
  | _, Infinity s => Infinity (negb s)
  | x, y =>
      match dyadic x, dyadic y with
      | Some (mx, ex), Some (my, ey) =>
          let e := Z.min ex ey in
          of_dyadic (Z.shiftl mx (ex - e) - Z.shiftl my (ey - e)) e
      | _, _ => NaN
      end
  end.

Definition add (a b : number) : number :=
  match norm a, norm b with
  | NaN, _ | _, NaN => NaN
  | Infinity s, Infinity s' => if Bool.eqb s s' then Infinity s else NaN
  | Infinity s, _ => Infinity s
  | _, Infinity s => Infinity s
  | x, y =>
      match dyadic x, dyadic y with
      | Some (mx, ex), Some (my, ey) =>
          let e := Z.min ex ey in
          of_dyadic (Z.shiftl mx (ex - e) + Z.shiftl my (ey - e)) e
      | _, _ => NaN
      end
  end.

Definition is_zero (x : number) : bool :=
  match x with Num 0 => true | _ => false end.

Definition negative (x : number) : bool :=
  match x with
  | Num z => z <? 0
  | Frac m _ => m <? 0
  | Infinity s => s
  | NaN => false
  end.

Definition mul (a b : number) : number :=
  match norm a, norm b with
  | NaN, _ | _, NaN => NaN
  | x, y =>
      match dyadic x, dyadic y with
      | Some (mx, ex), Some (my, ey) => of_dyadic (mx * my) (ex + ey)
      | _, _ =>
          if is_zero x || is_zero y then NaN
          else Infinity (xorb (negative x) (negative y))
      end
  end.

(** [==] on two numbers: NaN equals nothing. *)
Definition eq (a b : number) : bool :=
  match norm a, norm b with
  | Num x, Num y => x =? y
  | Frac m k, Frac m' k' => (m =? m') && (k =? k')%positive
  | Infinity s, Infinity s' => Bool.eqb s s'
  | _, _ => false
  end.

(** A time value: what [new Date(t)] keeps. On any other number the
    date is invalid and its [toISOString()] throws a [RangeError]. *)
Definition time_value (t : number) : bool :=
  match norm t with
  | Num z => Z.abs z <=? 8640000000000000
  | Frac m k => Z.abs m <=? 8640000000000000 * 2 ^ Z.pos k
  | NaN | Infinity _ => false
  end.

Definition invalidTime : error := mkError "RangeError" "Invalid time value".

(** The same double in the reference model of the standard library,
    and back. *)
Definition to_spec (x : number) : SpecFloat.spec_float :=
  match x with
  | NaN => SpecFloat.S754_nan
  | Infinity s => SpecFloat.S754_infinity s
  | Num z => SpecFloat.binary_normalize 53 1024 z 0 false
  | Frac m k => SpecFloat.binary_normalize 53 1024 m (Z.neg k) false
  end.

Definition of_spec (f : SpecFloat.spec_float) : number :=
  match f with
  | SpecFloat.S754_nan => NaN
  | SpecFloat.S754_infinity s => Infinity s
  | SpecFloat.S754_zero _ => Num 0
  | SpecFloat.S754_finite s m e =>
      of_dyadic (if s then Z.neg m else Z.pos m) e
  end.

(** Operands on which the two models are compared: ties, both ends of
    the exponent range, numerals that are not doubles, infinities. *)
Definition samples : list (number * number) :=
  [ (Num 1700000000001, Num (- 2 ^ 53));
    (Num (2 ^ 53), Num 1);
    (Num (2 ^ 53 + 2), Num 1);
    (Num (2 ^ 60), Num 100);
    (Frac 1 1, Frac 1 2);
    (Frac 3602879701896397 55, Frac 3602879701896397 54);
    (Num (2 ^ 1023), Num (2 ^ 1023));
    (Frac 1 1074, Frac 1 1000);
    (Num 1700000001, Num 9999999999999);
    (Num (2 ^ 70 + 12345), Frac (-7) 3);
    (Infinity false, Num 3);
    (Num 0, Infinity true);
    (NaN, Num 1) ].

(** Decimal rendering of an integer inside a template string. *)
Definition show (z : Z) : string := NilZero.string_of_int (Z.to_int z).

(** [ToPrimitive] finds no method to call: the value is an object with a
    property of its own named [toString], which hides the inherited
    method and, coming from JSON, is not a function; or it is an array
    whose [join] meets such an object. The conversion then throws a
    [TypeError]. An own [valueOf] alone changes nothing: the inherited
    [valueOf] returns the object itself, which is not a primitive either. *)
Fixpoint unconvertible (v : value) : bool :=
  match v with
  | JObject o => existsb (fun kv => String.eqb (fst kv) "toString") o
  | JArray l =>
      (fix any (l : list value) : bool :=
         match l with
         | [] => false
         | x :: rest => unconvertible x || any rest
         end) l
  | _ => false
  end.

Section Coercions.

(** Built-ins of the language whose tables are not part of the
    repository: the numeric reading of a string and the [join] of an
    array whose elements can all be converted. *)
Variable StringToNumber : string -> number.
Variable ArrayJoin : list value -> string.

(** [ToNumber]; [None] when it throws. *)
Definition to_number (v : value) : option number :=
  if unconvertible v then None
  else Some match v with
            | JUndefined => NaN
            | JNull => Num 0
            | JBool true => Num 1
            | JBool false => Num 0
            | JNumber n => n
            | JString s => StringToNumber s
            | JIsoDate _ => NaN
            | JArray l => StringToNumber (ArrayJoin l)
            | JObject _ => StringToNumber "[object Object]"
            end.

End Coercions.

(** [ToBoolean], for [||]. *)
Definition truthy (v : value) : bool :=
  match v with
  | JUndefined | JNull => false
  | JBool b => b
  | JNumber n =>
      match norm n with
      | NaN => false
      | Num z => negb (z =? 0)
      | Infinity _ | Frac _ _ => true
      end
  | JString s => negb (String.eqb s "")
  | JIsoDate _ | JArray _ | JObject _ => true
  end.

Definition or (a b : value) : value := if truthy a then a else b.

Definition of_option (o : option string) : value :=
  match o with Some s => JString s | None => JUndefined end.

(** The character [U+0022], written inside template strings. *)
Definition dquote : string := String (ascii_of_nat 34) EmptyString.

End Js.

(** ** Circuit breaker state *)

Inductive BreakerState : Type := CLOSED | OPEN | HALF_OPEN.

Definition BreakerState_name (s : BreakerState) : string :=
  match s with
  | CLOSED => "CLOSED"
  | OPEN => "OPEN"
  | HALF_OPEN => "HALF_OPEN"
  end.

Record CircuitBreaker : Type := mkBreaker {
  failures : Z;
  lastFailureTime : Z;
  state : BreakerState;
  failureThreshold : Z;
  recoveryTimeoutMs : Z
}.

(** [let duixApiCircuitBreaker = {...}] as the module is loaded. *)
Definition initialCircuitBreaker : CircuitBreaker :=
  {| failures := 0;
     lastFailureTime := 0;
     state := CLOSED;
     failureThreshold := 5;
     recoveryTimeoutMs := 60000 |}.

(** ** Connection profiles *)

(** What Node's [tls.checkServerIdentity] does with a certificate: it
    returns nothing, returns an error, or throws. *)
Inductive TlsIdentity : Type :=
| IdentityOk : TlsIdentity
| IdentityError : string -> TlsIdentity
| IdentityThrows : string -> TlsIdentity.

Module Agent.

(** The options object given to [new https.Agent]. [checkServerIdentity]
    maps the verdict of Node's own check to the callback's return value,
    [None] being [undefined] (the peer is accepted). *)
Record config : Type := mk {
  rejectUnauthorized : bool;
  keepAlive : bool;
  maxSockets : Z;
  maxFreeSockets : Z;
  timeout : Z;
  freeSocketTimeout : Z;
  secureProtocol : string;
  minVersion : option string;
  maxVersion : option string;
  ciphers : string;
  checkServerIdentity : TlsIdentity -> option string;
  honorCipherOrder : bool;
  requestCert : bool;
  headers : list (string * string)
}.

End Agent.

(** ** Requests and the upstream *)

Module Axios.

Record config : Type := mk {
  method : string;
  url : string;
  params : list (string * string);
  headers : list (string * string);
  httpsAgent : Agent.config;
  timeout : Z;
  validateStatus : Z -> bool
}.

Record response : Type := mkResponse {
  status : Z;
  data : Js.value
}.

Record error : Type := mkError {
  code : option string;
  message : string
}.

(** What the network does with one request: an HTTP reply, or a failure
    below HTTP (timeout, reset, refused, DNS). *)
Inductive outcome : Type :=
| Replied : Z -> Js.value -> outcome
| Failed : option string -> string -> outcome.

(** The library's [settle]: a reply whose status [validateStatus] accepts
    resolves the promise, any other rejects it with the code the library
    picks from the status class. The releases that the dependency range
    of the package admits agree on the classes 4xx and 5xx and differ on
    the other statuses, some giving no code and some [ERR_BAD_RESPONSE]:
    [offTable] is what the installed release gives there. *)
Definition settle (offTable : Z -> option string) (cfg : config) (o : outcome)
  : response + error :=
  match o with
  | Replied st body =>
      if validateStatus cfg st then inl (mkResponse st body)
      else inr (mkError
                  (match st / 100 - 4 with
                   | 0 => Some "ERR_BAD_REQUEST"
                   | 1 => Some "ERR_BAD_RESPONSE"
                   | _ => offTable st
                   end)
                  ("Request failed with status code " ++ Js.show st))
  | Failed c m => inr (mkError c m)
  end.

End Axios.

(** ** The world the server runs in *)

Record World : Type := mkWorld {
  clock : nat -> Z;                 (* successive readings of Date.now() *)
  ticks : nat;                      (* readings taken so far *)
  duixApiCircuitBreaker : CircuitBreaker;
  upstream : nat -> Axios.config -> Axios.outcome;
  sent : list Axios.config;         (* requests issued, oldest first *)
  random : nat -> Q;                (* successive values of Math.random() *)
  draws : nat;
  slept : list Q;                   (* delays awaited, oldest first *)
  clientCode : Z -> option string   (* see Axios.settle *)
}.

(** An outcome the executor retries: a failure below HTTP or a status of
    500 and above. *)
Definition failing (o : Axios.outcome) : bool :=
  match o with
  | Axios.Replied st _ => 500 <=? st
  | Axios.Failed _ _ => true
  end.

(** An upstream on which every request fails. *)
Definition alwaysFails (w : World) : Prop :=
  forall n cfg, failing (upstream w n cfg) = true.

(** The world of a process that has read no clock and sent no request. *)
Definition startWorld (time : nat -> Z) (cb : CircuitBreaker)
  (net : nat -> Axios.config -> Axios.outcome) : World :=
  mkWorld time 0 cb net [] (fun _ => 0%Q) 0 [] (fun _ => None).

Definition IO : Type -> Type := StateMonad.state World.

(** The world after one more reading of the clock. *)
Definition tick (w : World) : World :=
  mkWorld (clock w) (S (ticks w)) (duixApiCircuitBreaker w) (upstream w)
    (sent w) (random w) (draws w) (slept w) (clientCode w).

Definition setBreaker (cb : CircuitBreaker) (w : World) : World :=
  mkWorld (clock w) (ticks w) cb (upstream w)
    (sent w) (random w) (draws w) (slept w) (clientCode w).

Definition Date_now : IO Z :=
  w <- get ;;
  put (tick w) ;;
  ret (clock w (ticks w)).

Definition Math_random : IO Q :=
  w <- get ;;
  put (mkWorld (clock w) (ticks w) (duixApiCircuitBreaker w) (upstream w)
         (sent w) (random w) (S (draws w)) (slept w) (clientCode w)) ;;
  ret (random w (draws w)).

(** [await new Promise(resolve => setTimeout(resolve, ms))]. *)
Definition sleep (ms : Q) : IO unit :=
  w <- get ;;
  put (mkWorld (clock w) (ticks w) (duixApiCircuitBreaker w) (upstream w)
         (sent w) (random w) (draws w) (slept w ++ [ms]) (clientCode w)).

(** [await axios(cfg)]: the request goes out and the promise settles. *)
Definition axios (cfg : Axios.config) : IO (Axios.response + Axios.error) :=
  w <- get ;;
  put (mkWorld (clock w) (ticks w) (duixApiCircuitBreaker w) (upstream w)
         (sent w ++ [cfg]) (random w) (draws w) (slept w) (clientCode w)) ;;
  ret (Axios.settle (clientCode w) cfg (upstream w (length (sent w)) cfg)).

Definition readBreaker : IO CircuitBreaker :=
  w <- get ;; ret (duixApiCircuitBreaker w).

Definition writeBreaker (cb : CircuitBreaker) : IO unit :=
  w <- get ;; put (setBreaker cb w).

(** [n] runs of one action in a row, with their results. *)
Fixpoint times {A : Type} (n : nat) (action : IO A) : IO (list A) :=
  match n with
  | O => ret []
  | S k => a <- action ;; rest <- times k action ;; ret (a :: rest)
  end.

(** ** Circuit breaker operations *)

Definition updateCircuitBreaker (success : bool) : IO unit :=
  if success then
    cb <- readBreaker ;;
    writeBreaker (mkBreaker 0 (lastFailureTime cb) CLOSED
                    (failureThreshold cb) (recoveryTimeoutMs cb))
  else
    cb <- readBreaker ;;
    let n := failures cb + 1 in
    t <- Date_now ;;
    writeBreaker (mkBreaker n t
                    (if failureThreshold cb <=? n then OPEN else state cb)
                    (failureThreshold cb) (recoveryTimeoutMs cb)).

Definition shouldAttemptDuixCall : IO bool :=
  now <- Date_now ;;
  cb <- readBreaker ;;
  match state cb with
  | CLOSED => ret true
  | OPEN =>
      if recoveryTimeoutMs cb <? now - lastFailureTime cb then
        writeBreaker (mkBreaker (failures cb) (lastFailureTime cb) HALF_OPEN
                        (failureThreshold cb) (recoveryTimeoutMs cb)) ;;
        ret true
      else ret false
  | HALF_OPEN => ret true
  end.

(** ** Signed tokens *)

Module Jwt.

Inductive algorithm : Type := HS256 | HS384 | HS512.

(** The claims as the payload object holds them: [exp] is the sum the
    signer computed, a number. *)
Record payload : Type := mkPayload {
  appId : string;
  iat : Z;
  exp : Js.number
}.

(** The message authentication code is symbolic: the MAC of the given
    algorithm under [key] over the protected header and the claims. *)
Inductive mac : Type :=
| HMAC : algorithm -> string -> payload -> mac.

Record token : Type := mkToken {
  alg : algorithm;
  claims : payload;
  signature : mac
}.

Definition algorithm_name (a : algorithm) : string :=
  match a with
  | HS256 => "HS256"
  | HS384 => "HS384"
  | HS512 => "HS512"
  end.

Section Library.

(** Node's [createPrivateKey] accepts the string: it holds an asymmetric
    private key in PEM form. *)
Variable privateKey : string -> bool.

(** [jwt.sign(payload, secretOrPrivateKey, { algorithm })] of the
    jsonwebtoken package, called without a callback and with an HMAC
    algorithm. It throws a plain [Error] when the key is empty, and when
    the key is an asymmetric private key. The claims [iat] and [exp] of
    the payload are numbers here, which is all the library asks of them.
    The library stamps the token with [payload.iat || floor(now / 1000)]:
    it keeps an [iat] that is not 0 and replaces an [iat] of 0 by the
    second of its own reading of the clock. *)
Definition sign (p : payload) (secretOrPrivateKey : string) (a : algorithm)
  : IO (token + Js.error) :=
  if String.eqb secretOrPrivateKey "" then
    ret (inr (Js.mkError "Error" "secretOrPrivateKey must have a value"))
  else if privateKey secretOrPrivateKey then
    ret (inr (Js.mkError "Error"
                ("secretOrPrivateKey must be a symmetric key when using "
                 ++ algorithm_name a)))
  else
    timestamp <-
      (if iat p =? 0 then now <- Date_now ;; ret (now / 1000)
       else ret (iat p)) ;;
    let stamped := mkPayload (appId p) timestamp (exp p) in
    ret (inl (mkToken a stamped (HMAC a secretOrPrivateKey stamped))).

End Library.

End Jwt.

(** ** Inbound requests and responses of the routes *)

Record Request : Type := mkRequest {
  body : Js.object;
  secure : bool;
  userAgentHeader : option string;   (* req.get('User-Agent') *)
  ip : option string;
  remoteAddress : option string
}.

Record Response : Type := mkResponse {
  statusCode : Z;
  json : Js.value
}.

(** [process.env.X || fallback]. *)
Definition env_or (x : option string) (fallback : string) : string :=
  match x with
  | Some s => if String.eqb s "" then fallback else s
  | None => fallback
  end.

Definition env_set (x : option string) : bool :=
  match x with
  | Some s => negb (String.eqb s "")
  | None => false
  end.

(** The values [1, 2, ..., n] a counting loop runs through. *)
Definition upto (n : Z) : list Z := map Z.of_nat (seq 1 (Z.to_nat n)).

Definition GET_CONCURRENT_NUMBER : string :=
  "/duix-openapi-v2/sdk/v2/getconcurrentNumber".

Module Server.

Section Env.

(** The process environment the module reads when it is loaded. *)
Variable IS_PRODUCTION : bool.
Variable DISABLE_SSL_VALIDATION : option string.
Variable AWS_REGION : option string.
Variable TOKEN_EXPIRY : Js.number.
Variable process_version : string.

(** See [Jwt.sign]. *)
Variable privateKey : string -> bool.

(** Built-in coercions of the language, see [Js.to_number]. *)
Variable StringToNumber : string -> Js.number.
Variable ArrayJoin : list Js.value -> string.

Definition strictCiphers : list string :=
  [ "ECDHE-RSA-AES256-GCM-SHA384";
    "ECDHE-RSA-AES128-GCM-SHA256";
    "ECDHE-RSA-AES256-SHA384";
    "ECDHE-RSA-AES128-SHA256";
    "AES256-GCM-SHA384";
    "AES128-GCM-SHA256" ].

Definition duixCiphers : list string :=
  [ "ECDHE-RSA-AES256-GCM-SHA384";
    "ECDHE-RSA-AES128-GCM-SHA256";
    "ECDHE-RSA-AES256-SHA384";
    "ECDHE-RSA-AES128-SHA256";
    "AES256-GCM-SHA384";
    "AES128-GCM-SHA256";
    "AES256-SHA256";
    "AES128-SHA256";
    "HIGH:!aNULL:!eNULL:!EXPORT:!DES:!RC4:!MD5:!PSK:!SRP:!CAMELLIA" ].

(** [createHTTPSAgent(strategy = 'production')]: the options the agent is
    built from. [rejectUnauthorized] occurs twice in the literal with the
    same value. The later write of [undefined] to [localAddress] leaves
    the options as they are. *)
Definition createHTTPSAgent (strategy : string) : Agent.config :=
  let isForDuixAPI := String.eqb strategy "duix_api" in
  let shouldValidateSSL :=
    if IS_PRODUCTION then negb isForDuixAPI
    else match DISABLE_SSL_VALIDATION with
         | Some v => negb (String.eqb v "true")
         | None => true
         end && negb isForDuixAPI in
  {| Agent.rejectUnauthorized := shouldValidateSSL;
     Agent.keepAlive := true;
     Agent.maxSockets := if IS_PRODUCTION then 50 else 10;
     Agent.maxFreeSockets := if IS_PRODUCTION then 20 else 5;
     Agent.timeout := if IS_PRODUCTION then 20000 else 30000;
     Agent.freeSocketTimeout := 30000;
     Agent.secureProtocol := "TLSv1_2_method";
     Agent.minVersion := if isForDuixAPI then None else Some "TLSv1.2";
     Agent.maxVersion := if isForDuixAPI then None else Some "TLSv1.3";
     Agent.ciphers :=
       String.concat ":" (if isForDuixAPI then duixCiphers else strictCiphers);
     Agent.checkServerIdentity :=
       if shouldValidateSSL then
         fun verdict =>
           match verdict with
           | IdentityOk => None
           | IdentityError err => Some err
           | IdentityThrows err => if isForDuixAPI then None else Some err
           end
       else fun _ => None;
     Agent.honorCipherOrder := true;
     Agent.requestCert := false;
     Agent.headers :=
       [ ("Connection", "keep-alive");
         ("User-Agent", "DUIX-AWS-Hybrid/1.0 (Node.js " ++ process_version ++ ")") ] |}.

(** [createDUIXToken(appId, appKey, sigExp = TOKEN_EXPIRY)]; [None] for
    [sigExp] is the omitted argument. Outside production the function
    first prints the two dates [new Date(now)] and
    [new Date(expirationTimeSeconds * 1000)] with [toISOString()], which
    throws when a date is invalid. [Math.floor(now / 1000)] is the
    integer quotient: a reading of the clock is a time value, on which
    the division in doubles followed by [Math.floor] is exact. *)
Definition createDUIXToken (appId appKey : string) (sigExp : option Js.number)
  : IO (Jwt.token + Js.error) :=
  let sigExp := match sigExp with Some e => e | None => TOKEN_EXPIRY end in
  now <- Date_now ;;
  let currentTimeSeconds := now / 1000 in
  let expirationTimeSeconds := Js.add (Js.Num currentTimeSeconds) sigExp in
  let printed :=
    Js.time_value (Js.Num now)
    && Js.time_value (Js.mul expirationTimeSeconds (Js.Num 1000)) in
  let payload :=
    {| Jwt.appId := appId;
       Jwt.iat := currentTimeSeconds;
       Jwt.exp := expirationTimeSeconds |} in
  if IS_PRODUCTION || printed then Jwt.sign privateKey payload appKey Jwt.HS256
  else ret (inr Js.invalidTime).

(** [createFallbackResponse(question, startTime, errorInfo = null)]. *)
Definition createFallbackResponse (question : string) (startTime : Z)
  (errorInfo : Js.value) : IO Js.value :=
  t_session <- Date_now ;;
  t_elapsed <- Date_now ;;
  cb <- readBreaker ;;
  t_stamp <- Date_now ;;
  ret (Js.JObject
    [ ("session_id", Js.JString ("fallback_session_" ++ Js.show t_session));
      ("data", Js.JObject
        [ ("text", Js.JString
             ("[Hybrid Mode] Processing: " ++ Js.dquote ++ question ++ Js.dquote
              ++ " - DUIX service temporarily unavailable, using local processing."));
          ("api_call_successful", Js.JBool false);
          ("api_status", Js.JNumber (Js.Num 503));
          ("fallback_mode", Js.JBool true);
          ("aws_hybrid_response", Js.JBool true);
          ("response_time_ms", Js.JNumber (Js.Num (t_elapsed - startTime)));
          ("circuit_breaker_state", Js.JString (BreakerState_name (state cb)));
          ("error_info", errorInfo);
          ("timestamp", Js.JIsoDate t_stamp);
          ("aws_region", Js.JString (env_or AWS_REGION "local")) ]) ]).

(** The object [createFallbackResponse] returns in world [w]. *)
Definition fallbackObject (question : string) (startTime : Z)
  (errorInfo : Js.value) (w : World) : Js.value :=
  evalState (createFallbackResponse question startTime errorInfo) w.

(** The request of one attempt. *)
Definition duixRequest (apiUrl appId clientToken : string)
  (baseTimeout attempt : Z) : Axios.config :=
  {| Axios.method := "GET";
     Axios.url := apiUrl ++ GET_CONCURRENT_NUMBER;
     Axios.params := [ ("appId", appId) ];
     Axios.headers :=
       [ ("Token", clientToken);
         ("Content-Type", "application/json");
         ("Accept", "application/json");
         ("User-Agent", "DUIX-AWS-Hybrid/1.0 (" ++ env_or AWS_REGION "local" ++ ")");
         ("X-Forwarded-For", if env_set AWS_REGION then "aws-internal" else "localhost");
         ("Connection", "keep-alive") ];
     Axios.httpsAgent := createHTTPSAgent "duix_api";
     Axios.timeout := baseTimeout + attempt * 2000;
     Axios.validateStatus := fun status => status <? 500 |}.

(** The [return] of the [try] block, after the request resolved. *)
Definition duixSuccess (question : string) (now : Z) (response : Axios.response)
  : IO Js.value :=
  (if IS_PRODUCTION then ret tt else _ <- Date_now ;; ret tt) ;;
  updateCircuitBreaker true ;;
  t_session <- Date_now ;;
  t_elapsed <- Date_now ;;
  cb <- readBreaker ;;
  ret (Js.JObject
    [ ("session_id", Js.JString ("duix_session_" ++ Js.show t_session));
      ("data", Js.JObject
        [ ("text", Js.JString
             ("DUIX Avatar response to: " ++ Js.dquote ++ question ++ Js.dquote));
          ("api_call_successful", Js.JBool (Axios.status response =? 200));
          ("api_status", Js.JNumber (Js.Num (Axios.status response)));
          ("concurrent_info", Axios.data response);
          ("real_api_response", Js.JBool true);
          ("response_time_ms", Js.JNumber (Js.Num (t_elapsed - now)));
          ("circuit_breaker_state", Js.JString (BreakerState_name (state cb)));
          ("aws_region", Js.JString (env_or AWS_REGION "local")) ]) ]).

(** [error.code || error.message]. *)
Definition errorCodeOf (error : Axios.error) : string :=
  match Axios.code error with
  | Some c => if String.eqb c "" then Axios.message error else c
  | None => Axios.message error
  end.

(** The delay before the next attempt. *)
Definition backoffMs (attempt : Z) (r : Q) : Q :=
  Qmin (inject_Z (2 ^ attempt * 1000) + r * inject_Z 1000) (inject_Z 10000).

(** The [for] loop of [callDUIXServiceWithToken] over the attempts still
    to run, followed by the two statements after the loop. The reads of
    the clock before the test of [attempt === maxRetries] are those of the
    log statements of the [catch] block. *)
Fixpoint attemptLoop (question apiUrl appId clientToken : string)
  (now maxRetries baseTimeout : Z) (attempts : list Z) : IO Js.value :=
  match attempts with
  | [] =>
      updateCircuitBreaker false ;;
      createFallbackResponse question now Js.JNull
  | attempt :: later =>
      settled <- axios (duixRequest apiUrl appId clientToken baseTimeout attempt) ;;
      match settled with
      | inl response => duixSuccess question now response
      | inr error =>
          let errorCode := errorCodeOf error in
          (if IS_PRODUCTION then _ <- Date_now ;; _ <- Date_now ;; ret tt
           else _ <- Date_now ;; ret tt) ;;
          if attempt =? maxRetries then
            updateCircuitBreaker false ;;
            cb <- readBreaker ;;
            createFallbackResponse question now
              (Js.JObject
                 [ ("error", Js.JString "DUIX API unavailable");
                   ("attempts", Js.JNumber (Js.Num maxRetries));
                   ("last_error", Js.JString errorCode);
                   ("circuit_breaker_state",
                    Js.JString (BreakerState_name (state cb))) ])
          else
            r <- Math_random ;;
            sleep (backoffMs attempt r) ;;
            attemptLoop question apiUrl appId clientToken now maxRetries
              baseTimeout later
      end
  end.

Definition maxRetries : Z := if IS_PRODUCTION then 2 else 3.
Definition baseTimeout : Z := if IS_PRODUCTION then 15000 else 20000.

(** [callDUIXServiceWithToken(question, apiUrl, appId, clientToken)]; the
    two optional parameters are never read. *)
Definition callDUIXServiceWithToken (question apiUrl appId clientToken : string)
  : IO Js.value :=
  now <- Date_now ;;
  attempt <- shouldAttemptDuixCall ;;
  if negb attempt then createFallbackResponse question now Js.JNull
  else attemptLoop question apiUrl appId clientToken now maxRetries baseTimeout
         (upto maxRetries).

(** The handler of [POST /api/measure-latency]. The body is what
    [express.json()] leaves in [req.body]: an object, or an array, which
    has none of the properties read and behaves as the empty object. The
    first subtraction converts [clientSendTime] to a number; when the
    conversion throws, the [catch] block answers. Nothing else in the
    [try] block throws. *)
Definition measureLatency (req : Request) : IO Response :=
  serverReceiveTime <- Date_now ;;
  let clientSendTime := Js.get "clientSendTime" (body req) in
  let sessionId := Js.get "sessionId" (body req) in
  let userAgent := Js.get "userAgent" (body req) in
  serverProcessTime <- Date_now ;;
  match Js.to_number StringToNumber ArrayJoin clientSendTime with
  | None =>
      errorTime <- Date_now ;;
      t_stamp <- Date_now ;;
      ret (mkResponse 500
             (Js.JObject
                [ ("success", Js.JBool false);
                  ("error", Js.JString "Latency measurement failed");
                  ("measurements", Js.JObject
                    [ ("serverReceiveTime", Js.JNumber (Js.Num serverReceiveTime));
                      ("errorTime", Js.JNumber (Js.Num errorTime));
                      ("processingTime",
                       Js.JNumber
                         (Js.sub (Js.Num errorTime) (Js.Num serverReceiveTime))) ]);
                  ("timestamp", Js.JIsoDate t_stamp) ]))
  | Some sentAt =>
      let networkLatency := Js.sub (Js.Num serverReceiveTime) sentAt in
      let serverProcessingTime :=
        Js.sub (Js.Num serverProcessTime) (Js.Num serverReceiveTime) in
      let sslOverhead := if secure req then "HTTPS" else "HTTP" in
      let awsRegion := env_or AWS_REGION "local" in
      t_stamp <- Date_now ;;
      let latencyData := Js.JObject
        [ ("success", Js.JBool true);
          ("timestamp", Js.JIsoDate t_stamp);
          ("measurements", Js.JObject
            [ ("clientSendTime", clientSendTime);
              ("serverReceiveTime", Js.JNumber (Js.Num serverReceiveTime));
              ("serverProcessTime", Js.JNumber (Js.Num serverProcessTime));
              ("networkLatency", Js.JNumber networkLatency);
              ("serverProcessingTime", Js.JNumber serverProcessingTime);
              ("totalRoundTrip",
               Js.JNumber (Js.sub (Js.Num serverProcessTime) sentAt)) ]);
          ("environment", Js.JObject
            [ ("ssl", Js.JString sslOverhead);
              ("region", Js.JString awsRegion);
              ("nodeVersion", Js.JString process_version);
              ("isProduction", Js.JBool IS_PRODUCTION) ]);
          ("session", Js.JObject
            [ ("id", sessionId);
              ("userAgent", Js.or userAgent (Js.of_option (userAgentHeader req)));
              ("ip", Js.or (Js.of_option (ip req))
                       (Js.of_option (remoteAddress req))) ]) ] in
      (if IS_PRODUCTION then _ <- Date_now ;; ret tt else ret tt) ;;
      ret (mkResponse 200 latencyData)
  end.

End Env.

End Server.

Import Server.

(** ** Histories of the circuit breaker *)

(** One use of the breaker by a caller. *)
Inductive BreakerCall : Type :=
| RecordResult : bool -> BreakerCall
| ShouldAttempt : BreakerCall.

Definition breakerCall (c : BreakerCall) : IO unit :=
  match c with
  | RecordResult success => updateCircuitBreaker success
  | ShouldAttempt => _ <- shouldAttemptDuixCall ;; ret tt
  end.

Fixpoint breakerCalls (calls : list BreakerCall) : IO unit :=
  match calls with
  | [] => ret tt
  | c :: rest => breakerCall c ;; breakerCalls rest
  end.

(** The mode agrees with the failure count: CLOSED below the threshold,
    OPEN or HALF_OPEN from the threshold on. *)
Definition breakerConsistent (cb : CircuitBreaker) : bool :=
  (failureThreshold cb =? 5) && (recoveryTimeoutMs cb =? 60000)
  && match state cb with
     | CLOSED => (0 <=? failures cb) && (failures cb <? 5)
     | OPEN | HALF_OPEN => 5 <=? failures cb
     end.

(** The delays of a run of rejected attempts, the first jitter being the
    draw number [d] of the random source. *)
Fixpoint delays (random : nat -> Q) (d : nat) (attempts : list Z) : list Q :=
  match attempts with
  | [] => []
  | attempt :: later =>
      Server.backoffMs attempt (random d) :: delays random (S d) later
  end.

(** The breaker an admitted call goes on with: an OPEN breaker has
    become HALF_OPEN, any other is as it was. *)
Definition admittedBreaker (cb : CircuitBreaker) : CircuitBreaker :=
  match state cb with
  | OPEN => mkBreaker (failures cb) (lastFailureTime cb) HALF_OPEN
              (failureThreshold cb) (recoveryTimeoutMs cb)
  | CLOSED | HALF_OPEN => cb
  end.

(** The two dates that the log line of [createDUIXToken] prints outside
    production are valid: the instant and the expiry. *)
Definition logDatesValid (now : Z) (sigExp : Js.number) : bool :=
  Js.time_value (Js.Num now)
  && Js.time_value
       (Js.mul (Js.add (Js.Num (now / 1000)) sigExp) (Js.Num 1000)).

(** ** Routes of the gateway *)

(** [n.toString(36)] for an integer. *)
Definition digit36 (d : Z) : ascii :=
  match String.get (Z.to_nat d) "0123456789abcdefghijklmnopqrstuvwxyz" with
  | Some c => c
  | None => "0"%char
  end.

Fixpoint digits36 (fuel : nat) (n : Z) (acc : string) : string :=
  match fuel with
  | O => acc
  | S fuel' =>
      let acc' := String (digit36 (n mod 36)) acc in
      if n / 36 =? 0 then acc' else digits36 fuel' (n / 36) acc'
  end.

Definition toString36 (n : Z) : string :=
  if n <? 0 then "-" ++ digits36 (S (Z.to_nat (Z.log2 (- n)))) (- n) ""
  else digits36 (S (Z.to_nat (Z.log2 n))) n "".

(** What the start of the module does with the process. *)
Inductive Startup : Type :=
| Listening : Startup
| Exited : Z -> Startup.

Module Routes.

Section Env.

Variable IS_PRODUCTION : bool.
Variable DISABLE_SSL_VALIDATION : option string.
Variable AWS_REGION : option string.
Variable process_version : string.

(** [process.env.DUIX_APP_ID], [process.env.DUIX_APP_KEY] and
    [parseInt(process.env.TOKEN_EXPIRY)]. *)
Variable ENV_DUIX_APP_ID : option string.
Variable ENV_DUIX_APP_KEY : option string.
Variable parsedTokenExpiry : Js.number.

(** [process.uptime()]. *)
Variable process_uptime : Js.value.

(** The string [jwt.sign] returns for a token, and the strings the HTTP
    client makes of a header or query value that is not a string. *)
Variable compact : Jwt.token -> string.
Variable HeaderString : Js.value -> string.
Variable ParamString : Js.value -> string.

(** See [Jwt.sign]. *)
Variable privateKey : string -> bool.

Definition DUIX_API_URL : string := "https://api.duix.com".
Definition DUIX_APP_ID : string := env_or ENV_DUIX_APP_ID "1377185422953811968".
Definition DUIX_APP_KEY : string :=
  env_or ENV_DUIX_APP_KEY "4f3725b2-7d48-4ea7-8640-d1a11eb00f8c".

(** [parseInt(process.env.TOKEN_EXPIRY) || 1800]. *)
Definition TOKEN_EXPIRY : Js.number :=
  if Js.truthy (Js.JNumber parsedTokenExpiry) then parsedTokenExpiry
  else Js.Num 1800.

Definition GET_CONCURRENT_LIST : string :=
  "/duix-openapi-v2/sdk/v2/getconcurrentList".
Definition SESSION_STOP : string := "/duix-openapi-v2/sdk/v2/sessionStop".

(** The check of the credentials when the module is loaded. *)
Definition startup : Startup :=
  if IS_PRODUCTION then
    if negb (env_set ENV_DUIX_APP_ID) || negb (env_set ENV_DUIX_APP_KEY)
    then Exited 1
    else Listening
  else Listening.

Definition headerOf (v : Js.value) : string :=
  match v with
  | Js.JString s => s
  | _ => HeaderString v
  end.

Definition paramOf (v : Js.value) : string :=
  match v with
  | Js.JString s => s
  | _ => ParamString v
  end.

(** [handleError(error, req, res, operation)], from the message and the
    code of the error; the request and the operation only reach the log. *)
Definition handleError (message : string) (code : Js.value) : IO Response :=
  t_id <- Date_now ;;
  t_stamp <- Date_now ;;
  let sanitizedError :=
    [ ("error", Js.JString "Internal server error");
      ("errorId", Js.JString (toString36 t_id));
      ("timestamp", Js.JIsoDate t_stamp) ] in
  ret (mkResponse 500
         (Js.JObject
            (if IS_PRODUCTION then sanitizedError
             else sanitizedError
                    ++ [ ("details", Js.JString message); ("code", code) ]))).

(** [GET /api/duix/sign], from [req.query]. *)
Definition signRoute (query : Js.object) : IO Response :=
  let conversationId := Js.get "conversationId" query in
  if IS_PRODUCTION then
    ret (mkResponse 403
           (Js.JObject
              [ ("success", Js.JBool false);
                ("error",
                 Js.JString "Token generation endpoint disabled in production");
                ("message",
                 Js.JString
                   "Clients must generate their own JWT tokens in production") ]))
  else
    signed <-
      createDUIXToken IS_PRODUCTION TOKEN_EXPIRY privateKey DUIX_APP_ID
        DUIX_APP_KEY None ;;
    match signed with
    | inl token =>
        conversation <-
          (if Js.truthy conversationId then ret conversationId
           else t <- Date_now ;; ret (Js.JString (Js.show t))) ;;
        ret (mkResponse 200
               (Js.JObject
                  [ ("success", Js.JBool true);
                    ("sign", Js.JString (compact token));
                    ("conversationId", conversation);
                    ("warning",
                     Js.JString
                       "Development only - use client-side token generation in production") ]))
    | inr error => handleError (Js.message error) Js.JUndefined
    end.

(** [POST /api/test-latency], from [req.body]. A body comes from
    [JSON.parse], its strings are [Js.JString]s. A token that is not a
    string has no [substring]: outside production the log line of the
    executor throws on it, after the executor has read the clock. *)
Definition testLatency (body : Js.object) : IO Response :=
  startTime <- Date_now ;;
  let question := Js.get "question" body in
  let token := Js.get "token" body in
  let questionRequired :=
    t <- Date_now ;;
    ret (mkResponse 400
           (Js.JObject
              [ ("success", Js.JBool false);
                ("error",
                 Js.JString "Question parameter is required and must be a string");
                ("latency", Js.JNumber (Js.Num (t - startTime))) ])) in
  let forward (q clientToken : string) :=
    response <-
      callDUIXServiceWithToken IS_PRODUCTION DISABLE_SSL_VALIDATION AWS_REGION
        process_version q DUIX_API_URL DUIX_APP_ID clientToken ;;
    endTime <- Date_now ;;
    t_stamp <- Date_now ;;
    ret (mkResponse 200
           (Js.JObject
              [ ("success", Js.JBool true);
                ("question", Js.JString q);
                ("response", Js.prop "data" response);
                ("latency", Js.JNumber (Js.Num (endTime - startTime)));
                ("timestamp", Js.JIsoDate t_stamp);
                ("session_id", Js.prop "session_id" response) ])) in
  match question with
  | Js.JString q =>
      if String.eqb q "" then questionRequired
      else if negb (Js.truthy token) then
        t <- Date_now ;;
        ret (mkResponse 400
               (Js.JObject
                  [ ("success", Js.JBool false);
                    ("error",
                     Js.JString
                       "Token is required - clients must provide JWT tokens");
                    ("latency", Js.JNumber (Js.Num (t - startTime))) ]))
      else
        match token with
        | Js.JString clientToken => forward q clientToken
        | _ =>
            if IS_PRODUCTION then forward q (HeaderString token)
            else
              _ <- Date_now ;;
              handleError "clientToken.substring is not a function"
                Js.JUndefined
        end
  | _ => questionRequired
  end.

(** The request of the two session routes. *)
Definition hybridRequest (path : string) (params : list (string * string))
  (token : Js.value) : Axios.config :=
  {| Axios.method := "GET";
     Axios.url := DUIX_API_URL ++ path;
     Axios.params := params;
     Axios.headers :=
       [ ("Token", headerOf token);
         ("Content-Type", "application/json");
         ("Accept", "application/json");
         ("User-Agent", "DUIX-Hybrid/1.0 (" ++ env_or AWS_REGION "local" ++ ")") ];
     Axios.httpsAgent :=
       createHTTPSAgent IS_PRODUCTION DISABLE_SSL_VALIDATION process_version
         "duix_api";
     Axios.timeout := 15000;
     Axios.validateStatus := fun status => status <? 500 |}.

(** [GET /api/duix/concurrent-sessions], from [req.query]. *)
Definition concurrentSessions (query : Js.object) : IO Response :=
  let appId := Js.get "appId" query in
  let token := Js.get "token" query in
  let applicationId := Js.or appId (Js.JString DUIX_APP_ID) in
  if negb (Js.truthy token) then
    ret (mkResponse 400
           (Js.JObject
              [ ("success", Js.JBool false);
                ("error", Js.JString "Token is required") ]))
  else
    settled <-
      axios (hybridRequest GET_CONCURRENT_LIST
               [ ("appId", paramOf applicationId) ] token) ;;
    match settled with
    | inl response =>
        if Axios.status response =? 200 then
          t <- Date_now ;;
          ret (mkResponse 200
                 (Js.JObject
                    [ ("success", Js.JBool true);
                      ("data", Axios.data response);
                      ("timestamp", Js.JIsoDate t) ]))
        else
          t <- Date_now ;;
          ret (mkResponse 503
                 (Js.JObject
                    [ ("success", Js.JBool false);
                      ("error", Js.JString "DUIX API unavailable");
                      ("hybrid_mode", Js.JBool true);
                      ("timestamp", Js.JIsoDate t) ]))
    | inr _ =>
        cb <- readBreaker ;;
        t <- Date_now ;;
        ret (mkResponse 503
               (Js.JObject
                  [ ("success", Js.JBool false);
                    ("error", Js.JString "Service temporarily unavailable");
                    ("hybrid_mode", Js.JBool true);
                    ("circuit_breaker_state",
                     Js.JString (BreakerState_name (state cb)));
                    ("timestamp", Js.JIsoDate t) ]))
    end.

(** [POST /api/duix/stop-session], from [req.body]. *)
Definition stopSession (body : Js.object) : IO Response :=
  let uuid := Js.get "uuid" body in
  let token := Js.get "token" body in
  if negb (Js.truthy token) || negb (Js.truthy uuid) then
    ret (mkResponse 400
           (Js.JObject
              [ ("success", Js.JBool false);
                ("error", Js.JString "Token and session UUID are required") ]))
  else
    settled <-
      axios (hybridRequest SESSION_STOP [ ("uuid", paramOf uuid) ] token) ;;
    match settled with
    | inl response =>
        if Axios.status response =? 200 then
          t <- Date_now ;;
          ret (mkResponse 200
                 (Js.JObject
                    [ ("success", Js.JBool true);
                      ("data", Axios.data response);
                      ("timestamp", Js.JIsoDate t) ]))
        else
          t <- Date_now ;;
          ret (mkResponse 503
                 (Js.JObject
                    [ ("success", Js.JBool false);
                      ("error", Js.JString "DUIX API unavailable");
                      ("hybrid_mode", Js.JBool true);
                      ("timestamp", Js.JIsoDate t) ]))
    | inr _ =>
        cb <- readBreaker ;;
        t <- Date_now ;;
        ret (mkResponse 503
               (Js.JObject
                  [ ("success", Js.JBool false);
                    ("error", Js.JString "Service temporarily unavailable");
                    ("hybrid_mode", Js.JBool true);
                    ("circuit_breaker_state",
                     Js.JString (BreakerState_name (state cb)));
                    ("timestamp", Js.JIsoDate t) ]))
    end.

(** The request of the probe of [GET /api/status]. *)
Definition statusProbe (token : Jwt.token) : Axios.config :=
  {| Axios.method := "GET";
     Axios.url := DUIX_API_URL ++ GET_CONCURRENT_NUMBER;
     Axios.params := [ ("appId", DUIX_APP_ID) ];
     Axios.headers :=
       [ ("Token", compact token);
         ("Content-Type", "application/json");
         ("User-Agent", "DUIX-AWS-Compatible/1.0") ];
     Axios.httpsAgent :=
       createHTTPSAgent IS_PRODUCTION DISABLE_SSL_VALIDATION process_version
         "duix_api";
     Axios.timeout := 10000;
     Axios.validateStatus := fun status => status <? 500 |}.

(** [GET /api/status]. The module deletes
    [process.env.NODE_TLS_REJECT_UNAUTHORIZED] when it is loaded and never
    sets it. *)
Definition statusRoute : IO Response :=
  startTime <- Date_now ;;
  signed <-
    createDUIXToken IS_PRODUCTION TOKEN_EXPIRY privateKey DUIX_APP_ID
      DUIX_APP_KEY None ;;
  duixStatus <-
    match signed with
    | inl token =>
        settled <- axios (statusProbe token) ;;
        ret match settled with
            | inl response =>
                if Axios.status response =? 200 then "healthy" else "degraded"
            | inr _ => "unhealthy"
            end
    | inr _ => ret "unhealthy"
    end ;;
  endTime <- Date_now ;;
  let sslValidationEnabled :=
    IS_PRODUCTION
    || match DISABLE_SSL_VALIDATION with
       | Some v => negb (String.eqb v "true")
       | None => true
       end in
  t_stamp <- Date_now ;;
  ret (mkResponse 200
         (Js.JObject
            [ ("status", Js.JString "operational");
              ("timestamp", Js.JIsoDate t_stamp);
              ("environment",
               Js.JString (if IS_PRODUCTION then "production" else "development"));
              ("ssl_validation", Js.JBool sslValidationEnabled);
              ("ssl_validation_details", Js.JObject
                [ ("disable_ssl_validation", Js.of_option DISABLE_SSL_VALIDATION);
                  ("is_production", Js.JBool IS_PRODUCTION);
                  ("node_tls_reject_unauthorized", Js.JUndefined) ]);
              ("duix_api_status", Js.JString duixStatus);
              ("response_time_ms", Js.JNumber (Js.Num (endTime - startTime)));
              ("version", Js.JString "1.0.0");
              ("uptime", process_uptime) ])).

End Env.

End Routes.

(** ** The in-memory rate limiter *)

(** [requestCounts], the [Map] from the address of the client
    ([undefined] is a key like any other) to the times of its requests. *)
Definition RequestCounts : Type := list (option string * list Z).

Definition sameKey (a b : option string) : bool :=
  match a, b with
  | Some x, Some y => String.eqb x y
  | None, None => true
  | _, _ => false
  end.

Fixpoint Map_get (ip : option string) (m : RequestCounts) : option (list Z) :=
  match m with
  | [] => None
  | (k, v) :: rest => if sameKey ip k then Some v else Map_get ip rest
  end.

Fixpoint Map_set (ip : option string) (v : list Z) (m : RequestCounts)
  : RequestCounts :=
  match m with
  | [] => [(ip, v)]
  | (k, x) :: rest =>
      if sameKey ip k then (k, v) :: rest else (k, x) :: Map_set ip v rest
  end.

(** [req.ip || req.connection.remoteAddress]. *)
Definition clientAddress (req : Request) : option string :=
  match ip req with
  | Some s => if String.eqb s "" then remoteAddress req else Some s
  | None => remoteAddress req
  end.

(** The middleware mounted on [/api/] when [express-rate-limit] is not
    installed: [None] is [next()], a response ends the request. *)
Definition rateLimitFallback (requestCounts : RequestCounts) (req : Request)
  : IO (option Response * RequestCounts) :=
  let ip := clientAddress req in
  now <- Date_now ;;
  let windowStart := now - 15 * 60 * 1000 in
  let requestCounts :=
    match Map_get ip requestCounts with
    | Some _ => requestCounts
    | None => Map_set ip [] requestCounts
    end in
  let requests :=
    filter (fun time => windowStart <? time)
      match Map_get ip requestCounts with
      | Some times => times
      | None => []
      end in
  if 100 <=? Z.of_nat (length requests) then
    ret (Some (mkResponse 429
                 (Js.JObject [ ("error", Js.JString "Too many requests") ])),
         requestCounts)
  else
    ret (None, Map_set ip (requests ++ [now]) requestCounts).

(** Requests served one after the other by the middleware. *)
Fixpoint rateLimitAll (requestCounts : RequestCounts) (reqs : list Request)
  : IO (list (option Response) * RequestCounts) :=
  match reqs with
  | [] => ret ([], requestCounts)
  | req :: later =>
      served <- rateLimitFallback requestCounts req ;;
      rest <- rateLimitAll (snd served) later ;;
      ret (fst served :: fst rest, snd rest)
  end.

(** * Properties *)

(** ** Arithmetic on doubles *)

(** On the sample operands the three operations agree with those of the
    reference model of the standard library. *)
Lemma arithmetic_agrees_with_reference :
  map (fun p => Js.sub (fst p) (snd p)) Js.samples
  = map (fun p => Js.of_spec (SpecFloat.SFsub 53 1024 (Js.to_spec (fst p))
                                (Js.to_spec (snd p)))) Js.samples
  /\ map (fun p => Js.add (fst p) (snd p)) Js.samples
     = map (fun p => Js.of_spec (SpecFloat.SFadd 53 1024 (Js.to_spec (fst p))
                                   (Js.to_spec (snd p)))) Js.samples
  /\ map (fun p => Js.mul (fst p) (snd p)) Js.samples
     = map (fun p => Js.of_spec (SpecFloat.SFmul 53 1024 (Js.to_spec (fst p))
                                   (Js.to_spec (snd p)))) Js.samples.
Proof. repeat split; vm_compute; reflexivity. Qed.

(** Integers of magnitude up to [2^53] are doubles, and a sum, a
    difference or a product of two of them that stays in this range is
    computed exactly. *)

Lemma digits_le (z n : Z) : 0 <= n -> Z.abs z < 2 ^ n -> Js.digits z <= n.
Proof.
  intros Hn Hz. unfold Js.digits.
  destruct (Z.eqb_spec z 0) as [-> | Hnz]; [lia|].
  assert (Z.log2 (Z.abs z) < n) by (apply Z.log2_lt_pow2; lia).
  lia.
Qed.

Lemma of_dyadic_small (z : Z) : Z.abs z < 2 ^ 53 -> Js.of_dyadic z 0 = Js.Num z.
Proof.
  intros Hz. pose proof (digits_le z 53 ltac:(lia) Hz) as Hd.
  assert (0 <= Js.digits z).
  { unfold Js.digits. destruct (z =? 0); [lia|].
    pose proof (Z.log2_nonneg (Z.abs z)). lia. }
  unfold Js.of_dyadic, Js.round.
  replace (Z.max (0 + Js.digits z - 53) (-1074) <=? 0) with true
    by (symmetry; apply Z.leb_le; lia).
  replace (1024 <? Js.digits z + 0) with false
    by (symmetry; apply Z.ltb_ge; lia).
  reflexivity.
Qed.

Lemma of_dyadic_safe (z : Z) : Z.abs z <= 2 ^ 53 -> Js.of_dyadic z 0 = Js.Num z.
Proof.
  intros Hz.
  destruct (Z.eq_dec z (2 ^ 53)) as [-> | Hp]; [vm_compute; reflexivity|].
  destruct (Z.eq_dec z (- 2 ^ 53)) as [-> | Hn]; [vm_compute; reflexivity|].
  apply of_dyadic_small. lia.
Qed.

Lemma norm_safe (z : Z) : Z.abs z <= 2 ^ 53 -> Js.norm (Js.Num z) = Js.Num z.
Proof. apply of_dyadic_safe. Qed.

Lemma sub_safe (a b : Z) :
  Z.abs a <= 2 ^ 53 -> Z.abs b <= 2 ^ 53 -> Z.abs (a - b) <= 2 ^ 53 ->
  Js.sub (Js.Num a) (Js.Num b) = Js.Num (a - b).
Proof.
  intros Ha Hb Hab. unfold Js.sub. rewrite (norm_safe a Ha), (norm_safe b Hb).
  cbn [Js.dyadic Z.min Z.compare Z.sub Z.add Z.opp Z.shiftl].
  apply of_dyadic_safe. exact Hab.
Qed.

Lemma add_safe (a b : Z) :
  Z.abs a <= 2 ^ 53 -> Z.abs b <= 2 ^ 53 -> Z.abs (a + b) <= 2 ^ 53 ->
  Js.add (Js.Num a) (Js.Num b) = Js.Num (a + b).
Proof.
  intros Ha Hb Hab. unfold Js.add. rewrite (norm_safe a Ha), (norm_safe b Hb).
  cbn [Js.dyadic Z.min Z.compare Z.sub Z.add Z.opp Z.shiftl].
  apply of_dyadic_safe. exact Hab.
Qed.

Lemma mul_safe (a b : Z) :
  Z.abs a <= 2 ^ 53 -> Z.abs b <= 2 ^ 53 -> Z.abs (a * b) <= 2 ^ 53 ->
  Js.mul (Js.Num a) (Js.Num b) = Js.Num (a * b).
Proof.
  intros Ha Hb Hab. unfold Js.mul. rewrite (norm_safe a Ha), (norm_safe b Hb).
  cbn [Js.dyadic Z.add]. apply of_dyadic_safe. exact Hab.
Qed.

Lemma eq_safe (a b : Z) :
  Z.abs a <= 2 ^ 53 -> Z.abs b <= 2 ^ 53 ->
  Js.eq (Js.Num a) (Js.Num b) = (a =? b).
Proof.
  intros Ha Hb. unfold Js.eq. rewrite (norm_safe a Ha), (norm_safe b Hb).
  reflexivity.
Qed.

Lemma time_value_safe (z : Z) :
  Z.abs z <= 2 ^ 53 ->
  Js.time_value (Js.Num z) = (Z.abs z <=? 8640000000000000).
Proof.
  intros Hz. unfold Js.time_value. rewrite (norm_safe z Hz). reflexivity.
Qed.

(** From [2^53] on, rounding keeps the magnitude at [2^53] or more. *)
Lemma of_dyadic_large (p : Z) :
  2 ^ 53 <= Z.abs p ->
  (exists s, Js.of_dyadic p 0 = Js.Infinity s)
  \/ (exists z, Js.of_dyadic p 0 = Js.Num z /\ 2 ^ 53 <= Z.abs z).
Proof.
  intros Hp.
  assert (H53 : 2 ^ 53 = 9007199254740992) by reflexivity.
  assert (Hpos : 0 < Z.abs p) by lia.
  pose proof (Z.log2_spec (Z.abs p) Hpos) as [Hlow Hhigh].
  assert (Hlog : 53 <= Z.log2 (Z.abs p)).
  { apply Z.log2_le_pow2; lia. }
  set (l := Z.log2 (Z.abs p)) in *.
  unfold Js.of_dyadic, Js.round, Js.digits.
  destruct (Z.eqb_spec p 0) as [-> | Hnz]; [cbn in Hp; lia|].
  fold l.
  replace (0 + (l + 1) - 53) with (l - 52) by lia.
  rewrite Z.max_l by lia.
  destruct (Z.leb_spec (l - 52) 0) as [Hle | _]; [lia|].
  replace (l - 52 - 0) with (l - 52) by lia.
  set (q := Z.abs p / 2 ^ (l - 52)).
  set (up := _ || _).
  assert (Hq : 2 ^ 52 <= q).
  { subst q. apply Z.div_le_lower_bound; [apply Z.pow_pos_nonneg; lia|].
    rewrite <- Z.pow_add_r by lia.
    replace (l - 52 + 52) with l by lia. exact Hlow. }
  set (q' := if up then q + 1 else q).
  assert (Hq' : 2 ^ 52 <= q') by (subst q'; destruct up; lia).
  set (m' := Z.sgn p * q').
  assert (Habs : Z.abs m' = q').
  { subst m'. rewrite Z.abs_mul.
    destruct p; [contradiction| |]; cbn [Z.sgn Z.abs]; rewrite Z.abs_eq; lia. }
  destruct (1024 <? _); [left; eexists; reflexivity|].
  right. destruct (Z.leb_spec 0 (l - 52)) as [_ | Hneg]; [|lia].
  eexists. split; [reflexivity|].
  rewrite Z.shiftl_mul_pow2 by lia.
  rewrite Z.abs_mul, Habs.
  rewrite (Z.abs_eq (2 ^ (l - 52))) by (apply Z.pow_nonneg; lia).
  assert (2 <= 2 ^ (l - 52)).
  { change 2 with (2 ^ 1) at 1. apply Z.pow_le_mono_r; lia. }
  nia.
Qed.

(** An integer is a time value exactly up to 8.64e15. *)
Lemma time_value_Num (z : Z) :
  Js.time_value (Js.Num z) = (Z.abs z <=? 8640000000000000).
Proof.
  assert (H53 : 2 ^ 53 = 9007199254740992) by reflexivity.
  destruct (Z.le_gt_cases (Z.abs z) (2 ^ 53)) as [Hsafe | Hlarge].
  - apply time_value_safe. exact Hsafe.
  - unfold Js.time_value. cbn [Js.norm Js.dyadic].
    destruct (of_dyadic_large z ltac:(lia)) as [[s ->] | (z' & -> & Hz')].
    + symmetry. apply Z.leb_gt. lia.
    + transitivity false; [apply Z.leb_gt; lia | symmetry; apply Z.leb_gt; lia].
Qed.

Lemma time_value_large (p : Z) :
  2 ^ 53 <= Z.abs p -> Js.time_value (Js.of_dyadic p 0) = false.
Proof.
  intros Hp.
  assert (H53 : 2 ^ 53 = 9007199254740992) by reflexivity.
  destruct (of_dyadic_large p Hp) as [[s ->] | (z & -> & Hz)]; [reflexivity|].
  rewrite time_value_Num. apply Z.leb_gt. lia.
Qed.

Lemma time_value_product (a b : Z) :
  Z.abs a <= 2 ^ 53 -> Z.abs b <= 2 ^ 53 ->
  Js.time_value (Js.mul (Js.Num a) (Js.Num b))
  = (Z.abs (a * b) <=? 8640000000000000).
Proof.
  intros Ha Hb.
  assert (H53 : 2 ^ 53 = 9007199254740992) by reflexivity.
  unfold Js.mul. rewrite (norm_safe a Ha), (norm_safe b Hb).
  cbn [Js.dyadic Z.add].
  destruct (Z.le_gt_cases (Z.abs (a * b)) (2 ^ 53)) as [Hsafe | Hlarge].
  - rewrite (of_dyadic_safe _ Hsafe). apply time_value_Num.
  - rewrite time_value_large by lia. symmetry. apply Z.leb_gt. lia.
Qed.

(** A numeral of an integer is falsy exactly for 0. *)
Lemma truthy_Num (z : Z) : Js.truthy (Js.JNumber (Js.Num z)) = negb (z =? 0).
Proof.
  assert (H53 : 2 ^ 53 = 9007199254740992) by reflexivity.
  unfold Js.truthy.
  destruct (Z.le_gt_cases (Z.abs z) (2 ^ 53)) as [Hsafe | Hlarge].
  - rewrite (norm_safe z Hsafe). reflexivity.
  - cbn [Js.norm Js.dyadic].
    destruct (Z.eqb_spec z 0) as [-> | Hz]; [cbn in Hlarge; lia|].
    destruct (of_dyadic_large z ltac:(lia)) as [[s ->] | (z' & -> & Hz')];
      [reflexivity|].
    destruct (Z.eqb_spec z' 0) as [-> | _]; [cbn in Hz'; lia | reflexivity].
Qed.

(** Rounding never makes a NaN. *)
Lemma lowest_not_nan (fuel : nat) : forall m k, Js.lowest fuel m k <> Js.NaN.
Proof.
  induction fuel as [|fuel IH]; intros m k; cbn [Js.lowest]; [discriminate|].
  destruct (Z.odd m); [discriminate | apply IH].
Qed.

Lemma of_dyadic_not_nan (m e : Z) : Js.of_dyadic m e <> Js.NaN.
Proof.
  unfold Js.of_dyadic. destruct (Js.round m e) as [m' e'].
  destruct (1024 <? Js.digits m' + e'); [discriminate|].
  destruct (0 <=? e'); [discriminate | apply lowest_not_nan].
Qed.

Lemma sub_nan_r (a : Js.number) : Js.sub a Js.NaN = Js.NaN.
Proof. unfold Js.sub. cbn [Js.norm Js.dyadic]. destruct (Js.norm a); reflexivity. Qed.

(** A difference with a finite left operand is NaN only for a NaN. *)
Lemma sub_is_nan (r : Z) (x : Js.number) :
  Z.abs r <= 2 ^ 53 -> Js.is_nan (Js.sub (Js.Num r) x) = Js.is_nan x.
Proof.
  intros Hr. unfold Js.sub. rewrite (norm_safe r Hr).
  destruct x as [|z|s|m k]; cbn [Js.is_nan]; [reflexivity| | reflexivity|].
  - destruct (Js.norm (Js.Num z)) as [|z'|s'|m' k'] eqn:Hn;
      [exfalso; exact (of_dyadic_not_nan _ _ Hn)| | reflexivity|];
      cbn [Js.dyadic];
      match goal with |- Js.is_nan ?v = false =>
        destruct v eqn:Hv; try reflexivity;
        exfalso; exact (of_dyadic_not_nan _ _ Hv) end.
  - destruct (Js.norm (Js.Frac m k)) as [|z'|s'|m' k'] eqn:Hn;
      [exfalso; exact (of_dyadic_not_nan _ _ Hn)| | reflexivity|];
      cbn [Js.dyadic];
      match goal with |- Js.is_nan ?v = false =>
        destruct v eqn:Hv; try reflexivity;
        exfalso; exact (of_dyadic_not_nan _ _ Hv) end.
Qed.


(** ** Running the state monad *)

Lemma run_bind {A B : Type} (m : IO A) (k : A -> IO B) (w : World) :
  runState (bind m k) w = runState (k (fst (runState m w))) (snd (runState m w)).
Proof.
  cbn. destruct (runState m w). reflexivity.
Qed.

Lemma run_ret {A : Type} (a : A) (w : World) :
  runState (ret a : IO A) w = (a, w).
Proof. reflexivity. Qed.

Lemma run_Date_now (w : World) :
  runState Date_now w = (clock w (ticks w), tick w).
Proof. reflexivity. Qed.

Lemma run_readBreaker (w : World) :
  runState readBreaker w = (duixApiCircuitBreaker w, w).
Proof. reflexivity. Qed.

Lemma run_writeBreaker (cb : CircuitBreaker) (w : World) :
  runState (writeBreaker cb) w = (tt, setBreaker cb w).
Proof. reflexivity. Qed.

(** ** The circuit breaker *)

Lemma run_updateCircuitBreaker_success (w : World) :
  runState (updateCircuitBreaker true) w =
  (tt, setBreaker
         (mkBreaker 0 (lastFailureTime (duixApiCircuitBreaker w)) CLOSED
            (failureThreshold (duixApiCircuitBreaker w))
            (recoveryTimeoutMs (duixApiCircuitBreaker w))) w).
Proof. reflexivity. Qed.

Lemma run_updateCircuitBreaker_failure (w : World) :
  runState (updateCircuitBreaker false) w =
  (tt, setBreaker
         (mkBreaker (failures (duixApiCircuitBreaker w) + 1)
            (clock w (ticks w))
            (if failureThreshold (duixApiCircuitBreaker w)
                <=? failures (duixApiCircuitBreaker w) + 1
             then OPEN else state (duixApiCircuitBreaker w))
            (failureThreshold (duixApiCircuitBreaker w))
            (recoveryTimeoutMs (duixApiCircuitBreaker w))) (tick w)).
Proof. reflexivity. Qed.

(** While the breaker is OPEN and the recovery time has not passed, a
    probe is refused and only the clock has been read. *)
Lemma run_shouldAttempt_refused (w : World) :
  state (duixApiCircuitBreaker w) = OPEN ->
  clock w (ticks w) - lastFailureTime (duixApiCircuitBreaker w)
    <= recoveryTimeoutMs (duixApiCircuitBreaker w) ->
  runState shouldAttemptDuixCall w = (false, tick w).
Proof.
  intros Hopen Hwait.
  unfold shouldAttemptDuixCall.
  rewrite run_bind, run_Date_now. cbn [fst snd].
  rewrite run_bind, run_readBreaker. cbn [fst snd].
  change (duixApiCircuitBreaker (tick w)) with (duixApiCircuitBreaker w).
  rewrite Hopen.
  destruct (Z.ltb_spec (recoveryTimeoutMs (duixApiCircuitBreaker w))
              (clock w (ticks w) - lastFailureTime (duixApiCircuitBreaker w)));
    [lia | reflexivity].
Qed.

(** Once the recovery time has passed, the probe of an OPEN breaker is
    admitted and the breaker is HALF_OPEN. *)
Lemma run_shouldAttempt_recovered (w : World) :
  state (duixApiCircuitBreaker w) = OPEN ->
  recoveryTimeoutMs (duixApiCircuitBreaker w)
    < clock w (ticks w) - lastFailureTime (duixApiCircuitBreaker w) ->
  runState shouldAttemptDuixCall w =
  (true, setBreaker
           (mkBreaker (failures (duixApiCircuitBreaker w))
              (lastFailureTime (duixApiCircuitBreaker w)) HALF_OPEN
              (failureThreshold (duixApiCircuitBreaker w))
              (recoveryTimeoutMs (duixApiCircuitBreaker w))) (tick w)).
Proof.
  intros Hopen Hlate.
  unfold shouldAttemptDuixCall.
  rewrite run_bind, run_Date_now. cbn [fst snd].
  rewrite run_bind, run_readBreaker. cbn [fst snd].
  change (duixApiCircuitBreaker (tick w)) with (duixApiCircuitBreaker w).
  rewrite Hopen.
  destruct (Z.ltb_spec (recoveryTimeoutMs (duixApiCircuitBreaker w))
              (clock w (ticks w) - lastFailureTime (duixApiCircuitBreaker w)));
    [reflexivity | lia].
Qed.

(** A breaker that is not OPEN admits the call and is left as it is. *)
Lemma run_shouldAttempt_not_open (w : World) :
  state (duixApiCircuitBreaker w) <> OPEN ->
  runState shouldAttemptDuixCall w = (true, tick w).
Proof.
  intros Hstate.
  unfold shouldAttemptDuixCall.
  rewrite run_bind, run_Date_now. cbn [fst snd].
  rewrite run_bind, run_readBreaker. cbn [fst snd].
  change (duixApiCircuitBreaker (tick w)) with (duixApiCircuitBreaker w).
  destruct (state (duixApiCircuitBreaker w)); [reflexivity | congruence | reflexivity].
Qed.

(** Any number of probes inside the recovery window are all refused. *)
Lemma run_probes_refused (n : nat) : forall w : World,
  state (duixApiCircuitBreaker w) = OPEN ->
  (forall k, (k < n)%nat ->
     clock w (ticks w + k) - lastFailureTime (duixApiCircuitBreaker w)
       <= recoveryTimeoutMs (duixApiCircuitBreaker w)) ->
  runState (times n shouldAttemptDuixCall) w =
  (repeat false n, Nat.iter n tick w).
Proof.
  induction n as [|n IH]; intros w Hopen Hwait.
  - reflexivity.
  - cbn [times]. rewrite run_bind.
    rewrite (run_shouldAttempt_refused w Hopen).
    2:{ specialize (Hwait O). rewrite Nat.add_0_r in Hwait. apply Hwait. lia. }
    cbn [fst snd]. rewrite run_bind.
    rewrite (IH (tick w)).
    + cbn [fst snd]. rewrite run_ret. cbn [repeat]. f_equal.
      symmetry. apply Nat.iter_succ_r.
    + exact Hopen.
    + intros k Hk. specialize (Hwait (S k)).
      cbn [tick ticks clock duixApiCircuitBreaker].
      replace (S (ticks w) + k)%nat with (ticks w + S k)%nat by lia.
      apply Hwait. lia.
Qed.

(** Five failures in a row, from the breaker the module starts with. *)
Lemma run_five_failures (w : World) :
  duixApiCircuitBreaker w = initialCircuitBreaker ->
  execState (times 5 (updateCircuitBreaker false)) w =
  setBreaker (mkBreaker 5 (clock w (4 + ticks w)) OPEN 5 60000)
    (Nat.iter 5 tick w).
Proof.
  destruct w as [c t cb u s r d sl]. cbn [duixApiCircuitBreaker].
  intros ->. reflexivity.
Qed.

Lemma breaker_of_ticks (n : nat) (w : World) :
  duixApiCircuitBreaker (Nat.iter n tick w) = duixApiCircuitBreaker w.
Proof.
  induction n as [|n IH]; [reflexivity | exact IH].
Qed.

(** C1. From the initial CLOSED breaker, five [updateCircuitBreaker(false)]
    in a row open it; every [shouldAttemptDuixCall()] whose reading of the
    clock is at most 60000 ms after the last recorded failure returns
    false and leaves the breaker as it is; the first one whose reading is
    more than 60000 ms after it returns true and makes the breaker
    HALF_OPEN; one [updateCircuitBreaker(true)] then sets the failure
    count to 0 and the mode to CLOSED. *)
Theorem breaker_trips_and_recovers (w : World) (n : nat) :
  duixApiCircuitBreaker w = initialCircuitBreaker ->
  let tripped := execState (times 5 (updateCircuitBreaker false)) w in
  let lastFailure := lastFailureTime (duixApiCircuitBreaker tripped) in
  (forall k, (k < n)%nat ->
     clock tripped (ticks tripped + k) - lastFailure <= 60000) ->
  60000 < clock tripped (ticks tripped + n) - lastFailure ->
  let refused := runState (times n shouldAttemptDuixCall) tripped in
  let probe := runState shouldAttemptDuixCall (snd refused) in
  let recovered := execState (updateCircuitBreaker true) (snd probe) in
  lastFailure = clock w (4 + ticks w)
  /\ state (duixApiCircuitBreaker tripped) = OPEN
  /\ failures (duixApiCircuitBreaker tripped) = 5
  /\ fst refused = repeat false n
  /\ duixApiCircuitBreaker (snd refused) = duixApiCircuitBreaker tripped
  /\ fst probe = true
  /\ state (duixApiCircuitBreaker (snd probe)) = HALF_OPEN
  /\ failures (duixApiCircuitBreaker recovered) = 0
  /\ state (duixApiCircuitBreaker recovered) = CLOSED.
Proof.
  intros Hinit tripped lastFailure.
  assert (Htripped : tripped =
            setBreaker (mkBreaker 5 (clock w (4 + ticks w)) OPEN 5 60000)
              (Nat.iter 5 tick w))
    by (apply run_five_failures; exact Hinit).
  subst lastFailure. rewrite Htripped. clear tripped Htripped.
  set (v := setBreaker _ _).
  intros Hwait Hlate refused probe recovered.
  assert (Hrefused : refused = (repeat false n, Nat.iter n tick v)).
  { apply run_probes_refused; [reflexivity | exact Hwait]. }
  assert (Hticks : forall m x, ticks (Nat.iter m tick x) = (ticks x + m)%nat).
  { clear. induction m as [|m IH]; intros x.
    - cbn. lia.
    - change (Nat.iter (S m) tick x) with (tick (Nat.iter m tick x)).
      cbn [tick ticks]. rewrite IH. lia. }
  assert (Hclock : forall m x, clock (Nat.iter m tick x) = clock x).
  { clear. induction m as [|m IH]; intros x; [reflexivity | exact (IH x)]. }
  assert (Hprobe : probe =
            (true, setBreaker
                     (mkBreaker 5 (clock w (4 + ticks w)) HALF_OPEN 5 60000)
                     (tick (Nat.iter n tick v)))).
  { subst probe. rewrite Hrefused. cbn [snd].
    rewrite run_shouldAttempt_recovered.
    - rewrite breaker_of_ticks. reflexivity.
    - rewrite breaker_of_ticks. reflexivity.
    - rewrite breaker_of_ticks, Hticks, Hclock. exact Hlate. }
  subst recovered. rewrite Hprobe, Hrefused. cbn [fst snd].
  rewrite breaker_of_ticks.
  repeat split.
Qed.

Lemma breaker_trips_and_recovers_witness :
  let w := mkWorld (fun k => Z.of_nat k * 20000) 0 initialCircuitBreaker
             (fun _ _ => Axios.Failed None "") [] (fun _ => 0%Q) 0 [] (fun _ => None) in
  let tripped := execState (times 5 (updateCircuitBreaker false)) w in
  fst (runState (times 3 shouldAttemptDuixCall) tripped) = [false; false; false]
  /\ fst (runState shouldAttemptDuixCall
            (snd (runState (times 3 shouldAttemptDuixCall) tripped))) = true.
Proof.
  intros w tripped.
  assert (Hinit : duixApiCircuitBreaker w = initialCircuitBreaker) by reflexivity.
  assert (Hwait : forall k, (k < 3)%nat ->
            clock tripped (ticks tripped + k)
              - lastFailureTime (duixApiCircuitBreaker tripped) <= 60000).
  { intros k Hk.
    destruct k as [|[|[|k]]]; [vm_compute; discriminate .. | lia]. }
  assert (Hlate : 60000 < clock tripped (ticks tripped + 3)
                          - lastFailureTime (duixApiCircuitBreaker tripped))
    by reflexivity.
  pose proof (breaker_trips_and_recovers w 3 Hinit Hwait Hlate) as H.
  cbv zeta in H.
  destruct H as (_ & _ & _ & Hrefused & _ & Hprobe & _).
  split; [exact Hrefused | exact Hprobe].
Defined.

(** A refusal leaves the world as it was, one reading of the clock apart. *)
Lemma shouldAttempt_false_world (w : World) :
  evalState shouldAttemptDuixCall w = false ->
  runState shouldAttemptDuixCall w = (false, tick w).
Proof.
  unfold evalState, shouldAttemptDuixCall.
  rewrite run_bind, run_Date_now. cbn [fst snd].
  rewrite run_bind, run_readBreaker. cbn [fst snd].
  change (duixApiCircuitBreaker (tick w)) with (duixApiCircuitBreaker w).
  destruct (state (duixApiCircuitBreaker w)); cbn; try discriminate.
  destruct (recoveryTimeoutMs (duixApiCircuitBreaker w)
            <? clock w (ticks w) - lastFailureTime (duixApiCircuitBreaker w));
    cbn; [discriminate | reflexivity].
Qed.

(** An admitted call: the check reads the clock once and, at most, moves
    an OPEN breaker to HALF_OPEN. *)
Lemma shouldAttempt_true_world (w : World) :
  evalState shouldAttemptDuixCall w = true ->
  exists cb,
    runState shouldAttemptDuixCall w = (true, setBreaker cb (tick w))
    /\ failures cb = failures (duixApiCircuitBreaker w)
    /\ state cb <> OPEN.
Proof.
  unfold evalState, shouldAttemptDuixCall.
  rewrite run_bind, run_Date_now. cbn [fst snd].
  rewrite run_bind, run_readBreaker. cbn [fst snd].
  change (duixApiCircuitBreaker (tick w)) with (duixApiCircuitBreaker w).
  destruct w as [c t cb u s r d sl]. cbn [duixApiCircuitBreaker].
  destruct cb as [f l st th rt]. cbn [state].
  destruct st; cbn.
  - intros _. eexists (mkBreaker f l CLOSED th rt).
    repeat split; discriminate.
  - destruct (rt <? c t - l); cbn; [|discriminate].
    intros _. eexists. repeat split; discriminate.
  - intros _. eexists (mkBreaker f l HALF_OPEN th rt).
    repeat split; discriminate.
Qed.

Section ServerProperties.

Variable IS_PRODUCTION : bool.
Variable DISABLE_SSL_VALIDATION : option string.
Variable AWS_REGION : option string.
Variable process_version : string.

Local Abbreviation createFallbackResponse :=
  (createFallbackResponse AWS_REGION).
Local Abbreviation fallbackObject := (fallbackObject AWS_REGION).
Local Abbreviation duixRequest :=
  (duixRequest IS_PRODUCTION DISABLE_SSL_VALIDATION AWS_REGION process_version).
Local Abbreviation duixSuccess := (duixSuccess IS_PRODUCTION AWS_REGION).
Local Abbreviation attemptLoop :=
  (attemptLoop IS_PRODUCTION DISABLE_SSL_VALIDATION AWS_REGION process_version).
Local Abbreviation callDUIXServiceWithToken :=
  (callDUIXServiceWithToken IS_PRODUCTION DISABLE_SSL_VALIDATION AWS_REGION
     process_version).
Local Abbreviation maxRetries := (maxRetries IS_PRODUCTION).
Local Abbreviation baseTimeout := (baseTimeout IS_PRODUCTION).

Lemma run_createFallbackResponse question startTime errorInfo (w : World) :
  runState (createFallbackResponse question startTime errorInfo) w =
  (fallbackObject question startTime errorInfo w, tick (tick (tick w))).
Proof. reflexivity. Qed.

Lemma run_axios (cfg : Axios.config) (w : World) :
  runState (axios cfg) w =
  (Axios.settle (clientCode w) cfg (upstream w (length (sent w)) cfg),
   mkWorld (clock w) (ticks w) (duixApiCircuitBreaker w) (upstream w)
     (sent w ++ [cfg]) (random w) (draws w) (slept w) (clientCode w)).
Proof. reflexivity. Qed.

(** A failing outcome rejects the promise of an executor request. *)
Lemma settle_failing offTable apiUrl appId clientToken B attempt
  (o : Axios.outcome) :
  failing o = true ->
  exists error,
    Axios.settle offTable (duixRequest apiUrl appId clientToken B attempt) o
    = inr error.
Proof.
  destruct o as [st body | c m]; cbn [failing Axios.settle]; intros Hfail.
  - cbn [Axios.validateStatus duixRequest Server.duixRequest].
    destruct (Z.ltb_spec st 500) as [Hlt | Hge].
    + apply Z.leb_le in Hfail. lia.
    + eexists. reflexivity.
  - eexists. reflexivity.
Qed.

(** A rejected attempt that is not the last: the executor draws the
    jitter, waits, and goes on with the attempts that remain. *)
Lemma run_attempt_rejected_retry question apiUrl appId clientToken now M B
  attempt later (w : World) (error : Axios.error) :
  Axios.settle (clientCode w) (duixRequest apiUrl appId clientToken B attempt)
    (upstream w (length (sent w))
       (duixRequest apiUrl appId clientToken B attempt)) = inr error ->
  attempt <> M ->
  runState (attemptLoop question apiUrl appId clientToken now M B
              (attempt :: later)) w =
  runState (attemptLoop question apiUrl appId clientToken now M B later)
    (mkWorld (clock w) ((if IS_PRODUCTION then 2 else 1) + ticks w)
       (duixApiCircuitBreaker w) (upstream w)
       (sent w ++ [duixRequest apiUrl appId clientToken B attempt])
       (random w) (S (draws w))
       (slept w ++ [backoffMs attempt (random w (draws w))]) (clientCode w)).
Proof.
  intros Hsettle Hnotlast.
  cbn [Server.attemptLoop].
  rewrite run_bind, run_axios, Hsettle. cbn [fst snd].
  apply Z.eqb_neq in Hnotlast.
  destruct IS_PRODUCTION; cbn; rewrite Hnotlast; reflexivity.
Qed.

(** A rejected last attempt: one failure goes to the breaker and the
    fallback carries the attempt count and the error. *)
Lemma run_attempt_rejected_last question apiUrl appId clientToken now M B
  later (w : World) (error : Axios.error) :
  Axios.settle (clientCode w) (duixRequest apiUrl appId clientToken B M)
    (upstream w (length (sent w))
       (duixRequest apiUrl appId clientToken B M)) = inr error ->
  let logged :=
    mkWorld (clock w) ((if IS_PRODUCTION then 2 else 1) + ticks w)
      (duixApiCircuitBreaker w) (upstream w)
      (sent w ++ [duixRequest apiUrl appId clientToken B M])
      (random w) (draws w) (slept w) (clientCode w) in
  let recorded := execState (updateCircuitBreaker false) logged in
  runState (attemptLoop question apiUrl appId clientToken now M B
              (M :: later)) w =
  runState
    (createFallbackResponse question now
       (Js.JObject
          [ ("error", Js.JString "DUIX API unavailable");
            ("attempts", Js.JNumber (Js.Num M));
            ("last_error", Js.JString (errorCodeOf error));
            ("circuit_breaker_state",
             Js.JString
               (BreakerState_name (state (duixApiCircuitBreaker recorded)))) ]))
    recorded.
Proof.
  intros Hsettle logged recorded.
  cbn [Server.attemptLoop].
  rewrite run_bind, run_axios, Hsettle. cbn [fst snd].
  subst recorded logged.
  destruct IS_PRODUCTION; cbn; rewrite Z.eqb_refl; reflexivity.
Qed.

(** The loop on an upstream that always fails: every attempt is sent, one
    failure is recorded, the fallback reports the attempt count. *)
Lemma attemptLoop_exhausts question apiUrl appId clientToken now M B
  (early : list Z) : forall w : World,
  Forall (fun attempt => attempt <> M) early ->
  alwaysFails w ->
  let result :=
    runState (attemptLoop question apiUrl appId clientToken now M B
                (early ++ [M])) w in
  sent (snd result) =
    (sent w ++ map (duixRequest apiUrl appId clientToken B) (early ++ [M]))%list
  /\ failures (duixApiCircuitBreaker (snd result))
     = failures (duixApiCircuitBreaker w) + 1
  /\ Js.prop "fallback_mode" (Js.prop "data" (fst result)) = Js.JBool true
  /\ Js.prop "attempts" (Js.prop "error_info" (Js.prop "data" (fst result)))
     = Js.JNumber (Js.Num M).
Proof.
  induction early as [|attempt early IH]; intros w Hearly Hfails.
  - cbn [app].
    destruct (settle_failing (clientCode w) apiUrl appId clientToken B M _
                (Hfails (length (sent w))
                   (duixRequest apiUrl appId clientToken B M)))
      as [error Hsettle].
    cbv zeta.
    rewrite (run_attempt_rejected_last question apiUrl appId clientToken now M B
               [] w error Hsettle).
    rewrite run_createFallbackResponse. cbn [fst snd].
    repeat split.
  - inversion Hearly as [|? ? Hattempt Hrest]; subst.
    destruct (settle_failing (clientCode w) apiUrl appId clientToken B attempt _
                (Hfails (length (sent w))
                   (duixRequest apiUrl appId clientToken B attempt)))
      as [error Hsettle].
    cbv zeta. change ((attempt :: early) ++ [M])%list with (attempt :: (early ++ [M])%list).
    rewrite (run_attempt_rejected_retry question apiUrl appId clientToken now M B
               attempt (early ++ [M])%list w error Hsettle Hattempt).
    match goal with |- context [runState _ ?v] => set (w1 := v) end.
    specialize (IH w1 Hrest).
    assert (Hfails1 : alwaysFails w1) by exact Hfails.
    specialize (IH Hfails1). cbv zeta in IH.
    destruct IH as (Hsent & Hcount & Hmode & Hattempts).
    repeat split; [| exact Hcount | exact Hmode | exact Hattempts].
    rewrite Hsent. subst w1. cbn [sent map]. rewrite <- app_assoc. reflexivity.
Qed.

(** A resolved attempt ends the loop with the [return] of the [try]
    block. *)
Lemma run_attempt_resolved question apiUrl appId clientToken now M B
  attempt later (w : World) (response : Axios.response) :
  Axios.settle (clientCode w) (duixRequest apiUrl appId clientToken B attempt)
    (upstream w (length (sent w))
       (duixRequest apiUrl appId clientToken B attempt)) = inl response ->
  runState (attemptLoop question apiUrl appId clientToken now M B
              (attempt :: later)) w =
  runState (duixSuccess question now response)
    (mkWorld (clock w) (ticks w) (duixApiCircuitBreaker w) (upstream w)
       (sent w ++ [duixRequest apiUrl appId clientToken B attempt])
       (random w) (draws w) (slept w) (clientCode w)).
Proof.
  intros Hsettle.
  cbn [Server.attemptLoop].
  rewrite run_bind, run_axios, Hsettle. reflexivity.
Qed.

(** What the [return] of the [try] block leaves and answers. *)
Lemma run_duixSuccess question now (response : Axios.response) (w : World) :
  let result := runState (duixSuccess question now response) w in
  let data := Js.prop "data" (fst result) in
  sent (snd result) = sent w
  /\ failures (duixApiCircuitBreaker (snd result)) = 0
  /\ state (duixApiCircuitBreaker (snd result)) = CLOSED
  /\ Js.keys_of (fst result) = ["session_id"; "data"]
  /\ Js.prop "concurrent_info" data = Axios.data response
  /\ Js.prop "api_status" data = Js.JNumber (Js.Num (Axios.status response))
  /\ Js.prop "api_call_successful" data
     = Js.JBool (Axios.status response =? 200)
  /\ Js.prop "response_time_ms" data
     = Js.JNumber
         (Js.Num (clock w ((if IS_PRODUCTION then 1 else 2) + ticks w) - now))
  /\ Js.prop "circuit_breaker_state" data = Js.JString "CLOSED"
  /\ Js.prop "real_api_response" data = Js.JBool true
  /\ Js.prop "fallback_mode" data = Js.JUndefined.
Proof.
  destruct IS_PRODUCTION; cbn; repeat split.
Qed.

(** The attempts of the loop: all but the last differ from [maxRetries]. *)
Lemma upto_maxRetries :
  exists early,
    upto maxRetries = (early ++ [maxRetries])%list
    /\ Forall (fun attempt => attempt <> maxRetries) early.
Proof.
  unfold Server.maxRetries. destruct IS_PRODUCTION.
  - exists [1]. split; [reflexivity|]. repeat constructor; discriminate.
  - exists [1; 2]. split; [reflexivity|]. repeat constructor; discriminate.
Qed.

(** C2. When the breaker admits the call and every attempt fails below
    HTTP or with a status of 500 and above, the executor sends exactly the
    requests of attempts 1 to [maxRetries], attempt [k] with the timeout
    [baseTimeout + k * 2000] (larger for a later attempt), adds one to the
    failure count of the breaker, and returns a fallback response whose
    [error_info.attempts] is [maxRetries]; [maxRetries] is 2 and
    [baseTimeout] 15000 in production, 3 and 20000 otherwise. *)
Theorem retry_exhaustion question apiUrl appId clientToken (w : World) :
  alwaysFails w ->
  evalState shouldAttemptDuixCall (tick w) = true ->
  let result :=
    runState (callDUIXServiceWithToken question apiUrl appId clientToken) w in
  let data := Js.prop "data" (fst result) in
  let request := duixRequest apiUrl appId clientToken baseTimeout in
  sent (snd result) = (sent w ++ map request (upto maxRetries))%list
  /\ length (map request (upto maxRetries)) = Z.to_nat maxRetries
  /\ (forall k, Axios.timeout (request k) = baseTimeout + k * 2000)
  /\ (forall j k, j < k -> Axios.timeout (request j) < Axios.timeout (request k))
  /\ failures (duixApiCircuitBreaker (snd result))
     = failures (duixApiCircuitBreaker w) + 1
  /\ Js.prop "fallback_mode" data = Js.JBool true
  /\ Js.prop "attempts" (Js.prop "error_info" data)
     = Js.JNumber (Js.Num maxRetries)
  /\ maxRetries = (if IS_PRODUCTION then 2 else 3)
  /\ baseTimeout = (if IS_PRODUCTION then 15000 else 20000).
Proof.
  intros Hfails Hadmit result data request.
  destruct (shouldAttempt_true_world (tick w) Hadmit) as (cb & Hrun & Hcount & _).
  destruct upto_maxRetries as (early & Hupto & Hearly).
  pose proof (attemptLoop_exhausts question apiUrl appId clientToken
                (clock w (ticks w)) maxRetries baseTimeout early
                (setBreaker cb (tick (tick w))) Hearly Hfails) as Hloop.
  cbv zeta in Hloop. rewrite <- Hupto in Hloop.
  assert (Hresult : result =
            runState (attemptLoop question apiUrl appId clientToken
                        (clock w (ticks w)) maxRetries baseTimeout
                        (upto maxRetries))
              (setBreaker cb (tick (tick w)))).
  { subst result. unfold Server.callDUIXServiceWithToken.
    rewrite run_bind, run_Date_now. cbn [fst snd].
    rewrite run_bind, Hrun. reflexivity. }
  subst data. rewrite Hresult.
  destruct Hloop as (Hsent & Hfailures & Hmode & Hattempts).
  split; [exact Hsent|].
  split; [rewrite length_map; unfold upto; rewrite length_map, length_seq;
          reflexivity|].
  split; [reflexivity|].
  split; [intros j k Hjk; unfold request;
          cbn [Axios.timeout Server.duixRequest]; lia|].
  split; [rewrite Hfailures; cbn [setBreaker duixApiCircuitBreaker];
          rewrite Hcount; reflexivity|].
  split; [exact Hmode|].
  split; [exact Hattempts|].
  split; reflexivity.
Qed.

(** C3. When the breaker admits the call and the first attempt is answered
    with a status below 500, the executor sends that one request, records
    a success (failure count 0, mode CLOSED) and returns the upstream body
    unchanged as [concurrent_info], with the status, the elapsed time and
    the breaker state beside it, and no fallback marker. *)
Theorem non_retryable_short_circuit question apiUrl appId clientToken
  (w : World) (status : Z) (body : Js.value) :
  evalState shouldAttemptDuixCall (tick w) = true ->
  upstream w (length (sent w))
    (duixRequest apiUrl appId clientToken baseTimeout 1)
    = Axios.Replied status body ->
  status < 500 ->
  let result :=
    runState (callDUIXServiceWithToken question apiUrl appId clientToken) w in
  let data := Js.prop "data" (fst result) in
  sent (snd result)
    = (sent w ++ [duixRequest apiUrl appId clientToken baseTimeout 1])%list
  /\ failures (duixApiCircuitBreaker (snd result)) = 0
  /\ state (duixApiCircuitBreaker (snd result)) = CLOSED
  /\ Js.prop "concurrent_info" data = body
  /\ Js.prop "api_status" data = Js.JNumber (Js.Num status)
  /\ Js.prop "api_call_successful" data = Js.JBool (status =? 200)
  /\ Js.prop "response_time_ms" data
     = Js.JNumber
         (Js.Num (clock w ((if IS_PRODUCTION then 3 else 4) + ticks w)
                  - clock w (ticks w)))
  /\ Js.prop "circuit_breaker_state" data = Js.JString "CLOSED"
  /\ Js.prop "real_api_response" data = Js.JBool true
  /\ Js.prop "fallback_mode" data = Js.JUndefined.
Proof.
  intros Hadmit Hreply Hstatus result data.
  destruct (shouldAttempt_true_world (tick w) Hadmit) as (cb & Hrun & _ & _).
  set (admitted := setBreaker cb (tick (tick w))) in *.
  assert (Hupto : exists later, upto maxRetries = 1 :: later).
  { unfold Server.maxRetries. destruct IS_PRODUCTION; eexists; reflexivity. }
  destruct Hupto as [later Hupto].
  assert (Hsettle :
            Axios.settle (clientCode admitted) (duixRequest apiUrl appId clientToken baseTimeout 1)
              (upstream admitted (length (sent admitted))
                 (duixRequest apiUrl appId clientToken baseTimeout 1))
            = inl (Axios.mkResponse status body)).
  { change (upstream admitted) with (upstream w).
    change (sent admitted) with (sent w). rewrite Hreply.
    cbn [Axios.settle Axios.validateStatus Server.duixRequest].
    apply Z.ltb_lt in Hstatus. rewrite Hstatus. reflexivity. }
  assert (Hresult : result =
            runState (duixSuccess question (clock w (ticks w))
                        (Axios.mkResponse status body))
              (mkWorld (clock admitted) (ticks admitted)
                 (duixApiCircuitBreaker admitted) (upstream admitted)
                 (sent admitted
                    ++ [duixRequest apiUrl appId clientToken baseTimeout 1])
                 (random admitted) (draws admitted) (slept admitted) (clientCode admitted))).
  { subst result. unfold Server.callDUIXServiceWithToken.
    rewrite run_bind, run_Date_now. cbn [fst snd].
    rewrite run_bind, Hrun. cbn [fst snd negb].
    rewrite Hupto.
    apply (run_attempt_resolved question apiUrl appId clientToken
             (clock w (ticks w)) maxRetries baseTimeout 1 later admitted
             (Axios.mkResponse status body) Hsettle). }
  subst data. rewrite Hresult.
  match goal with |- context [runState _ ?v] => set (sentOne := v) end.
  pose proof (run_duixSuccess question (clock w (ticks w))
                (Axios.mkResponse status body) sentOne) as Hok.
  cbv zeta in Hok.
  destruct Hok as (Hsent & Hcount & Hmode & _ & Hinfo & Hstat & Hsucc & Htime
                   & Hstate & Hreal & Hfallback).
  repeat split; try assumption.
  rewrite Htime. subst sentOne admitted.
  cbn [ticks clock setBreaker tick].
  destruct IS_PRODUCTION; reflexivity.
Qed.

(** C4, as the code has it. When [shouldAttemptDuixCall()] is false the
    executor answers with the fallback response at once: the world
    differs only by five readings of the clock, so no request was sent
    and the breaker is as it was. Every fallback response, whatever it is
    built from, has [fallback_mode: true], the question inside its text,
    the time elapsed since the start, the mode of the breaker at that
    moment and a timestamp. It has the top-level keys of a genuine
    success, with values of the same types, and the same types for the
    six data fields both have; the data fields are not the same: the
    fallback has no [concurrent_info] and no [real_api_response], and a
    success has no [fallback_mode], [aws_hybrid_response], [error_info]
    or [timestamp]. *)
Theorem open_breaker_fallback question apiUrl appId clientToken (w : World) :
  evalState shouldAttemptDuixCall (tick w) = false ->
  runState (callDUIXServiceWithToken question apiUrl appId clientToken) w
    = (fallbackObject question (clock w (ticks w)) Js.JNull (tick (tick w)),
       Nat.iter 5 tick w)
  /\ sent (Nat.iter 5 tick w) = sent w
  /\ duixApiCircuitBreaker (Nat.iter 5 tick w) = duixApiCircuitBreaker w
  /\ forall q startTime errorInfo (v : World),
       let fallback := fallbackObject q startTime errorInfo v in
       let data := Js.prop "data" fallback in
       Js.prop "fallback_mode" data = Js.JBool true
       /\ Js.prop "text" data
          = Js.JString
              ("[Hybrid Mode] Processing: " ++ Js.dquote ++ q ++ Js.dquote
               ++ " - DUIX service temporarily unavailable, using local processing.")
       /\ Js.prop "response_time_ms" data
          = Js.JNumber (Js.Num (clock v (1 + ticks v) - startTime))
       /\ Js.prop "circuit_breaker_state" data
          = Js.JString (BreakerState_name (state (duixApiCircuitBreaker v)))
       /\ Js.prop "timestamp" data = Js.JIsoDate (clock v (2 + ticks v))
       /\ Js.keys_of data
          = [ "text"; "api_call_successful"; "api_status"; "fallback_mode";
              "aws_hybrid_response"; "response_time_ms";
              "circuit_breaker_state"; "error_info"; "timestamp";
              "aws_region" ]
       /\ forall q' now' response (v' : World),
            let success := evalState (duixSuccess q' now' response) v' in
            Js.keys_of fallback = Js.keys_of success
            /\ (forall k, In k (Js.keys_of success) ->
                  Js.typeof (Js.prop k fallback) = Js.typeof (Js.prop k success))
            /\ Js.keys_of (Js.prop "data" success)
               = [ "text"; "api_call_successful"; "api_status";
                   "concurrent_info"; "real_api_response"; "response_time_ms";
                   "circuit_breaker_state"; "aws_region" ]
            /\ (forall k,
                  In k [ "text"; "api_call_successful"; "api_status";
                         "response_time_ms"; "circuit_breaker_state";
                         "aws_region" ] ->
                  Js.typeof (Js.prop k data)
                  = Js.typeof (Js.prop k (Js.prop "data" success))).
Proof.
  intros Hrefuse.
  split.
  { unfold Server.callDUIXServiceWithToken.
    rewrite run_bind, run_Date_now. cbn [fst snd].
    rewrite run_bind, (shouldAttempt_false_world (tick w) Hrefuse).
    cbn [fst snd negb]. apply run_createFallbackResponse. }
  split; [reflexivity|].
  split; [reflexivity|].
  intros q startTime errorInfo v fallback data.
  repeat (split; [reflexivity|]).
  intros q' now' response v' success.
  assert (Hkeys : Js.keys_of success = ["session_id"; "data"])
    by (subst success; unfold evalState; destruct IS_PRODUCTION; reflexivity).
  split; [rewrite Hkeys; reflexivity|].
  split.
  { rewrite Hkeys. intros k [<- | [<- | []]];
      subst success; unfold evalState; destruct IS_PRODUCTION; reflexivity. }
  split.
  { subst success; unfold evalState; destruct IS_PRODUCTION; reflexivity. }
  intros k Hk. cbn [In] in Hk.
  repeat (destruct Hk as [<- | Hk];
          [subst success; unfold evalState;
           destruct IS_PRODUCTION; reflexivity|]).
  destruct Hk.
Qed.

End ServerProperties.

(** ** The token signer *)

(** The library's [sign] on a key it takes and claims it keeps. *)
Lemma run_sign privateKey (p : Jwt.payload) (key : string) (w : World) :
  key <> "" -> privateKey key = false -> Jwt.iat p <> 0 ->
  runState (Jwt.sign privateKey p key Jwt.HS256) w
  = (inl (Jwt.mkToken Jwt.HS256 p (Jwt.HMAC Jwt.HS256 key p)), w).
Proof.
  intros Hkey Hsecret Hiat. unfold Jwt.sign.
  destruct (String.eqb_spec key "") as [Hempty | _]; [contradiction|].
  rewrite Hsecret.
  destruct (Z.eqb_spec (Jwt.iat p) 0) as [Hzero | _]; [contradiction|].
  destruct p; reflexivity.
Qed.

(** The library's [sign] reads the clock at most once and touches
    nothing else. *)
Lemma sign_world privateKey (p : Jwt.payload) (key : string) (w : World) :
  snd (runState (Jwt.sign privateKey p key Jwt.HS256) w) = w
  \/ snd (runState (Jwt.sign privateKey p key Jwt.HS256) w) = tick w.
Proof.
  unfold Jwt.sign.
  destruct (String.eqb key ""); [left; reflexivity|].
  destruct (privateKey key); [left; reflexivity|].
  destruct (Jwt.iat p =? 0); [right | left]; reflexivity.
Qed.

(** What one call of [createDUIXToken] does. *)
Lemma run_createDUIXToken IS_PRODUCTION TOKEN_EXPIRY privateKey appId appKey
  sigExp (w : World) :
  let lifetime := match sigExp with Some e => e | None => TOKEN_EXPIRY end in
  let now := clock w (ticks w) in
  let expiry := Js.add (Js.Num (now / 1000)) lifetime in
  runState (createDUIXToken IS_PRODUCTION TOKEN_EXPIRY privateKey appId appKey
              sigExp) w
  = (if IS_PRODUCTION || logDatesValid now lifetime
     then runState
            (Jwt.sign privateKey (Jwt.mkPayload appId (now / 1000) expiry)
               appKey Jwt.HS256)
            (tick w)
     else (inr Js.invalidTime, tick w)).
Proof.
  unfold createDUIXToken, logDatesValid.
  rewrite run_bind, run_Date_now. cbn [fst snd].
  destruct (IS_PRODUCTION
            || (Js.time_value (Js.Num (clock w (ticks w)))
                && Js.time_value _)); [reflexivity | apply run_ret].
Qed.

(** The token of a call that gets past the log line, for a key the
    library takes, after the first second of the epoch. *)
Lemma createDUIXToken_signed IS_PRODUCTION TOKEN_EXPIRY privateKey appId appKey
  sigExp (w : World) :
  let lifetime := match sigExp with Some e => e | None => TOKEN_EXPIRY end in
  let now := clock w (ticks w) in
  let claims := Jwt.mkPayload appId (now / 1000)
                  (Js.add (Js.Num (now / 1000)) lifetime) in
  appKey <> "" -> privateKey appKey = false -> now / 1000 <> 0 ->
  IS_PRODUCTION || logDatesValid now lifetime = true ->
  runState (createDUIXToken IS_PRODUCTION TOKEN_EXPIRY privateKey appId appKey
              sigExp) w
  = (inl (Jwt.mkToken Jwt.HS256 claims (Jwt.HMAC Jwt.HS256 appKey claims)),
     tick w).
Proof.
  intros lifetime now claims Hkey Hsecret Hiat Hpast.
  rewrite run_createDUIXToken. fold lifetime now. rewrite Hpast.
  apply run_sign; assumption.
Qed.

(** For a lifetime of a whole number of seconds the dates of the log line
    are valid exactly when the instant and the expiry lie at most
    8.64e15 ms from the epoch; the expiry is then the exact sum. *)
Lemma logDatesValid_seconds (now seconds : Z) :
  Z.abs now <= 8640000000000000 ->
  Z.abs seconds <= 2 ^ 52 ->
  Js.add (Js.Num (now / 1000)) (Js.Num seconds) = Js.Num (now / 1000 + seconds)
  /\ logDatesValid now (Js.Num seconds)
     = (Z.abs ((now / 1000 + seconds) * 1000) <=? 8640000000000000).
Proof.
  intros Hnow Hseconds.
  assert (H52 : 2 ^ 52 = 4503599627370496) by reflexivity.
  assert (H53 : 2 ^ 53 = 9007199254740992) by reflexivity.
  assert (Hiat : Z.abs (now / 1000) <= 8640000000001).
  { pose proof (Z.div_mod now 1000 ltac:(lia)).
    pose proof (Z.mod_pos_bound now 1000 ltac:(lia)). lia. }
  assert (Hsum : Js.add (Js.Num (now / 1000)) (Js.Num seconds)
                 = Js.Num (now / 1000 + seconds))
    by (apply add_safe; lia).
  split; [exact Hsum|].
  unfold logDatesValid. rewrite Hsum, time_value_Num.
  rewrite time_value_product by lia.
  replace (Z.abs now <=? 8640000000000000) with true
    by (symmetry; apply Z.leb_le; exact Hnow).
  reflexivity.
Qed.

(** For an instant and an expiry that are dates, the seconds are safe
    integers: the sum is exact and both dates of the log line print. *)
Lemma expiry_printed (now lifetime : Z) :
  Z.abs now <= 8640000000000000 ->
  Z.abs ((now / 1000 + lifetime) * 1000) <= 8640000000000000 ->
  Js.add (Js.Num (now / 1000)) (Js.Num lifetime)
    = Js.Num (now / 1000 + lifetime)
  /\ Js.sub (Js.Num (now / 1000 + lifetime)) (Js.Num (now / 1000))
     = Js.Num lifetime
  /\ logDatesValid now (Js.Num lifetime) = true.
Proof.
  intros Hnow Hexpiry.
  assert (H52 : 2 ^ 52 = 4503599627370496) by reflexivity.
  assert (H53 : 2 ^ 53 = 9007199254740992) by reflexivity.
  assert (Hiat : Z.abs (now / 1000) <= 8640000000001).
  { pose proof (Z.div_mod now 1000 ltac:(lia)).
    pose proof (Z.mod_pos_bound now 1000 ltac:(lia)). lia. }
  destruct (logDatesValid_seconds now lifetime Hnow ltac:(lia))
    as (Hsum & Hvalid).
  split; [exact Hsum|].
  split.
  { rewrite sub_safe by lia. f_equal. lia. }
  rewrite Hvalid. apply Z.leb_le. exact Hexpiry.
Qed.

(** C5, as the code has it. For every application id, every key that is
    not empty and that the library takes as a symmetric key, and every
    whole number of seconds of lifetime, at instants past the first
    second of the epoch and with expiries that are dates (at most
    8.64e15 ms from the epoch), [createDUIXToken] reads the clock once,
    takes [iat = floor(now / 1000)] (whole seconds) and
    [exp = iat + lifetime], and returns the token with the claims
    [{appId, iat, exp}] under an HS256 MAC of the key, in production and
    outside; [exp - iat] is the lifetime, and two signings whose
    instants lie in different whole seconds have different [(iat, exp)]
    pairs. *)
Theorem token_signer_postcondition IS_PRODUCTION TOKEN_EXPIRY privateKey
  appId appKey (lifetime : Z) (w1 w2 : World) :
  appKey <> "" ->
  privateKey appKey = false ->
  let now1 := clock w1 (ticks w1) in
  let now2 := clock w2 (ticks w2) in
  Z.abs now1 <= 8640000000000000 -> now1 / 1000 <> 0 ->
  Z.abs now2 <= 8640000000000000 -> now2 / 1000 <> 0 ->
  Z.abs ((now1 / 1000 + lifetime) * 1000) <= 8640000000000000 ->
  Z.abs ((now2 / 1000 + lifetime) * 1000) <= 8640000000000000 ->
  exists t1 t2,
    runState (createDUIXToken IS_PRODUCTION TOKEN_EXPIRY privateKey appId
                appKey (Some (Js.Num lifetime))) w1 = (inl t1, tick w1)
    /\ runState (createDUIXToken IS_PRODUCTION TOKEN_EXPIRY privateKey appId
                   appKey (Some (Js.Num lifetime))) w2 = (inl t2, tick w2)
    /\ Jwt.alg t1 = Jwt.HS256
    /\ Jwt.signature t1 = Jwt.HMAC Jwt.HS256 appKey (Jwt.claims t1)
    /\ Jwt.appId (Jwt.claims t1) = appId
    /\ Jwt.iat (Jwt.claims t1) = now1 / 1000
    /\ Jwt.exp (Jwt.claims t1) = Js.Num (Jwt.iat (Jwt.claims t1) + lifetime)
    /\ Js.sub (Jwt.exp (Jwt.claims t1)) (Js.Num (Jwt.iat (Jwt.claims t1)))
       = Js.Num lifetime
    /\ (now1 / 1000 <> now2 / 1000 ->
        (Jwt.iat (Jwt.claims t1), Jwt.exp (Jwt.claims t1))
        <> (Jwt.iat (Jwt.claims t2), Jwt.exp (Jwt.claims t2))).
Proof.
  intros Hkey Hsecret now1 now2 Hnow1 Hiat1 Hnow2 Hiat2 Hexpiry1 Hexpiry2.
  destruct (expiry_printed now1 lifetime Hnow1 Hexpiry1)
    as (Hsum1 & Hdiff1 & Hdates1).
  destruct (expiry_printed now2 lifetime Hnow2 Hexpiry2)
    as (Hsum2 & _ & Hdates2).
  do 2 eexists.
  split.
  { rewrite createDUIXToken_signed; try assumption.
    - fold now1. rewrite Hsum1. reflexivity.
    - cbv zeta. fold now1. rewrite Hdates1. apply orb_true_r. }
  split.
  { rewrite createDUIXToken_signed; try assumption.
    - fold now2. rewrite Hsum2. reflexivity.
    - cbv zeta. fold now2. rewrite Hdates2. apply orb_true_r. }
  cbn [Jwt.alg Jwt.signature Jwt.claims Jwt.appId Jwt.iat Jwt.exp].
  repeat (split; [reflexivity|]).
  split; [exact Hdiff1|].
  intros Hseconds Hpair. apply Hseconds.
  injection Hpair as Hiat _. exact Hiat.
Qed.

Lemma token_signer_postcondition_witness :
  exists t,
    evalState (createDUIXToken false (Js.Num 1800) (fun _ => false) "app"
                 "secret" (Some (Js.Num 1800)))
      (startWorld (fun _ => 1700000000123) initialCircuitBreaker
         (fun _ _ => Axios.Failed None ""))
    = inl t
    /\ Jwt.iat (Jwt.claims t) = 1700000000
    /\ Jwt.exp (Jwt.claims t) = Js.Num 1700001800.
Proof.
  assert (Hkey : "secret" <> "") by discriminate.
  destruct (token_signer_postcondition false (Js.Num 1800) (fun _ => false)
              "app" "secret" 1800
              (startWorld (fun _ => 1700000000123) initialCircuitBreaker
                 (fun _ _ => Axios.Failed None ""))
              (startWorld (fun _ => 1700000005000) initialCircuitBreaker
                 (fun _ _ => Axios.Failed None ""))
              Hkey eq_refl
              ltac:(vm_compute; discriminate) ltac:(vm_compute; discriminate)
              ltac:(vm_compute; discriminate) ltac:(vm_compute; discriminate)
              ltac:(vm_compute; discriminate) ltac:(vm_compute; discriminate))
    as (t1 & t2 & H1 & _ & _ & _ & _ & Hiat & Hexp & _).
  exists t1. unfold evalState. rewrite H1. split; [reflexivity|].
  split; [exact Hiat|].
  rewrite Hexp, Hiat. reflexivity.
Defined.

(** C5 as stated fails in three ways. Two signings at the different
    instants 1000 ms and 1999 ms carry the same issued-at and expiry. In
    production a lifetime of [2^53] seconds gives an expiry that is the
    double nearest to the sum, one less than the sum, so that
    [exp - iat] is not the lifetime. Outside production a lifetime of
    9999999999999 seconds puts the expiry beyond the last date, the log
    line throws and no token is made. *)
Lemma token_signer_postcondition_counterexample :
  let w1 := startWorld (fun _ => 1000) initialCircuitBreaker
              (fun _ _ => Axios.Failed None "") in
  let w2 := startWorld (fun _ => 1999) initialCircuitBreaker
              (fun _ _ => Axios.Failed None "") in
  let w3 := startWorld (fun _ => 1700000001000) initialCircuitBreaker
              (fun _ _ => Axios.Failed None "") in
  let sign production lifetime w :=
    evalState (createDUIXToken production (Js.Num 1800) (fun _ => false)
                 "app" "secret" (Some (Js.Num lifetime))) w in
  let token iat exp :=
    Jwt.mkToken Jwt.HS256 (Jwt.mkPayload "app" iat (Js.Num exp))
      (Jwt.HMAC Jwt.HS256 "secret" (Jwt.mkPayload "app" iat (Js.Num exp))) in
  (clock w1 (ticks w1) <> clock w2 (ticks w2)
   /\ sign false 1800 w1 = sign false 1800 w2
   /\ sign false 1800 w1 = inl (token 1 1801))
  /\ (sign true (2 ^ 53) w3 = inl (token 1700000001 9007200954740992)
      /\ 1700000001 + 2 ^ 53 <> 9007200954740992
      /\ Js.sub (Js.Num 9007200954740992) (Js.Num 1700000001)
         <> Js.Num (2 ^ 53))
  /\ sign false 9999999999999 w3 = inr Js.invalidTime.
Proof.
  cbv zeta.
  split; [split; [discriminate|]; split; vm_compute; reflexivity|].
  split; [|vm_compute; reflexivity].
  split; [vm_compute; reflexivity|].
  split; [discriminate|].
  vm_compute. discriminate.
Qed.

(** C6, as the code has it. [createDUIXToken] makes no check of the key:
    once its log line is past, its outcome is that of the library's
    [sign] on the claims. With an empty key no token is returned; the
    failure is the plain [Error] that the signing library throws, or,
    outside production, the [RangeError] of the log line when a date of
    the line is invalid. It is never a [ConfigurationError]. *)
Theorem token_signer_empty_secret IS_PRODUCTION TOKEN_EXPIRY privateKey appId
  appKey sigExp (w : World) :
  let lifetime := match sigExp with Some e => e | None => TOKEN_EXPIRY end in
  let now := clock w (ticks w) in
  let expiry := Js.add (Js.Num (now / 1000)) lifetime in
  let printed := IS_PRODUCTION || logDatesValid now lifetime in
  let unsigned :=
    evalState (createDUIXToken IS_PRODUCTION TOKEN_EXPIRY privateKey appId ""
                 sigExp) w in
  (printed = true -> Z.abs now <= 8640000000000000 ->
   runState (createDUIXToken IS_PRODUCTION TOKEN_EXPIRY privateKey appId appKey
               sigExp) w
   = runState (Jwt.sign privateKey (Jwt.mkPayload appId (now / 1000) expiry)
                 appKey Jwt.HS256) (tick w))
  /\ unsigned
     = inr (if printed
            then Js.mkError "Error" "secretOrPrivateKey must have a value"
            else Js.mkError "RangeError" "Invalid time value")
  /\ (forall t, unsigned <> inl t)
  /\ (forall e, unsigned = inr e -> Js.name e <> "ConfigurationError").
Proof.
  intros lifetime now expiry printed unsigned.
  assert (Hunsigned :
            unsigned
            = inr (if printed
                   then Js.mkError "Error" "secretOrPrivateKey must have a value"
                   else Js.mkError "RangeError" "Invalid time value")).
  { subst unsigned. unfold evalState. rewrite run_createDUIXToken.
    fold lifetime now expiry printed. destruct printed; reflexivity. }
  split.
  { intros Hprinted _. rewrite run_createDUIXToken.
    fold lifetime now expiry printed. rewrite Hprinted. reflexivity. }
  split; [exact Hunsigned|].
  split.
  { intros t Htoken. rewrite Hunsigned in Htoken. discriminate Htoken. }
  intros e He. rewrite Hunsigned in He. injection He as <-.
  destruct printed; discriminate.
Qed.

(** C6 as stated fails: the error of a signing with an empty key is not a
    [ConfigurationError]. *)
Lemma token_signer_empty_secret_counterexample :
  exists e,
    evalState (createDUIXToken false (Js.Num 1800) (fun _ => false) "app" ""
                 (Some (Js.Num 1800)))
      (startWorld (fun _ => 1000) initialCircuitBreaker
         (fun _ _ => Axios.Failed None ""))
    = inr e
    /\ Js.name e = "Error"
    /\ Js.name e <> "ConfigurationError".
Proof.
  eexists. split; [vm_compute; reflexivity|].
  split; [reflexivity | discriminate].
Qed.

(** ** Connection profiles *)

(** C7, as the code has it. Every profile built for [duix_api] has
    certificate validation off ([rejectUnauthorized] false, an identity
    check that accepts every verdict) and the same [secureProtocol] as the
    profiles of other calls; unlike theirs, its [minVersion] and
    [maxVersion] are unset and its cipher list is the longer one: the six
    suites of the strict list followed by three more entries. *)
Theorem upstream_profile_trust IS_PRODUCTION DISABLE_SSL_VALIDATION
  process_version :
  let duix := createHTTPSAgent IS_PRODUCTION DISABLE_SSL_VALIDATION
                process_version "duix_api" in
  let other := createHTTPSAgent IS_PRODUCTION DISABLE_SSL_VALIDATION
                 process_version "production" in
  Agent.rejectUnauthorized duix = false
  /\ (forall verdict, Agent.checkServerIdentity duix verdict = None)
  /\ Agent.secureProtocol duix = Agent.secureProtocol other
  /\ Agent.minVersion duix = None
  /\ Agent.maxVersion duix = None
  /\ Agent.minVersion other = Some "TLSv1.2"
  /\ Agent.maxVersion other = Some "TLSv1.3"
  /\ Agent.ciphers duix = String.concat ":" duixCiphers
  /\ Agent.ciphers other = String.concat ":" strictCiphers
  /\ duixCiphers
     = (strictCiphers
        ++ [ "AES256-SHA256"; "AES128-SHA256";
             "HIGH:!aNULL:!eNULL:!EXPORT:!DES:!RC4:!MD5:!PSK:!SRP:!CAMELLIA" ])%list.
Proof.
  destruct IS_PRODUCTION, DISABLE_SSL_VALIDATION as [v|];
    cbv zeta; unfold createHTTPSAgent; cbn [String.eqb Ascii.eqb Bool.eqb
      Agent.rejectUnauthorized Agent.checkServerIdentity Agent.secureProtocol
      Agent.minVersion Agent.maxVersion Agent.ciphers negb andb];
    repeat split;
    try (rewrite Bool.andb_false_r; reflexivity).
Qed.

(** C7 as stated fails: the profile for [duix_api] sets no protocol floor
    or ceiling, and its cipher list differs from that of other calls. *)
Lemma upstream_profile_tls_counterexample :
  let duix := createHTTPSAgent true None "v18.0.0" "duix_api" in
  let other := createHTTPSAgent true None "v18.0.0" "production" in
  Agent.minVersion duix <> Some "TLSv1.2"
  /\ Agent.maxVersion duix <> Some "TLSv1.3"
  /\ Agent.minVersion duix <> Agent.minVersion other
  /\ Agent.ciphers duix <> Agent.ciphers other.
Proof.
  cbv zeta. repeat split; vm_compute; discriminate.
Qed.

(** C8, as the code has it. Every profile has keep-alive on and a socket
    pool bounded by 50; in production the timeout is strictly smaller than
    in development (20000 against 30000) while the pool is strictly larger
    (50 against 10 sockets, 20 against 5 free sockets). *)
Theorem pool_sizing_by_flag DISABLE_SSL_VALIDATION process_version strategy :
  let production := createHTTPSAgent true DISABLE_SSL_VALIDATION
                      process_version strategy in
  let development := createHTTPSAgent false DISABLE_SSL_VALIDATION
                       process_version strategy in
  Agent.keepAlive production = true
  /\ Agent.keepAlive development = true
  /\ Agent.maxSockets production = 50
  /\ Agent.maxSockets development = 10
  /\ Agent.maxFreeSockets production = 20
  /\ Agent.maxFreeSockets development = 5
  /\ Agent.timeout production = 20000
  /\ Agent.timeout development = 30000
  /\ Agent.timeout production < Agent.timeout development
  /\ Agent.maxSockets development < Agent.maxSockets production
  /\ Agent.maxFreeSockets development < Agent.maxFreeSockets production.
Proof.
  cbv zeta. unfold createHTTPSAgent.
  cbn [Agent.keepAlive Agent.maxSockets Agent.maxFreeSockets Agent.timeout].
  repeat split.
Qed.

(** C8 as stated fails: the production pool is not smaller than the
    development pool. *)
Lemma pool_sizing_counterexample :
  let production := createHTTPSAgent true None "v18.0.0" "duix_api" in
  let development := createHTTPSAgent false None "v18.0.0" "duix_api" in
  ~ (Agent.maxSockets production < Agent.maxSockets development
     /\ Agent.timeout production < Agent.timeout development).
Proof.
  cbv zeta. intros [Hpool _]. vm_compute in Hpool. discriminate.
Qed.

(** ** The latency-echo route *)

(** The answer for a body whose [clientSendTime] converts to a number. *)
Lemma measureLatency_fields IS_PRODUCTION AWS_REGION process_version
  StringToNumber ArrayJoin (req : Request) (sentAt : Js.number) (w : World) :
  Js.to_number StringToNumber ArrayJoin (Js.get "clientSendTime" (body req))
    = Some sentAt ->
  let response :=
    evalState (measureLatency IS_PRODUCTION AWS_REGION process_version
                 StringToNumber ArrayJoin req) w in
  let measurements := Js.prop "measurements" (json response) in
  statusCode response = 200
  /\ Js.prop "success" (json response) = Js.JBool true
  /\ Js.prop "networkLatency" measurements
     = Js.JNumber (Js.sub (Js.Num (clock w (ticks w))) sentAt)
  /\ Js.prop "serverProcessingTime" measurements
     = Js.JNumber (Js.sub (Js.Num (clock w (1 + ticks w)))
                     (Js.Num (clock w (ticks w))))
  /\ Js.prop "totalRoundTrip" measurements
     = Js.JNumber (Js.sub (Js.Num (clock w (1 + ticks w))) sentAt).
Proof.
  intros Hconverted. unfold evalState, measureLatency.
  rewrite run_bind, run_Date_now. cbn [fst snd].
  rewrite run_bind, run_Date_now. cbn [fst snd].
  rewrite Hconverted.
  destruct IS_PRODUCTION; cbn; repeat split.
Qed.

(** The answer of the [catch] block. *)
Lemma measureLatency_caught IS_PRODUCTION AWS_REGION process_version
  StringToNumber ArrayJoin (req : Request) (w : World) :
  Js.to_number StringToNumber ArrayJoin (Js.get "clientSendTime" (body req))
    = None ->
  runState (measureLatency IS_PRODUCTION AWS_REGION process_version
              StringToNumber ArrayJoin req) w
  = (mkResponse 500
       (Js.JObject
          [ ("success", Js.JBool false);
            ("error", Js.JString "Latency measurement failed");
            ("measurements", Js.JObject
              [ ("serverReceiveTime", Js.JNumber (Js.Num (clock w (ticks w))));
                ("errorTime", Js.JNumber (Js.Num (clock w (2 + ticks w))));
                ("processingTime",
                 Js.JNumber (Js.sub (Js.Num (clock w (2 + ticks w)))
                               (Js.Num (clock w (ticks w))))) ]);
            ("timestamp", Js.JIsoDate (clock w (3 + ticks w))) ]),
     Nat.iter 4 tick w).
Proof.
  intros Hthrows. unfold measureLatency.
  rewrite run_bind, run_Date_now. cbn [fst snd].
  rewrite run_bind, run_Date_now. cbn [fst snd].
  rewrite Hthrows. reflexivity.
Qed.

(** C9, as the code has it. For every request whose [clientSendTime] is
    an integer of magnitude at most [2^52], answered at readings of the
    clock in the same range, the answer has
    [networkLatency = serverReceiveTime - clientSendTime],
    [serverProcessingTime = serverProcessTime - serverReceiveTime] and
    [totalRoundTrip = serverProcessTime - clientSendTime], and
    [networkLatency + serverProcessingTime == totalRoundTrip] holds. *)
Theorem latency_identity IS_PRODUCTION AWS_REGION process_version
  StringToNumber ArrayJoin (req : Request) (clientSendTime : Z) (w : World) :
  Js.get "clientSendTime" (body req) = Js.JNumber (Js.Num clientSendTime) ->
  let response :=
    evalState (measureLatency IS_PRODUCTION AWS_REGION process_version
                 StringToNumber ArrayJoin req) w in
  let measurements := Js.prop "measurements" (json response) in
  let serverReceiveTime := clock w (ticks w) in
  let serverProcessTime := clock w (1 + ticks w) in
  let networkLatency := Js.prop "networkLatency" measurements in
  let serverProcessingTime := Js.prop "serverProcessingTime" measurements in
  let totalRoundTrip := Js.prop "totalRoundTrip" measurements in
  Z.abs clientSendTime <= 2 ^ 52 ->
  Z.abs serverReceiveTime <= 2 ^ 52 ->
  Z.abs serverProcessTime <= 2 ^ 52 ->
  networkLatency = Js.JNumber (Js.Num (serverReceiveTime - clientSendTime))
  /\ serverProcessingTime
     = Js.JNumber (Js.Num (serverProcessTime - serverReceiveTime))
  /\ totalRoundTrip = Js.JNumber (Js.Num (serverProcessTime - clientSendTime))
  /\ Js.eq (Js.add (Js.number_of networkLatency)
              (Js.number_of serverProcessingTime))
       (Js.number_of totalRoundTrip) = true.
Proof.
  intros Hnumeric response measurements serverReceiveTime serverProcessTime
    networkLatency serverProcessingTime totalRoundTrip Hsent Hreceive Hprocess.
  assert (H52 : 2 ^ 52 = 4503599627370496) by reflexivity.
  assert (H53 : 2 ^ 53 = 9007199254740992) by reflexivity.
  assert (Hconverted :
            Js.to_number StringToNumber ArrayJoin
              (Js.get "clientSendTime" (body req))
            = Some (Js.Num clientSendTime))
    by (rewrite Hnumeric; reflexivity).
  destruct (measureLatency_fields IS_PRODUCTION AWS_REGION process_version
              StringToNumber ArrayJoin req (Js.Num clientSendTime) w Hconverted)
    as (_ & _ & Hnetwork & Hprocessing & Htotal).
  subst networkLatency serverProcessingTime totalRoundTrip measurements response.
  rewrite Hnetwork, Hprocessing, Htotal.
  fold serverReceiveTime serverProcessTime.
  rewrite !sub_safe by lia.
  repeat (split; [reflexivity|]).
  cbn [Js.number_of].
  rewrite add_safe by lia.
  rewrite eq_safe by lia.
  apply Z.eqb_eq. lia.
Qed.

Lemma latency_identity_witness :
  let T := 1700000000000 in
  let req := mkRequest [("clientSendTime", Js.JNumber (Js.Num T))]
               false None None None in
  let w := startWorld (fun k => T + 30 + 20 * Z.of_nat k) initialCircuitBreaker
             (fun _ _ => Axios.Failed None "") in
  let measurements :=
    Js.prop "measurements"
      (json (evalState (measureLatency true None "v18.0.0"
                          (fun _ => Js.NaN) (fun _ => "") req) w)) in
  Js.prop "networkLatency" measurements = Js.JNumber (Js.Num 30)
  /\ Js.prop "serverProcessingTime" measurements = Js.JNumber (Js.Num 20)
  /\ Js.prop "totalRoundTrip" measurements = Js.JNumber (Js.Num 50).
Proof.
  intros T req w measurements.
  assert (Hnumeric : Js.get "clientSendTime" (body req)
                     = Js.JNumber (Js.Num T)) by reflexivity.
  destruct (latency_identity true None "v18.0.0" (fun _ => Js.NaN)
              (fun _ => "") req T w Hnumeric
              ltac:(vm_compute; discriminate) ltac:(vm_compute; discriminate)
              ltac:(vm_compute; discriminate))
    as (Hnetwork & Hprocessing & Htotal & _).
  split; [exact Hnetwork|]. split; [exact Hprocessing | exact Htotal].
Defined.

(** C9 as stated fails: the fields are differences of doubles. With
    [clientSendTime = -2^53], received at 1700000000001 and processed at
    1700000000050, the first difference is rounded and the sum of
    [networkLatency] and [serverProcessingTime] is not [totalRoundTrip]. *)
Lemma latency_identity_counterexample :
  let req := mkRequest [("clientSendTime", Js.JNumber (Js.Num (- 2 ^ 53)))]
               false None None None in
  let w := startWorld
             (fun k => match k with
                       | O => 1700000000001
                       | S _ => 1700000000050
                       end)
             initialCircuitBreaker (fun _ _ => Axios.Failed None "") in
  let measurements :=
    Js.prop "measurements"
      (json (evalState (measureLatency true None "v18.0.0"
                          (fun _ => Js.NaN) (fun _ => "") req) w)) in
  Js.prop "networkLatency" measurements
    = Js.JNumber (Js.Num 9008899254740992)
  /\ Js.prop "serverProcessingTime" measurements = Js.JNumber (Js.Num 49)
  /\ Js.prop "totalRoundTrip" measurements
     = Js.JNumber (Js.Num 9008899254741042)
  /\ Js.add (Js.Num 9008899254740992) (Js.Num 49) = Js.Num 9008899254741040
  /\ Js.eq (Js.add (Js.number_of (Js.prop "networkLatency" measurements))
              (Js.number_of (Js.prop "serverProcessingTime" measurements)))
       (Js.number_of (Js.prop "totalRoundTrip" measurements)) = false.
Proof.
  cbv zeta. repeat split; vm_compute; reflexivity.
Qed.

(** C10, as the code has it. The handler checks nothing and never answers
    400. It answers 200 with [success: true] for every body whose
    [clientSendTime] can be converted to a number: [networkLatency] and
    [totalRoundTrip] are then NaN exactly when the conversion gives NaN,
    as for an absent [clientSendTime], and numbers when it gives a
    number, as for [null] and the booleans. The one body it does not
    answer with 200 is one whose [clientSendTime] cannot be converted,
    an object with a [toString] property of its own or an array that
    holds one: the subtraction throws and the [catch] block answers 500
    with [success: false]. *)
Theorem latency_no_validation IS_PRODUCTION AWS_REGION process_version
  StringToNumber ArrayJoin (req : Request) (w : World) :
  let response :=
    evalState (measureLatency IS_PRODUCTION AWS_REGION process_version
                 StringToNumber ArrayJoin req) w in
  let measurements := Js.prop "measurements" (json response) in
  let clientSendTime := Js.get "clientSendTime" (body req) in
  let converted := Js.to_number StringToNumber ArrayJoin clientSendTime in
  let networkLatency := Js.number_of (Js.prop "networkLatency" measurements) in
  let totalRoundTrip := Js.number_of (Js.prop "totalRoundTrip" measurements) in
  statusCode response <> 400
  /\ (converted = None <-> Js.unconvertible clientSendTime = true)
  /\ (converted = None ->
      statusCode response = 500
      /\ Js.prop "success" (json response) = Js.JBool false
      /\ Js.prop "error" (json response)
         = Js.JString "Latency measurement failed")
  /\ (forall sentAt, converted = Some sentAt ->
      statusCode response = 200
      /\ Js.prop "success" (json response) = Js.JBool true
      /\ networkLatency = Js.sub (Js.Num (clock w (ticks w))) sentAt
      /\ totalRoundTrip = Js.sub (Js.Num (clock w (1 + ticks w))) sentAt
      /\ (sentAt = Js.NaN ->
          networkLatency = Js.NaN /\ totalRoundTrip = Js.NaN)
      /\ (Z.abs (clock w (ticks w)) <= 2 ^ 53 ->
          Z.abs (clock w (1 + ticks w)) <= 2 ^ 53 ->
          Js.is_nan networkLatency = Js.is_nan sentAt
          /\ Js.is_nan totalRoundTrip = Js.is_nan sentAt))
  /\ (clientSendTime = Js.JUndefined -> converted = Some Js.NaN)
  /\ (clientSendTime = Js.JNull -> converted = Some (Js.Num 0))
  /\ (forall b, clientSendTime = Js.JBool b ->
      converted = Some (Js.Num (if b then 1 else 0)))
  /\ (forall o, clientSendTime = Js.JObject o ->
      In "toString" (Js.keys o) -> converted = None).
Proof.
  intros response measurements clientSendTime converted networkLatency
    totalRoundTrip.
  assert (Hthrows : converted = None <-> Js.unconvertible clientSendTime = true).
  { subst converted. unfold Js.to_number.
    destruct (Js.unconvertible clientSendTime); split;
      intros H; try reflexivity; discriminate H. }
  assert (Hcaught :
            converted = None ->
            statusCode response = 500
            /\ Js.prop "success" (json response) = Js.JBool false
            /\ Js.prop "error" (json response)
               = Js.JString "Latency measurement failed").
  { intros Hnone. subst response. unfold evalState.
    rewrite (measureLatency_caught IS_PRODUCTION AWS_REGION process_version
               StringToNumber ArrayJoin req w Hnone).
    repeat split. }
  assert (Hanswered :
            forall sentAt, converted = Some sentAt ->
            statusCode response = 200
            /\ Js.prop "success" (json response) = Js.JBool true
            /\ networkLatency = Js.sub (Js.Num (clock w (ticks w))) sentAt
            /\ totalRoundTrip = Js.sub (Js.Num (clock w (1 + ticks w))) sentAt).
  { intros sentAt Hsome.
    destruct (measureLatency_fields IS_PRODUCTION AWS_REGION process_version
                StringToNumber ArrayJoin req sentAt w Hsome)
      as (Hstatus & Hsuccess & Hnetwork & _ & Htotal).
    fold response in Hstatus, Hsuccess, Hnetwork, Htotal.
    fold measurements in Hnetwork, Htotal.
    subst networkLatency totalRoundTrip. rewrite Hnetwork, Htotal.
    repeat split; assumption. }
  split.
  { destruct converted as [sentAt|] eqn:Hconverted.
    - destruct (Hanswered sentAt eq_refl) as (Hstatus & _).
      rewrite Hstatus. discriminate.
    - destruct (Hcaught eq_refl) as (Hstatus & _).
      rewrite Hstatus. discriminate. }
  split; [exact Hthrows|].
  split; [exact Hcaught|].
  split.
  { intros sentAt Hsome.
    destruct (Hanswered sentAt Hsome) as (Hstatus & Hsuccess & Hnetwork & Htotal).
    repeat (split; [assumption|]).
    split.
    - intros ->. rewrite Hnetwork, Htotal, !sub_nan_r. split; reflexivity.
    - intros Hreceive Hprocess. rewrite Hnetwork, Htotal.
      split; apply sub_is_nan; assumption. }
  split; [intros Habsent; subst converted; rewrite Habsent; reflexivity|].
  split; [intros Hnull; subst converted; rewrite Hnull; reflexivity|].
  split.
  { intros b Hbool. subst converted. rewrite Hbool. destruct b; reflexivity. }
  intros o Hobject Hown. apply Hthrows. rewrite Hobject.
  cbn [Js.unconvertible]. apply existsb_exists.
  unfold Js.keys in Hown. apply in_map_iff in Hown.
  destruct Hown as (kv & Hkey & Hin).
  exists kv. split; [exact Hin|]. rewrite Hkey. reflexivity.
Qed.

(** C10 as stated fails in two ways. With [clientSendTime: null], which
    is not a number, the derived fields are numbers. With a
    [clientSendTime] that is an object with a [toString] property, the
    answer is 500 with [success: false], not 200. *)
Lemma latency_no_validation_counterexample :
  let w := startWorld (fun k => 1000 + Z.of_nat k) initialCircuitBreaker
             (fun _ _ => Axios.Failed None "") in
  let answer clientSendTime :=
    evalState (measureLatency false None "v18.0.0"
                 (fun _ => Js.NaN) (fun _ => "")
                 (mkRequest [("clientSendTime", clientSendTime)]
                    false None None None)) w in
  let measurements := Js.prop "measurements" (json (answer Js.JNull)) in
  let unprintable :=
    Js.JObject [("toString", Js.JNumber (Js.Num 1));
                ("valueOf", Js.JNumber (Js.Num 1))] in
  (Js.prop "networkLatency" measurements = Js.JNumber (Js.Num 1000)
   /\ Js.prop "totalRoundTrip" measurements = Js.JNumber (Js.Num 1001)
   /\ Js.is_nan (Js.number_of (Js.prop "networkLatency" measurements)) = false)
  /\ statusCode (answer unprintable) = 500
  /\ Js.prop "success" (json (answer unprintable)) = Js.JBool false.
Proof.
  cbv zeta. repeat split; vm_compute; reflexivity.
Qed.

(** ** The executor on concrete worlds *)

Lemma retry_exhaustion_witness :
  let w := startWorld (fun k => 1000 + 100 * Z.of_nat k) initialCircuitBreaker
             (fun _ _ => Axios.Failed (Some "ECONNRESET") "socket hang up") in
  let result :=
    runState (callDUIXServiceWithToken true None None "v18.0.0"
                "hi" "https://api.duix.com" "app" "abc") w in
  map Axios.timeout (sent (snd result)) = [17000; 19000]
  /\ failures (duixApiCircuitBreaker (snd result)) = 1
  /\ Js.prop "attempts" (Js.prop "error_info" (Js.prop "data" (fst result)))
     = Js.JNumber (Js.Num 2).
Proof.
  intros w result.
  assert (Hfails : alwaysFails w) by (intros n cfg; reflexivity).
  assert (Hadmit : evalState shouldAttemptDuixCall (tick w) = true)
    by reflexivity.
  destruct (retry_exhaustion true None None "v18.0.0"
              "hi" "https://api.duix.com" "app" "abc" w Hfails Hadmit)
    as (Hsent & _ & _ & _ & Hcount & _ & Hattempts & _).
  fold result in Hsent, Hcount, Hattempts.
  split; [rewrite Hsent; reflexivity|].
  split; [exact Hcount | exact Hattempts].
Defined.

Lemma non_retryable_short_circuit_witness :
  let body := Js.JObject [("code", Js.JString "404")] in
  let w := startWorld (fun k => 1000 + 100 * Z.of_nat k) initialCircuitBreaker
             (fun _ _ => Axios.Replied 404 body) in
  let result :=
    runState (callDUIXServiceWithToken false None None "v18.0.0"
                "hi" "https://api.duix.com" "app" "abc") w in
  length (sent (snd result)) = 1%nat
  /\ Js.prop "concurrent_info" (Js.prop "data" (fst result)) = body
  /\ Js.prop "api_status" (Js.prop "data" (fst result))
     = Js.JNumber (Js.Num 404)
  /\ Js.prop "fallback_mode" (Js.prop "data" (fst result)) = Js.JUndefined.
Proof.
  intros body w result.
  assert (Hadmit : evalState shouldAttemptDuixCall (tick w) = true)
    by reflexivity.
  assert (Hreply : upstream w (length (sent w))
                     (duixRequest false None None "v18.0.0"
                        "https://api.duix.com" "app" "abc"
                        (baseTimeout false) 1)
                   = Axios.Replied 404 body) by reflexivity.
  assert (Hstatus : 404 < 500) by lia.
  destruct (non_retryable_short_circuit false None None "v18.0.0"
              "hi" "https://api.duix.com" "app" "abc" w 404 body
              Hadmit Hreply Hstatus)
    as (Hsent & _ & _ & Hinfo & Hstat & _ & _ & _ & _ & Hfallback).
  fold result in Hsent, Hinfo, Hstat, Hfallback.
  split; [rewrite Hsent; reflexivity|].
  split; [exact Hinfo|]. split; [exact Hstat | exact Hfallback].
Defined.

Lemma open_breaker_fallback_witness :
  let w := startWorld (fun k => 5000 + 100 * Z.of_nat k)
             (mkBreaker 5 4000 OPEN 5 60000)
             (fun _ _ => Axios.Replied 200 Js.JNull) in
  let result :=
    runState (callDUIXServiceWithToken true None None "v18.0.0"
                "hi" "https://api.duix.com" "app" "abc") w in
  sent (snd result) = []
  /\ Js.prop "fallback_mode" (Js.prop "data" (fst result)) = Js.JBool true
  /\ Js.prop "circuit_breaker_state" (Js.prop "data" (fst result))
     = Js.JString "OPEN".
Proof.
  intros w result.
  assert (Hrefuse : evalState shouldAttemptDuixCall (tick w) = false)
    by reflexivity.
  destruct (open_breaker_fallback true None None "v18.0.0"
              "hi" "https://api.duix.com" "app" "abc" w Hrefuse)
    as (Hrun & Hsent & _ & Hshape).
  fold result in Hrun.
  rewrite Hrun. cbn [fst snd].
  split; [exact Hsent|].
  destruct (Hshape "hi" (clock w (ticks w)) Js.JNull (tick (tick w)))
    as (Hmode & _ & _ & Hstate & _).
  split; [exact Hmode | exact Hstate].
Defined.

(** C4 as stated fails: the fallback does not have the shape of a genuine
    success. The same call, refused by an open breaker in one world and
    answered with a 200 in another, returns the same top-level keys but
    different data fields: a caller that reads [concurrent_info] or
    [real_api_response] finds them only in the success, and finds
    [fallback_mode], [error_info] and [timestamp] only in the fallback. *)
Lemma open_breaker_fallback_counterexample :
  let call :=
    callDUIXServiceWithToken true None None "v18.0.0"
      "hi" "https://api.duix.com" "app" "abc" in
  let refused :=
    evalState call
      (startWorld (fun k => 5000 + 100 * Z.of_nat k)
         (mkBreaker 5 4000 OPEN 5 60000)
         (fun _ _ => Axios.Replied 200 Js.JNull)) in
  let answered :=
    evalState call
      (startWorld (fun k => 5000 + 100 * Z.of_nat k) initialCircuitBreaker
         (fun _ _ => Axios.Replied 200 Js.JNull)) in
  Js.keys_of refused = Js.keys_of answered
  /\ Js.keys_of (Js.prop "data" refused)
     = [ "text"; "api_call_successful"; "api_status"; "fallback_mode";
         "aws_hybrid_response"; "response_time_ms"; "circuit_breaker_state";
         "error_info"; "timestamp"; "aws_region" ]
  /\ Js.keys_of (Js.prop "data" answered)
     = [ "text"; "api_call_successful"; "api_status"; "concurrent_info";
         "real_api_response"; "response_time_ms"; "circuit_breaker_state";
         "aws_region" ]
  /\ Js.keys_of (Js.prop "data" refused) <> Js.keys_of (Js.prop "data" answered)
  /\ Js.prop "real_api_response" (Js.prop "data" answered) = Js.JBool true
  /\ Js.prop "real_api_response" (Js.prop "data" refused) = Js.JUndefined
  /\ Js.prop "fallback_mode" (Js.prop "data" answered) = Js.JUndefined.
Proof.
  cbv zeta. repeat split; try (vm_compute; reflexivity).
  vm_compute. discriminate.
Qed.

(** * Further properties of the module *)

(** ** The breaker under any history *)

Lemma updateCircuitBreaker_consistent (success : bool) (w : World) :
  breakerConsistent (duixApiCircuitBreaker w) = true ->
  breakerConsistent
    (duixApiCircuitBreaker (execState (updateCircuitBreaker success) w)) = true.
Proof.
  destruct w as [c t cb u s r d sl]. destruct cb as [f l st th rt].
  unfold breakerConsistent. cbn [duixApiCircuitBreaker failureThreshold
    recoveryTimeoutMs state failures].
  intros H. apply andb_prop in H. destruct H as [H Hmode].
  apply andb_prop in H. destruct H as [Hth Hrt].
  apply Z.eqb_eq in Hth. apply Z.eqb_eq in Hrt. subst th rt.
  destruct success; cbn; [reflexivity|].
  destruct st; cbn in Hmode |- *;
    destruct (5 <=? f + 1) eqn:Hopen; cbn;
    rewrite ?andb_true_iff, ?Z.leb_le, ?Z.ltb_lt in *;
    try apply Z.leb_gt in Hopen; try reflexivity; lia.
Qed.

Lemma shouldAttempt_consistent (w : World) :
  breakerConsistent (duixApiCircuitBreaker w) = true ->
  breakerConsistent
    (duixApiCircuitBreaker (execState shouldAttemptDuixCall w)) = true.
Proof.
  intros Hok.
  unfold execState, shouldAttemptDuixCall.
  rewrite run_bind, run_Date_now. cbn [fst snd].
  rewrite run_bind, run_readBreaker. cbn [fst snd].
  change (duixApiCircuitBreaker (tick w)) with (duixApiCircuitBreaker w).
  destruct (state (duixApiCircuitBreaker w)) eqn:Hstate;
    [exact Hok | | exact Hok].
  destruct (recoveryTimeoutMs (duixApiCircuitBreaker w)
            <? clock w (ticks w) - lastFailureTime (duixApiCircuitBreaker w));
    [|exact Hok].
  unfold breakerConsistent in Hok |- *. rewrite Hstate in Hok.
  exact Hok.
Qed.

(** X1. Whatever sequence of [updateCircuitBreaker] and
    [shouldAttemptDuixCall] runs on a consistent breaker, and whatever the
    clock reads, the breaker stays consistent: it is CLOSED exactly while
    its failure count is below the threshold 5. *)
Theorem breaker_history_consistent (calls : list BreakerCall) :
  forall w : World,
    breakerConsistent (duixApiCircuitBreaker w) = true ->
    breakerConsistent
      (duixApiCircuitBreaker (execState (breakerCalls calls) w)) = true.
Proof.
  induction calls as [|call calls IH]; intros w Hok.
  - exact Hok.
  - unfold execState. cbn [breakerCalls]. rewrite run_bind.
    apply IH.
    destruct call as [success|]; cbn [breakerCall].
    + apply (updateCircuitBreaker_consistent success w Hok).
    + rewrite run_bind, run_ret. cbn [snd fst].
      apply (shouldAttempt_consistent w Hok).
Qed.

Lemma breaker_history_consistent_witness :
  breakerConsistent
    (duixApiCircuitBreaker
       (execState
          (breakerCalls
             [ RecordResult false; RecordResult false; ShouldAttempt;
               RecordResult false; RecordResult false; RecordResult false;
               ShouldAttempt; RecordResult false; RecordResult true ])
          (startWorld (fun k => 70000 * Z.of_nat k) initialCircuitBreaker
             (fun _ _ => Axios.Failed None "")))) = true.
Proof.
  apply breaker_history_consistent. reflexivity.
Defined.

Lemma times_last {A : Type} (n : nat) (action : IO A) : forall w : World,
  execState (times (S n) action) w
  = execState action (execState (times n action) w).
Proof.
  unfold execState.
  induction n as [|n IH]; intros w.
  - cbn [times]. rewrite !run_bind, !run_ret. reflexivity.
  - change (times (S (S n)) action)
      with (a <- action ;; rest <- times (S n) action ;; ret (a :: rest)).
    rewrite run_bind, run_bind, run_ret. cbn [snd].
    rewrite IH.
    change (times (S n) action)
      with (a <- action ;; rest <- times n action ;; ret (a :: rest)).
    rewrite run_bind, run_bind, run_ret. reflexivity.
Qed.

Lemma times_ticks (n : nat) : forall w : World,
  ticks (execState (times n (updateCircuitBreaker false)) w) = (n + ticks w)%nat
  /\ clock (execState (times n (updateCircuitBreaker false)) w) = clock w.
Proof.
  induction n as [|n IH]; intros w.
  - split; reflexivity.
  - rewrite times_last. destruct (IH w) as [Hticks Hclock].
    unfold execState at 1 3. rewrite run_updateCircuitBreaker_failure.
    cbn [snd setBreaker tick ticks clock]. rewrite Hticks, Hclock.
    split; reflexivity.
Qed.

(** X2. Failures in a row are counted one by one: from a CLOSED breaker
    with no failure, after [n] calls of [updateCircuitBreaker(false)] the
    count is [n], the breaker is OPEN exactly when [n] has reached the
    threshold, the time of the last failure is the last reading of the
    clock, and below the threshold the next call is still admitted. *)
Theorem breaker_counts_failures (n : nat) (w : World) :
  state (duixApiCircuitBreaker w) = CLOSED ->
  failures (duixApiCircuitBreaker w) = 0 ->
  let threshold := failureThreshold (duixApiCircuitBreaker w) in
  let after := execState (times n (updateCircuitBreaker false)) w in
  failures (duixApiCircuitBreaker after) = Z.of_nat n
  /\ failureThreshold (duixApiCircuitBreaker after) = threshold
  /\ state (duixApiCircuitBreaker after)
     = (if (0 <? Z.of_nat n) && (threshold <=? Z.of_nat n) then OPEN else CLOSED)
  /\ (forall k, n = S k ->
        lastFailureTime (duixApiCircuitBreaker after) = clock w (k + ticks w))
  /\ (Z.of_nat n < threshold -> evalState shouldAttemptDuixCall after = true).
Proof.
  intros Hclosed Hzero threshold after.
  assert (Hmain :
    failures (duixApiCircuitBreaker after) = Z.of_nat n
    /\ failureThreshold (duixApiCircuitBreaker after) = threshold
    /\ state (duixApiCircuitBreaker after)
       = (if (0 <? Z.of_nat n) && (threshold <=? Z.of_nat n) then OPEN else CLOSED)
    /\ (forall k, n = S k ->
          lastFailureTime (duixApiCircuitBreaker after) = clock w (k + ticks w))).
  { subst after. induction n as [|n IH].
    - cbn. repeat split; try assumption. intros k Hk. discriminate Hk.
    - rewrite times_last.
      destruct IH as (Hcount & Hth & Hstate & _).
      destruct (times_ticks n w) as [Hticks Hclock].
      set (before := execState (times n (updateCircuitBreaker false)) w) in *.
      unfold execState at 1 2 3 4. rewrite run_updateCircuitBreaker_failure.
      cbn [snd setBreaker duixApiCircuitBreaker failures failureThreshold
             state lastFailureTime].
      rewrite Hcount, Hth, Hstate, Hticks, Hclock.
      split; [lia|]. split; [reflexivity|]. split.
      + replace (Z.of_nat n + 1) with (Z.of_nat (S n)) by lia.
        destruct (Z.ltb_spec 0 (Z.of_nat (S n))); [|lia]. cbn [andb].
        destruct (Z.leb_spec threshold (Z.of_nat (S n))); [reflexivity|].
        destruct (Z.leb_spec threshold (Z.of_nat n)); [lia|].
        rewrite Bool.andb_false_r. reflexivity.
      + intros k Hk. injection Hk as <-. reflexivity. }
  destruct Hmain as (Hcount & Hth & Hstate & Hlast).
  repeat split; try assumption.
  intros Hbelow.
  unfold evalState. rewrite run_shouldAttempt_not_open; [reflexivity|].
  rewrite Hstate.
  destruct (Z.leb_spec threshold (Z.of_nat n)); [lia|].
  rewrite Bool.andb_false_r. discriminate.
Qed.

Lemma breaker_counts_failures_witness :
  let w := startWorld (fun k => 1000 * Z.of_nat k) initialCircuitBreaker
             (fun _ _ => Axios.Failed None "") in
  let after := execState (times 4 (updateCircuitBreaker false)) w in
  failures (duixApiCircuitBreaker after) = 4
  /\ state (duixApiCircuitBreaker after) = CLOSED
  /\ lastFailureTime (duixApiCircuitBreaker after) = 3000.
Proof.
  intros w after.
  assert (Hclosed : state (duixApiCircuitBreaker w) = CLOSED) by reflexivity.
  assert (Hzero : failures (duixApiCircuitBreaker w) = 0) by reflexivity.
  destruct (breaker_counts_failures 4 w Hclosed Hzero)
    as (Hcount & _ & Hstate & Hlast & _).
  split; [exact Hcount|]. split; [exact Hstate|].
  exact (Hlast 3%nat eq_refl).
Defined.

(** X3. While the breaker is HALF_OPEN (or CLOSED) every
    [shouldAttemptDuixCall()] returns true and leaves the breaker as it
    is: nothing limits the calls let through before a result is recorded. *)
Theorem half_open_admits_every_probe (n : nat) : forall w : World,
  state (duixApiCircuitBreaker w) <> OPEN ->
  runState (times n shouldAttemptDuixCall) w
  = (repeat true n, Nat.iter n tick w)
  /\ duixApiCircuitBreaker (Nat.iter n tick w) = duixApiCircuitBreaker w.
Proof.
  induction n as [|n IH]; intros w Hstate.
  - split; reflexivity.
  - split; [|apply breaker_of_ticks].
    cbn [times]. rewrite run_bind, (run_shouldAttempt_not_open w Hstate).
    cbn [fst snd]. rewrite run_bind.
    destruct (IH (tick w) Hstate) as [Hrun _]. rewrite Hrun.
    cbn [fst snd]. rewrite run_ret. cbn [repeat]. f_equal.
    symmetry. apply Nat.iter_succ_r.
Qed.

Lemma half_open_admits_every_probe_witness :
  evalState (times 3 shouldAttemptDuixCall)
    (startWorld (fun k => 1000 * Z.of_nat k)
       (mkBreaker 5 0 HALF_OPEN 5 60000)
       (fun _ _ => Axios.Failed None ""))
  = [true; true; true].
Proof.
  assert (Hstate : state (mkBreaker 5 0 HALF_OPEN 5 60000) <> OPEN)
    by discriminate.
  unfold evalState.
  rewrite (proj1 (half_open_admits_every_probe 3
                    (startWorld (fun k => 1000 * Z.of_nat k)
                       (mkBreaker 5 0 HALF_OPEN 5 60000)
                       (fun _ _ => Axios.Failed None "")) Hstate)).
  reflexivity.
Defined.

(** X4. A failure recorded while the count is at the threshold, as after a
    failed HALF_OPEN probe, opens the breaker again and restarts the
    recovery time from that failure: a call whose reading of the clock is
    at most [recoveryTimeoutMs] later is refused. *)
Theorem failed_probe_reopens (w : World) :
  failureThreshold (duixApiCircuitBreaker w)
    <= failures (duixApiCircuitBreaker w) + 1 ->
  clock w (S (ticks w)) - clock w (ticks w)
    <= recoveryTimeoutMs (duixApiCircuitBreaker w) ->
  let after := execState (updateCircuitBreaker false) w in
  state (duixApiCircuitBreaker after) = OPEN
  /\ lastFailureTime (duixApiCircuitBreaker after) = clock w (ticks w)
  /\ runState shouldAttemptDuixCall after = (false, tick after).
Proof.
  intros Hthreshold Hwait after.
  assert (Hstate : state (duixApiCircuitBreaker after) = OPEN).
  { subst after. unfold execState. rewrite run_updateCircuitBreaker_failure.
    cbn [snd setBreaker duixApiCircuitBreaker state].
    apply Z.leb_le in Hthreshold. rewrite Hthreshold. reflexivity. }
  split; [exact Hstate|]. split; [reflexivity|].
  apply run_shouldAttempt_refused; [exact Hstate|].
  subst after. unfold execState. rewrite run_updateCircuitBreaker_failure.
  cbn [snd setBreaker tick clock ticks duixApiCircuitBreaker lastFailureTime
         recoveryTimeoutMs].
  exact Hwait.
Qed.

Lemma failed_probe_reopens_witness :
  let w := startWorld (fun k => 100000 + 1000 * Z.of_nat k)
             (mkBreaker 5 0 HALF_OPEN 5 60000)
             (fun _ _ => Axios.Failed None "") in
  let after := execState (updateCircuitBreaker false) w in
  state (duixApiCircuitBreaker after) = OPEN
  /\ lastFailureTime (duixApiCircuitBreaker after) = 100000
  /\ evalState shouldAttemptDuixCall after = false.
Proof.
  intros w after.
  assert (Hthreshold : failureThreshold (duixApiCircuitBreaker w)
                       <= failures (duixApiCircuitBreaker w) + 1)
    by (cbn; lia).
  assert (Hwait : clock w (S (ticks w)) - clock w (ticks w)
                  <= recoveryTimeoutMs (duixApiCircuitBreaker w))
    by (cbn; lia).
  destruct (failed_probe_reopens w Hthreshold Hwait) as (Hstate & Hlast & Hrun).
  split; [exact Hstate|]. split; [exact Hlast|].
  exact (f_equal fst Hrun).
Defined.

(** ** The executor on any upstream *)

Section ExecutorProperties.

Variable IS_PRODUCTION : bool.
Variable DISABLE_SSL_VALIDATION : option string.
Variable AWS_REGION : option string.
Variable process_version : string.

Local Abbreviation createFallbackResponse :=
  (createFallbackResponse AWS_REGION).
Local Abbreviation duixRequest :=
  (duixRequest IS_PRODUCTION DISABLE_SSL_VALIDATION AWS_REGION process_version).
Local Abbreviation duixSuccess := (duixSuccess IS_PRODUCTION AWS_REGION).
Local Abbreviation attemptLoop :=
  (attemptLoop IS_PRODUCTION DISABLE_SSL_VALIDATION AWS_REGION process_version).
Local Abbreviation callDUIXServiceWithToken :=
  (callDUIXServiceWithToken IS_PRODUCTION DISABLE_SSL_VALIDATION AWS_REGION
     process_version).
Local Abbreviation maxRetries := (maxRetries IS_PRODUCTION).
Local Abbreviation baseTimeout := (baseTimeout IS_PRODUCTION).

(** The world the [return] of the [try] block leaves. *)
Lemma duixSuccess_world question now (response : Axios.response) (w : World) :
  execState (duixSuccess question now response) w
  = setBreaker
      (mkBreaker 0 (lastFailureTime (duixApiCircuitBreaker w)) CLOSED
         (failureThreshold (duixApiCircuitBreaker w))
         (recoveryTimeoutMs (duixApiCircuitBreaker w)))
      (Nat.iter (if IS_PRODUCTION then 2 else 3) tick w).
Proof.
  unfold execState. destruct IS_PRODUCTION; reflexivity.
Qed.

Lemma iter_tick_parts (n : nat) (w : World) :
  sent (Nat.iter n tick w) = sent w
  /\ slept (Nat.iter n tick w) = slept w
  /\ upstream (Nat.iter n tick w) = upstream w
  /\ clock (Nat.iter n tick w) = clock w
  /\ random (Nat.iter n tick w) = random w
  /\ draws (Nat.iter n tick w) = draws w
  /\ duixApiCircuitBreaker (Nat.iter n tick w) = duixApiCircuitBreaker w.
Proof.
  induction n as [|n IH]; [repeat split | exact IH].
Qed.

(** The loop on any upstream: the breaker stays consistent, no more
    requests go out than there are attempts, and no more delays are
    awaited than there are attempts before the last. *)
Lemma attemptLoop_bounded question apiUrl appId clientToken now M B
  (early : list Z) : forall w : World,
  breakerConsistent (duixApiCircuitBreaker w) = true ->
  let after :=
    execState (attemptLoop question apiUrl appId clientToken now M B
                 (early ++ [M])) w in
  breakerConsistent (duixApiCircuitBreaker after) = true
  /\ exists requests pauses,
       sent after = (sent w ++ requests)%list
       /\ (length requests <= S (length early))%nat
       /\ Forall (fun r => exists k, In k (early ++ [M])
                           /\ r = duixRequest apiUrl appId clientToken B k)
            requests
       /\ slept after = (slept w ++ pauses)%list
       /\ (length pauses <= length early)%nat
       /\ Forall (fun d => (d <= inject_Z 10000)%Q) pauses.
Proof.
  induction early as [|attempt early IH]; intros w Hok after.
  - subst after. cbn [app]. unfold execState.
    destruct (Axios.settle (clientCode w) (duixRequest apiUrl appId clientToken B M)
                (upstream w (length (sent w))
                   (duixRequest apiUrl appId clientToken B M)))
      as [response | error] eqn:Hsettle.
    + rewrite (run_attempt_resolved IS_PRODUCTION DISABLE_SSL_VALIDATION
                 AWS_REGION process_version question apiUrl appId clientToken
                 now M B M [] w response Hsettle).
      match goal with |- context [runState _ ?v] => set (w1 := v) end.
      change (snd (runState (duixSuccess question now response) w1))
        with (execState (duixSuccess question now response) w1).
      rewrite duixSuccess_world.
      split.
      * unfold breakerConsistent in Hok |- *.
        cbn [setBreaker duixApiCircuitBreaker failureThreshold
               recoveryTimeoutMs state failures].
        apply andb_prop in Hok. destruct Hok as [Hok _].
        change (duixApiCircuitBreaker w1) with (duixApiCircuitBreaker w).
        rewrite Hok. reflexivity.
      * exists [duixRequest apiUrl appId clientToken B M], [].
        destruct (iter_tick_parts (if IS_PRODUCTION then 2 else 3) w1)
          as (Hsent & Hslept & _).
        cbn [setBreaker sent slept]. rewrite Hsent, Hslept.
        repeat split.
        -- cbn. lia.
        -- constructor; [|constructor]. exists M. split; [left|]; reflexivity.
        -- subst w1. cbn [slept]. symmetry. apply app_nil_r.
        -- cbn. lia.
        -- constructor.
    + pose proof (run_attempt_rejected_last IS_PRODUCTION DISABLE_SSL_VALIDATION
                 AWS_REGION process_version question apiUrl appId clientToken
                 now M B [] w error Hsettle) as Hrun.
      cbv zeta in Hrun. rewrite Hrun. clear Hrun.
      rewrite (run_createFallbackResponse AWS_REGION). cbn [snd].
      match goal with
      | |- context [execState (updateCircuitBreaker false) ?v] =>
          set (logged := v)
      end.
      set (recorded := execState (updateCircuitBreaker false) logged).
      change (tick (tick (tick recorded))) with (Nat.iter 3 tick recorded).
      destruct (iter_tick_parts 3 recorded)
        as (Hsent & Hslept & _ & _ & _ & _ & Hbreaker).
      rewrite Hbreaker, Hsent, Hslept.
      split.
      * apply (updateCircuitBreaker_consistent false logged). exact Hok.
      * exists [duixRequest apiUrl appId clientToken B M], [].
        repeat split.
        -- cbn. lia.
        -- constructor; [|constructor]. exists M. split; [left|]; reflexivity.
        -- subst recorded logged. unfold execState.
           rewrite run_updateCircuitBreaker_failure. cbn [snd setBreaker tick slept].
           symmetry. apply app_nil_r.
        -- cbn. lia.
        -- constructor.
  - subst after. unfold execState.
    change ((attempt :: early) ++ [M])%list with (attempt :: (early ++ [M])%list).
    destruct (Axios.settle (clientCode w) (duixRequest apiUrl appId clientToken B attempt)
                (upstream w (length (sent w))
                   (duixRequest apiUrl appId clientToken B attempt)))
      as [response | error] eqn:Hsettle.
    + rewrite (run_attempt_resolved IS_PRODUCTION DISABLE_SSL_VALIDATION
                 AWS_REGION process_version question apiUrl appId clientToken
                 now M B attempt (early ++ [M])%list w response Hsettle).
      match goal with |- context [runState _ ?v] => set (w1 := v) end.
      change (snd (runState (duixSuccess question now response) w1))
        with (execState (duixSuccess question now response) w1).
      rewrite duixSuccess_world.
      split.
      * unfold breakerConsistent in Hok |- *.
        cbn [setBreaker duixApiCircuitBreaker failureThreshold
               recoveryTimeoutMs state failures].
        apply andb_prop in Hok. destruct Hok as [Hok _].
        change (duixApiCircuitBreaker w1) with (duixApiCircuitBreaker w).
        rewrite Hok. reflexivity.
      * exists [duixRequest apiUrl appId clientToken B attempt], [].
        destruct (iter_tick_parts (if IS_PRODUCTION then 2 else 3) w1)
          as (Hsent & Hslept & _).
        cbn [setBreaker sent slept]. rewrite Hsent, Hslept.
        repeat split.
        -- cbn. lia.
        -- constructor; [|constructor].
           exists attempt. split; [left|]; reflexivity.
        -- subst w1. cbn [slept]. symmetry. apply app_nil_r.
        -- cbn. lia.
        -- constructor.
    + destruct (Z.eq_dec attempt M) as [-> | Hnotlast].
      * pose proof (run_attempt_rejected_last IS_PRODUCTION
                 DISABLE_SSL_VALIDATION AWS_REGION process_version question
                 apiUrl appId clientToken now M B (early ++ [M])%list w error
                 Hsettle) as Hrun.
        cbv zeta in Hrun. rewrite Hrun. clear Hrun.
        rewrite (run_createFallbackResponse AWS_REGION). cbn [snd].
        match goal with
        | |- context [execState (updateCircuitBreaker false) ?v] =>
            set (logged := v)
        end.
        set (recorded := execState (updateCircuitBreaker false) logged).
        change (tick (tick (tick recorded))) with (Nat.iter 3 tick recorded).
        destruct (iter_tick_parts 3 recorded)
          as (Hsent & Hslept & _ & _ & _ & _ & Hbreaker).
        rewrite Hbreaker, Hsent, Hslept.
        split.
        -- apply (updateCircuitBreaker_consistent false logged). exact Hok.
        -- exists [duixRequest apiUrl appId clientToken B M], [].
           repeat split.
           ++ cbn. lia.
           ++ constructor; [|constructor].
              exists M. split; [left|]; reflexivity.
           ++ subst recorded logged. unfold execState.
              rewrite run_updateCircuitBreaker_failure.
              cbn [snd setBreaker tick slept]. symmetry. apply app_nil_r.
           ++ cbn. lia.
           ++ constructor.
      * rewrite (run_attempt_rejected_retry IS_PRODUCTION
                 DISABLE_SSL_VALIDATION AWS_REGION process_version question
                 apiUrl appId clientToken now M B attempt (early ++ [M])%list
                 w error Hsettle Hnotlast).
        match goal with |- context [runState _ ?v] => set (w1 := v) end.
        destruct (IH w1 Hok) as (Hok' & requests & pauses & Hsent & Hcount
                                 & Hreqs & Hslept & Hpauses & Hcap).
        unfold execState in Hok', Hsent, Hslept.
        split; [exact Hok'|].
        exists (duixRequest apiUrl appId clientToken B attempt :: requests),
               (backoffMs attempt (random w (draws w)) :: pauses).
        repeat split.
        -- rewrite Hsent. subst w1. cbn [sent]. rewrite <- app_assoc. reflexivity.
        -- cbn [length]. lia.
        -- constructor.
           ++ exists attempt. split; [left|]; reflexivity.
           ++ eapply Forall_impl; [|exact Hreqs].
              intros r (k & Hk & ->). exists k. split; [right; exact Hk|reflexivity].
        -- rewrite Hslept. subst w1. cbn [slept]. rewrite <- app_assoc. reflexivity.
        -- cbn [length]. lia.
        -- constructor; [|exact Hcap]. apply Q.le_min_r.
Qed.

(** A run of rejected attempts before the last: each sends its request,
    reads the clock for its log line, draws a jitter and waits. *)
Lemma attemptLoop_rejected_prefix question apiUrl appId clientToken now M B
  (early : list Z) : forall (rest : list Z) (w : World),
  Forall (fun attempt => attempt <> M) early ->
  (forall i attempt, nth_error early i = Some attempt ->
     failing (upstream w (length (sent w) + i)
                (duixRequest apiUrl appId clientToken B attempt)) = true) ->
  runState (attemptLoop question apiUrl appId clientToken now M B
              (early ++ rest)) w
  = runState (attemptLoop question apiUrl appId clientToken now M B rest)
      (mkWorld (clock w)
         (length early * (if IS_PRODUCTION then 2 else 1) + ticks w)
         (duixApiCircuitBreaker w) (upstream w)
         (sent w ++ map (duixRequest apiUrl appId clientToken B) early)
         (random w) (length early + draws w)
         (slept w ++ delays (random w) (draws w) early) (clientCode w)).
Proof.
  induction early as [|attempt early IH]; intros rest w Hearly Hfail.
  - destruct w as [c t cb u s r d sl]. cbn. rewrite !app_nil_r. reflexivity.
  - inversion Hearly as [|? ? Hattempt Hrest]; subst.
    destruct (settle_failing IS_PRODUCTION DISABLE_SSL_VALIDATION AWS_REGION
                process_version (clientCode w) apiUrl appId clientToken B
                attempt _
                (eq_trans (f_equal (fun n => failing (upstream w n _))
                             (eq_sym (Nat.add_0_r (length (sent w)))))
                   (Hfail O attempt eq_refl)))
      as [error Hsettle].
    change ((attempt :: early) ++ rest)%list
      with (attempt :: (early ++ rest)%list).
    rewrite (run_attempt_rejected_retry IS_PRODUCTION DISABLE_SSL_VALIDATION
               AWS_REGION process_version question apiUrl appId clientToken
               now M B attempt (early ++ rest)%list w error Hsettle Hattempt).
    rewrite IH; [|exact Hrest|].
    + f_equal. cbn [clock ticks duixApiCircuitBreaker upstream sent random
                      draws slept length map delays].
      f_equal.
      * destruct IS_PRODUCTION; lia.
      * rewrite <- app_assoc. reflexivity.
      * lia.
      * rewrite <- app_assoc. reflexivity.
    + intros i a Hnth. cbn [upstream sent].
      rewrite length_app. cbn [length].
      replace (length (sent w) + 1 + i)%nat with (length (sent w) + S i)%nat
        by lia.
      apply Hfail. exact Hnth.
Qed.

Lemma In_upto (n k : Z) : In k (upto n) <-> 1 <= k <= n.
Proof.
  unfold upto. rewrite in_map_iff. split.
  - intros (m & <- & Hm). apply in_seq in Hm. lia.
  - intros Hk. exists (Z.to_nat k). split; [lia|]. apply in_seq. lia.
Qed.

Lemma upto_split (n : nat) (rest : Z) :
  0 <= rest ->
  upto (Z.of_nat n + 1 + rest)
  = (upto (Z.of_nat n) ++ (Z.of_nat n + 1)
       :: map (fun k => Z.of_nat n + 1 + k) (upto rest))%list.
Proof.
  intros Hrest. unfold upto.
  replace (Z.to_nat (Z.of_nat n + 1 + rest))
    with (n + (1 + Z.to_nat rest))%nat by lia.
  rewrite seq_app, map_app, Nat2Z.id.
  f_equal. cbn [seq map Nat.add]. f_equal; [lia|].
  rewrite map_map.
  generalize (Z.to_nat rest) as m. clear.
  assert (Hshift : forall m start,
            map Z.of_nat (seq (S n + start) m)
            = map (fun k => Z.of_nat n + 1 + Z.of_nat k) (seq start m)).
  { induction m as [|m IH]; intros start; [reflexivity|].
    cbn [seq map]. f_equal; [lia|].
    replace (S (S n + start)) with (S n + S start)%nat by lia. apply IH. }
  intros m. replace (S (S n)) with (S n + 1)%nat by lia. apply Hshift.
Qed.

Lemma nth_error_upto (n : Z) (i : nat) (k : Z) :
  nth_error (upto n) i = Some k -> k = Z.of_nat i + 1.
Proof.
  unfold upto. rewrite nth_error_map.
  destruct (nth_error (seq 1 (Z.to_nat n)) i) as [m|] eqn:Hnth; [|discriminate].
  intros Hk. injection Hk as <-.
  assert (Hi : (i < length (seq 1 (Z.to_nat n)))%nat)
    by (apply nth_error_Some; congruence).
  rewrite length_seq in Hi.
  rewrite (nth_error_nth' _ 0%nat) in Hnth by (rewrite length_seq; exact Hi).
  rewrite seq_nth in Hnth by exact Hi. injection Hnth as <-. lia.
Qed.

Lemma run_shouldAttempt_admitted (w : World) :
  evalState shouldAttemptDuixCall w = true ->
  runState shouldAttemptDuixCall w
  = (true, setBreaker (admittedBreaker (duixApiCircuitBreaker w)) (tick w)).
Proof.
  unfold evalState, shouldAttemptDuixCall, admittedBreaker.
  rewrite run_bind, run_Date_now. cbn [fst snd].
  rewrite run_bind, run_readBreaker. cbn [fst snd].
  change (duixApiCircuitBreaker (tick w)) with (duixApiCircuitBreaker w).
  destruct (state (duixApiCircuitBreaker w)); cbn; try reflexivity.
  destruct (recoveryTimeoutMs (duixApiCircuitBreaker w)
            <? clock w (ticks w) - lastFailureTime (duixApiCircuitBreaker w));
    cbn; [reflexivity | discriminate].
Qed.

(** An admitted call is the loop over the attempts 1 to [maxRetries]. *)
Lemma run_call_admitted question apiUrl appId clientToken (w : World) :
  evalState shouldAttemptDuixCall (tick w) = true ->
  runState (callDUIXServiceWithToken question apiUrl appId clientToken) w
  = runState (attemptLoop question apiUrl appId clientToken
                (clock w (ticks w)) maxRetries baseTimeout (upto maxRetries))
      (setBreaker (admittedBreaker (duixApiCircuitBreaker w)) (tick (tick w))).
Proof.
  intros Hadmit. unfold Server.callDUIXServiceWithToken.
  rewrite run_bind, run_Date_now. cbn [fst snd].
  rewrite run_bind, (run_shouldAttempt_admitted (tick w) Hadmit).
  reflexivity.
Qed.

(** A refused call is the fallback response. *)
Lemma run_call_refused question apiUrl appId clientToken (w : World) :
  evalState shouldAttemptDuixCall (tick w) = false ->
  runState (callDUIXServiceWithToken question apiUrl appId clientToken) w
  = runState (createFallbackResponse question (clock w (ticks w)) Js.JNull)
      (tick (tick w)).
Proof.
  intros Hrefuse. unfold Server.callDUIXServiceWithToken.
  rewrite run_bind, run_Date_now. cbn [fst snd].
  rewrite run_bind, (shouldAttempt_false_world (tick w) Hrefuse).
  reflexivity.
Qed.

Lemma admittedBreaker_consistent (cb : CircuitBreaker) :
  breakerConsistent cb = true -> breakerConsistent (admittedBreaker cb) = true.
Proof.
  unfold admittedBreaker, breakerConsistent.
  destruct cb as [f l st th rt]. cbn. destruct st; intros H; exact H.
Qed.

Lemma early_attempts_length (early : list Z) :
  upto maxRetries = (early ++ [maxRetries])%list ->
  S (length early) = Z.to_nat maxRetries.
Proof.
  intros Hupto.
  assert (Hlen : length (upto maxRetries) = Z.to_nat maxRetries)
    by (unfold upto; rewrite length_map, length_seq; reflexivity).
  rewrite Hupto, length_app in Hlen. cbn [length] in Hlen. lia.
Qed.

(** X5. Whatever the upstream and the clock do, one call of the executor
    sends at most [maxRetries] requests, each one the request of an
    attempt between 1 and [maxRetries], waits at most [maxRetries - 1]
    times and never longer than 10000 ms at a time, and leaves a
    consistent breaker consistent. *)
Theorem executor_bounded question apiUrl appId clientToken (w : World) :
  breakerConsistent (duixApiCircuitBreaker w) = true ->
  let after :=
    execState (callDUIXServiceWithToken question apiUrl appId clientToken) w in
  breakerConsistent (duixApiCircuitBreaker after) = true
  /\ exists requests pauses,
       sent after = (sent w ++ requests)%list
       /\ (length requests <= Z.to_nat maxRetries)%nat
       /\ Forall (fun r => exists k, 1 <= k <= maxRetries
                           /\ r = duixRequest apiUrl appId clientToken
                                    baseTimeout k)
            requests
       /\ slept after = (slept w ++ pauses)%list
       /\ (length pauses < Z.to_nat maxRetries)%nat
       /\ Forall (fun d => (d <= inject_Z 10000)%Q) pauses.
Proof.
  intros Hok after. subst after. unfold execState.
  destruct (evalState shouldAttemptDuixCall (tick w)) eqn:Hcheck.
  - rewrite (run_call_admitted question apiUrl appId clientToken w Hcheck).
    destruct (upto_maxRetries IS_PRODUCTION) as (early & Hupto & _).
    pose proof (early_attempts_length early Hupto) as Hlen.
    rewrite Hupto.
    set (admitted := setBreaker _ _).
    destruct (attemptLoop_bounded question apiUrl appId clientToken
                (clock w (ticks w)) maxRetries baseTimeout early admitted
                (admittedBreaker_consistent _ Hok))
      as (Hok' & requests & pauses & Hsent & Hcount & Hreqs & Hslept
          & Hpauses & Hcap).
    unfold execState in Hok', Hsent, Hslept.
    split; [exact Hok'|].
    exists requests, pauses.
    repeat split; try assumption; try lia.
    eapply Forall_impl; [|exact Hreqs].
    intros r (k & Hk & ->). exists k. split; [|reflexivity].
    rewrite <- Hupto in Hk. apply In_upto. exact Hk.
  - rewrite (run_call_refused question apiUrl appId clientToken w Hcheck).
    rewrite (run_createFallbackResponse AWS_REGION). cbn [snd].
    change (tick (tick (tick (tick (tick w))))) with (Nat.iter 5 tick w).
    destruct (iter_tick_parts 5 w)
      as (Hsent & Hslept & _ & _ & _ & _ & Hbreaker).
    rewrite Hbreaker, Hsent, Hslept.
    split; [exact Hok|].
    exists [], [].
    repeat split; try (symmetry; apply app_nil_r); try constructor.
    + cbn. lia.
    + unfold Server.maxRetries. destruct IS_PRODUCTION; cbn; lia.
Qed.

Lemma length_upto (n : nat) : length (upto (Z.of_nat n)) = n.
Proof.
  unfold upto. rewrite length_map, length_seq. apply Nat2Z.id.
Qed.

(** X6. When the breaker admits the call, the first [n] attempts are
    rejected ([n] below [maxRetries]) and the next one is answered with a
    status below 500, the executor has sent exactly the requests of
    attempts 1 to [n + 1], has waited once after each rejected attempt,
    returns the upstream body as a genuine answer, and records a success
    only: the failure count is 0 and the breaker CLOSED, the rejected
    attempts of the call are not counted. *)
Theorem retry_then_success question apiUrl appId clientToken (w : World)
  (n : nat) (status : Z) (body : Js.value) :
  evalState shouldAttemptDuixCall (tick w) = true ->
  Z.of_nat n < maxRetries ->
  (forall i, (i < n)%nat ->
     failing (upstream w (length (sent w) + i)
                (duixRequest apiUrl appId clientToken baseTimeout
                   (Z.of_nat i + 1))) = true) ->
  upstream w (length (sent w) + n)
    (duixRequest apiUrl appId clientToken baseTimeout (Z.of_nat n + 1))
    = Axios.Replied status body ->
  status < 500 ->
  let result :=
    runState (callDUIXServiceWithToken question apiUrl appId clientToken) w in
  let data := Js.prop "data" (fst result) in
  sent (snd result)
    = (sent w ++ map (duixRequest apiUrl appId clientToken baseTimeout)
                   (upto (Z.of_nat n + 1)))%list
  /\ slept (snd result)
     = (slept w ++ delays (random w) (draws w) (upto (Z.of_nat n)))%list
  /\ failures (duixApiCircuitBreaker (snd result)) = 0
  /\ state (duixApiCircuitBreaker (snd result)) = CLOSED
  /\ Js.prop "concurrent_info" data = body
  /\ Js.prop "api_status" data = Js.JNumber (Js.Num status)
  /\ Js.prop "real_api_response" data = Js.JBool true
  /\ Js.prop "fallback_mode" data = Js.JUndefined.
Proof.
  intros Hadmit Hbelow Hfail Hreply Hstatus result data.
  assert (Hupto : upto maxRetries
                  = (upto (Z.of_nat n) ++ (Z.of_nat n + 1)
                       :: map (fun k => Z.of_nat n + 1 + k)
                            (upto (maxRetries - Z.of_nat n - 1)))%list).
  { rewrite <- upto_split by lia. f_equal. lia. }
  pose proof (run_call_admitted question apiUrl appId clientToken w Hadmit)
    as Hrun.
  fold result in Hrun.
  set (admitted := setBreaker _ _) in Hrun.
  rewrite Hupto in Hrun.
  rewrite (attemptLoop_rejected_prefix question apiUrl appId clientToken
             (clock w (ticks w)) maxRetries baseTimeout (upto (Z.of_nat n)))
    in Hrun.
  2:{ apply Forall_forall. intros k Hk. apply In_upto in Hk. lia. }
  2:{ intros i attempt Hnth.
      assert (Hi : (i < n)%nat).
      { rewrite <- (length_upto n). apply nth_error_Some. congruence. }
      rewrite (nth_error_upto _ _ _ Hnth). apply (Hfail i Hi). }
  match type of Hrun with
  | _ = runState _ ?v => set (retried := v) in Hrun
  end.
  assert (Hsettle :
    Axios.settle (clientCode retried)
      (duixRequest apiUrl appId clientToken baseTimeout (Z.of_nat n + 1))
      (upstream retried (length (sent retried))
         (duixRequest apiUrl appId clientToken baseTimeout (Z.of_nat n + 1)))
    = inl (Axios.mkResponse status body)).
  { subst retried admitted. cbn [upstream sent setBreaker tick].
    rewrite length_app, length_map, length_upto, Hreply.
    cbn [Axios.settle Axios.validateStatus Server.duixRequest].
    apply Z.ltb_lt in Hstatus. rewrite Hstatus. reflexivity. }
  rewrite (run_attempt_resolved IS_PRODUCTION DISABLE_SSL_VALIDATION AWS_REGION
             process_version question apiUrl appId clientToken
             (clock w (ticks w)) maxRetries baseTimeout (Z.of_nat n + 1) _
             retried (Axios.mkResponse status body) Hsettle) in Hrun.
  match type of Hrun with
  | _ = runState _ ?v => set (answered := v) in Hrun
  end.
  pose proof (run_duixSuccess IS_PRODUCTION AWS_REGION question
                (clock w (ticks w)) (Axios.mkResponse status body) answered)
    as Hok.
  cbv zeta in Hok. rewrite <- Hrun in Hok.
  destruct Hok as (Hsent & Hcount & Hmode & _ & Hinfo & Hstat & _ & _ & _
                   & Hreal & Hfallback).
  pose proof (duixSuccess_world question (clock w (ticks w))
                (Axios.mkResponse status body) answered) as Hworld.
  unfold execState in Hworld. rewrite <- Hrun in Hworld.
  subst data.
  repeat split; try assumption.
  - rewrite Hsent. subst answered retried admitted.
    cbn [sent setBreaker tick].
    replace (Z.of_nat n + 1) with (Z.of_nat n + 1 + 0) at 2 by lia.
    rewrite upto_split by lia. cbn [upto Z.to_nat seq map].
    rewrite map_app. cbn [map]. rewrite <- app_assoc. reflexivity.
  - rewrite Hworld. cbn [setBreaker slept].
    destruct (iter_tick_parts (if IS_PRODUCTION then 2 else 3) answered)
      as (_ & Hslept & _).
    rewrite Hslept. reflexivity.
Qed.

(** An admitted call on an upstream that always fails, step by step: the
    rejected attempts before the last, the last attempt, the failure
    recorded and the fallback built from the error of the last attempt. *)
Lemma run_call_exhausted question apiUrl appId clientToken (w : World) :
  alwaysFails w ->
  evalState shouldAttemptDuixCall (tick w) = true ->
  exists error : Axios.error,
    let t0 := ((if IS_PRODUCTION then 2 else 1) * Z.to_nat maxRetries
               + 2 + ticks w)%nat in
    let request := duixRequest apiUrl appId clientToken baseTimeout in
    let logged :=
      mkWorld (clock w) t0 (admittedBreaker (duixApiCircuitBreaker w))
        (upstream w) (sent w ++ map request (upto maxRetries))
        (random w) (Z.to_nat (maxRetries - 1) + draws w)
        (slept w ++ delays (random w) (draws w) (upto (maxRetries - 1))) (clientCode w) in
    let recorded := execState (updateCircuitBreaker false) logged in
    Axios.settle (clientCode w) (request maxRetries)
      (upstream w (length (sent w) + Z.to_nat (maxRetries - 1))
         (request maxRetries)) = inr error
    /\ runState (callDUIXServiceWithToken question apiUrl appId clientToken) w
       = runState
           (createFallbackResponse question (clock w (ticks w))
              (Js.JObject
                 [ ("error", Js.JString "DUIX API unavailable");
                   ("attempts", Js.JNumber (Js.Num maxRetries));
                   ("last_error", Js.JString (errorCodeOf error));
                   ("circuit_breaker_state",
                    Js.JString
                      (BreakerState_name
                         (state (duixApiCircuitBreaker recorded)))) ]))
           recorded.
Proof.
  intros Hfails Hadmit.
  set (m := if IS_PRODUCTION then 1%nat else 2%nat).
  assert (Hm : maxRetries = Z.of_nat m + 1)
    by (unfold Server.maxRetries; subst m; destruct IS_PRODUCTION; reflexivity).
  assert (Hupto : upto maxRetries = (upto (Z.of_nat m) ++ [maxRetries])%list).
  { rewrite Hm at 1. replace (Z.of_nat m + 1) with (Z.of_nat m + 1 + 0) by lia.
    rewrite upto_split by lia. rewrite Hm. reflexivity. }
  pose proof (run_call_admitted question apiUrl appId clientToken w Hadmit)
    as Hrun.
  set (admitted := setBreaker _ _) in Hrun.
  rewrite Hupto in Hrun.
  rewrite (attemptLoop_rejected_prefix question apiUrl appId clientToken
             (clock w (ticks w)) maxRetries baseTimeout (upto (Z.of_nat m)))
    in Hrun.
  2:{ apply Forall_forall. intros k Hk. apply In_upto in Hk. lia. }
  2:{ intros i attempt _. apply Hfails. }
  match type of Hrun with
  | _ = runState _ ?v => set (retried := v) in Hrun
  end.
  destruct (settle_failing IS_PRODUCTION DISABLE_SSL_VALIDATION AWS_REGION
              process_version (clientCode retried) apiUrl appId clientToken
              baseTimeout maxRetries _
              (Hfails (length (sent retried))
                 (duixRequest apiUrl appId clientToken baseTimeout maxRetries)))
    as [error Hsettle].
  pose proof (run_attempt_rejected_last IS_PRODUCTION DISABLE_SSL_VALIDATION
                AWS_REGION process_version question apiUrl appId clientToken
                (clock w (ticks w)) maxRetries baseTimeout [] retried error
                Hsettle) as Hlast.
  cbv zeta in Hlast. rewrite Hlast in Hrun. clear Hlast.
  assert (Hlogged :
    mkWorld (clock retried)
      ((if IS_PRODUCTION then 2 else 1) + ticks retried)
      (duixApiCircuitBreaker retried) (upstream retried)
      (sent retried
         ++ [duixRequest apiUrl appId clientToken baseTimeout maxRetries])
      (random retried) (draws retried) (slept retried) (clientCode retried)
    = mkWorld (clock w)
        ((if IS_PRODUCTION then 2 else 1) + ticks retried)
        (admittedBreaker (duixApiCircuitBreaker w)) (upstream w)
        (sent w ++ map (duixRequest apiUrl appId clientToken baseTimeout)
                     (upto maxRetries))
        (random w) (m + draws w)
        (slept w ++ delays (random w) (draws w) (upto (Z.of_nat m))) (clientCode w)).
  { subst retried admitted.
    cbn [clock ticks duixApiCircuitBreaker upstream sent random draws slept
           setBreaker tick].
    rewrite length_upto, Hupto, map_app, <- app_assoc. reflexivity. }
  rewrite Hlogged in Hrun.
  assert (Ht0 : ((if IS_PRODUCTION then 2 else 1) + ticks retried
                 = (if IS_PRODUCTION then 2 else 1) * Z.to_nat maxRetries
                   + 2 + ticks w)%nat).
  { subst retried admitted. cbn [ticks setBreaker tick].
    rewrite length_upto, Hm. subst m. destruct IS_PRODUCTION; cbn; lia. }
  rewrite Ht0 in Hrun.
  exists error.
  cbv zeta.
  replace (maxRetries - 1) with (Z.of_nat m) by lia.
  rewrite Nat2Z.id.
  split; [|exact Hrun].
  rewrite <- Hsettle. subst retried admitted.
  cbn [upstream sent setBreaker tick].
  rewrite length_app, length_map, length_upto. reflexivity.
Qed.

Lemma nth_error_delays (random : nat -> Q) (attempts : list Z) :
  forall (d i : nat),
    nth_error (delays random d attempts) i
    = option_map (fun attempt => backoffMs attempt (random (d + i)%nat))
        (nth_error attempts i).
Proof.
  induction attempts as [|attempt attempts IH]; intros d i.
  - destruct i; reflexivity.
  - destruct i as [|i]; cbn [delays nth_error option_map].
    + rewrite Nat.add_0_r. reflexivity.
    + rewrite IH. replace (S d + i)%nat with (d + S i)%nat by lia. reflexivity.
Qed.

(** The delay after attempt 1, 2 or 3 with a jitter in [0, 1): the cap of
    10000 ms plays no part. *)
Lemma backoff_uncapped (attempt : Z) (r : Q) :
  (0 <= r)%Q -> (r < 1)%Q -> 1 <= attempt <= 3 ->
  (backoffMs attempt r == inject_Z (2 ^ attempt * 1000) + r * inject_Z 1000)%Q.
Proof.
  intros Hlo Hhi Hattempt. unfold Server.backoffMs. apply Q.min_l.
  assert (Hcases : attempt = 1 \/ attempt = 2 \/ attempt = 3) by lia.
  destruct Hcases as [-> | [-> | ->]];
    cbn [Z.pow Z.pow_pos Pos.iter Z.mul Pos.mul]; unfold inject_Z; lra.
Qed.

(** X7. On an upstream that always fails, an admitted call waits exactly
    [maxRetries - 1] times, once after every attempt but the last, each
    time with a fresh draw of the jitter; when the jitter lies in [0, 1),
    as [Math.random()] does, the wait after attempt [k] is at least
    [2^k * 1000] ms and at most [2^k * 1000 + 1000] ms, so the waits
    never decrease and stay below the cap of 10000 ms. The bounds are
    the ones that hold of the doubles of the source as well: both ends
    are doubles and rounding is monotone, so the rounded sum can reach
    the upper end but not pass it. *)
Theorem exhaustion_waits question apiUrl appId clientToken (w : World) :
  alwaysFails w ->
  evalState shouldAttemptDuixCall (tick w) = true ->
  (forall n, (0 <= random w n)%Q /\ (random w n < 1)%Q) ->
  let after :=
    execState (callDUIXServiceWithToken question apiUrl appId clientToken) w in
  let pauses := delays (random w) (draws w) (upto (maxRetries - 1)) in
  slept after = (slept w ++ pauses)%list
  /\ draws after = (Z.to_nat (maxRetries - 1) + draws w)%nat
  /\ length pauses = Z.to_nat (maxRetries - 1)
  /\ forall i d, nth_error pauses i = Some d ->
       (inject_Z (2 ^ (Z.of_nat i + 1) * 1000) <= d)%Q
       /\ (d <= inject_Z (2 ^ (Z.of_nat i + 1) * 1000 + 1000))%Q
       /\ (d < inject_Z 10000)%Q.
Proof.
  intros Hfails Hadmit Hrandom after pauses.
  destruct (run_call_exhausted question apiUrl appId clientToken w Hfails Hadmit)
    as (error & _ & Hrun).
  cbv zeta in Hrun. rewrite (run_createFallbackResponse AWS_REGION) in Hrun.
  subst after. unfold execState. rewrite Hrun. cbn [snd].
  unfold execState. rewrite run_updateCircuitBreaker_failure.
  cbn [snd setBreaker tick slept draws].
  split; [reflexivity|]. split; [reflexivity|].
  assert (Hlen : length pauses = Z.to_nat (maxRetries - 1)).
  { subst pauses.
    assert (Hd : forall (l : list Z) d,
              length (delays (random w) d l) = length l).
    { induction l as [|x l IH]; intros d; [reflexivity|].
      cbn [delays length]. rewrite IH. reflexivity. }
    rewrite Hd. unfold upto. rewrite length_map, length_seq. reflexivity. }
  split; [exact Hlen|].
  intros i d Hnth. subst pauses. rewrite nth_error_delays in Hnth.
  destruct (nth_error (upto (maxRetries - 1)) i) as [attempt|] eqn:Hattempt;
    [|discriminate Hnth].
  cbn [option_map] in Hnth. injection Hnth as <-.
  pose proof (nth_error_upto _ _ _ Hattempt) as ->.
  assert (Hin : In (Z.of_nat i + 1) (upto (maxRetries - 1))).
  { apply nth_error_In with (n := i). exact Hattempt. }
  apply In_upto in Hin.
  assert (Hmax : maxRetries <= 3)
    by (unfold Server.maxRetries; destruct IS_PRODUCTION; lia).
  destruct (Hrandom (draws w + i)%nat) as [Hlo Hhi].
  rewrite (backoff_uncapped (Z.of_nat i + 1) _ Hlo Hhi) by lia.
  rewrite inject_Z_plus.
  assert (Hbase : (inject_Z (2 ^ (Z.of_nat i + 1) * 1000) <= inject_Z 4000)%Q).
  { rewrite <- Zle_Qle.
    assert (Hcases : Z.of_nat i + 1 = 1 \/ Z.of_nat i + 1 = 2) by lia.
    destruct Hcases as [-> | ->]; cbn; lia. }
  revert Hbase.
  generalize (inject_Z (2 ^ (Z.of_nat i + 1) * 1000)). intros x.
  unfold inject_Z. intros Hbase. repeat split; lra.
Qed.

(** What an exhausted call leaves behind. *)
Lemma exhausted_call_summary question apiUrl appId clientToken (w : World) :
  alwaysFails w ->
  evalState shouldAttemptDuixCall (tick w) = true ->
  let result :=
    runState (callDUIXServiceWithToken question apiUrl appId clientToken) w in
  let t0 := ((if IS_PRODUCTION then 2 else 1) * Z.to_nat maxRetries
             + 2 + ticks w)%nat in
  let cb := admittedBreaker (duixApiCircuitBreaker w) in
  upstream (snd result) = upstream w
  /\ clock (snd result) = clock w
  /\ ticks (snd result) = (4 + t0)%nat
  /\ length (sent (snd result)) = (length (sent w) + Z.to_nat maxRetries)%nat
  /\ duixApiCircuitBreaker (snd result)
     = mkBreaker (failures cb + 1) (clock w t0)
         (if failureThreshold cb <=? failures cb + 1 then OPEN else state cb)
         (failureThreshold cb) (recoveryTimeoutMs cb)
  /\ Js.prop "fallback_mode" (Js.prop "data" (fst result)) = Js.JBool true
  /\ Js.prop "circuit_breaker_state" (Js.prop "data" (fst result))
     = Js.JString
         (BreakerState_name (state (duixApiCircuitBreaker (snd result))))
  /\ Js.prop "api_status" (Js.prop "data" (fst result))
     = Js.JNumber (Js.Num 503).
Proof.
  intros Hfails Hadmit result t0 cb.
  destruct (run_call_exhausted question apiUrl appId clientToken w Hfails Hadmit)
    as (error & _ & Hrun).
  cbv zeta in Hrun. fold result t0 in Hrun.
  rewrite (run_createFallbackResponse AWS_REGION) in Hrun.
  unfold execState in Hrun. rewrite run_updateCircuitBreaker_failure in Hrun.
  cbn [snd setBreaker tick clock ticks duixApiCircuitBreaker upstream sent
         random draws slept failures failureThreshold recoveryTimeoutMs state]
    in Hrun.
  rewrite Hrun. cbn [fst snd clock ticks upstream sent duixApiCircuitBreaker].
  repeat split.
  cbn [sent tick setBreaker].
  rewrite length_app, length_map. unfold upto.
  rewrite length_map, length_seq. reflexivity.
Qed.

Lemma exhausted_calls_count question apiUrl appId clientToken (n : nat)
  (w : World) :
  (n <= 5)%nat ->
  duixApiCircuitBreaker w = initialCircuitBreaker ->
  alwaysFails w ->
  let after :=
    execState
      (times n (callDUIXServiceWithToken question apiUrl appId clientToken)) w in
  alwaysFails after
  /\ failures (duixApiCircuitBreaker after) = Z.of_nat n
  /\ failureThreshold (duixApiCircuitBreaker after) = 5
  /\ recoveryTimeoutMs (duixApiCircuitBreaker after) = 60000
  /\ state (duixApiCircuitBreaker after)
     = (if 5 <=? Z.of_nat n then OPEN else CLOSED)
  /\ length (sent after) = (length (sent w) + n * Z.to_nat maxRetries)%nat.
Proof.
  intros Hn Hinit Hfails after. subst after.
  induction n as [|n IH].
  - cbn. rewrite Hinit. repeat split; try assumption. lia.
  - rewrite times_last.
    destruct (IH ltac:(lia)) as (Hfails' & Hcount & Hth & Hrt & Hstate & Hsent).
    set (before :=
           execState
             (times n (callDUIXServiceWithToken question apiUrl appId
                         clientToken)) w) in *.
    assert (Hclosed : state (duixApiCircuitBreaker before) = CLOSED).
    { rewrite Hstate. destruct (Z.leb_spec 5 (Z.of_nat n)); [lia | reflexivity]. }
    assert (Hadmit : evalState shouldAttemptDuixCall (tick before) = true).
    { unfold evalState. rewrite run_shouldAttempt_not_open; [reflexivity|].
      change (duixApiCircuitBreaker (tick before))
        with (duixApiCircuitBreaker before).
      rewrite Hclosed. discriminate. }
    destruct (exhausted_call_summary question apiUrl appId clientToken before
                Hfails' Hadmit)
      as (Hup & _ & _ & Hsent' & Hbreaker & _).
    unfold execState at 1 2 3 4 5 6.
    rewrite Hbreaker, Hsent', Hsent.
    unfold admittedBreaker. rewrite Hclosed.
    cbn [failures failureThreshold recoveryTimeoutMs state].
    rewrite Hcount, Hth, Hrt, Hclosed.
    split; [intros k cfg; rewrite Hup; apply Hfails'|].
    split; [lia|]. split; [reflexivity|]. split; [reflexivity|].
    split; [|lia].
    replace (Z.of_nat n + 1) with (Z.of_nat (S n)) by lia. reflexivity.
Qed.

(** X8. Five calls in a row on an upstream that always fails, from the
    breaker the module starts with, each go through all their attempts and
    leave the breaker OPEN with five failures; a sixth call whose check
    reads the clock at most 60000 ms after the last failure sends nothing
    and answers with the fallback, which reports the OPEN breaker. *)
Theorem five_exhausted_calls_open question apiUrl appId clientToken
  (w : World) :
  duixApiCircuitBreaker w = initialCircuitBreaker ->
  alwaysFails w ->
  let after :=
    execState
      (times 5 (callDUIXServiceWithToken question apiUrl appId clientToken)) w in
  state (duixApiCircuitBreaker after) = OPEN
  /\ failures (duixApiCircuitBreaker after) = 5
  /\ length (sent after) = (length (sent w) + 5 * Z.to_nat maxRetries)%nat
  /\ (clock after (S (ticks after))
        - lastFailureTime (duixApiCircuitBreaker after) <= 60000 ->
      let sixth :=
        runState (callDUIXServiceWithToken question apiUrl appId clientToken)
          after in
      sent (snd sixth) = sent after
      /\ duixApiCircuitBreaker (snd sixth) = duixApiCircuitBreaker after
      /\ Js.prop "fallback_mode" (Js.prop "data" (fst sixth)) = Js.JBool true
      /\ Js.prop "circuit_breaker_state" (Js.prop "data" (fst sixth))
         = Js.JString "OPEN").
Proof.
  intros Hinit Hfails after.
  destruct (exhausted_calls_count question apiUrl appId clientToken 5 w
              (le_n 5) Hinit Hfails)
    as (_ & Hcount & _ & Hrt & Hstate & Hsent).
  fold after in Hcount, Hrt, Hstate, Hsent.
  change (if 5 <=? Z.of_nat 5 then OPEN else CLOSED) with OPEN in Hstate.
  split; [exact Hstate|]. split; [exact Hcount|]. split; [exact Hsent|].
  intros Hwait sixth.
  assert (Hrefuse : evalState shouldAttemptDuixCall (tick after) = false).
  { unfold evalState. rewrite run_shouldAttempt_refused; [reflexivity| |].
    - exact Hstate.
    - change (duixApiCircuitBreaker (tick after))
        with (duixApiCircuitBreaker after).
      rewrite Hrt. exact Hwait. }
  subst sixth.
  rewrite (run_call_refused question apiUrl appId clientToken after Hrefuse).
  rewrite (run_createFallbackResponse AWS_REGION). cbn [fst snd].
  split; [reflexivity|]. split; [reflexivity|]. split; [reflexivity|].
  change (Js.prop "circuit_breaker_state"
            (Js.prop "data"
               (fallbackObject AWS_REGION question (clock after (ticks after))
                  Js.JNull (tick (tick after)))))
    with (Js.JString (BreakerState_name (state (duixApiCircuitBreaker after)))).
  rewrite Hstate. reflexivity.
Qed.

(** X9. A call admitted as the probe of an OPEN breaker whose recovery
    time has passed, on an upstream that still fails, goes through all its
    attempts and opens the breaker again: the failure count grows by one,
    the time of the last failure is the reading of the clock at which the
    failure is recorded, and the fallback reports the OPEN breaker. *)
Theorem failed_probe_call_reopens question apiUrl appId clientToken
  (w : World) :
  breakerConsistent (duixApiCircuitBreaker w) = true ->
  state (duixApiCircuitBreaker w) = OPEN ->
  60000 < clock w (S (ticks w)) - lastFailureTime (duixApiCircuitBreaker w) ->
  alwaysFails w ->
  let result :=
    runState (callDUIXServiceWithToken question apiUrl appId clientToken) w in
  length (sent (snd result)) = (length (sent w) + Z.to_nat maxRetries)%nat
  /\ state (duixApiCircuitBreaker (snd result)) = OPEN
  /\ failures (duixApiCircuitBreaker (snd result))
     = failures (duixApiCircuitBreaker w) + 1
  /\ lastFailureTime (duixApiCircuitBreaker (snd result))
     = clock w ((if IS_PRODUCTION then 2 else 1) * Z.to_nat maxRetries
                + 2 + ticks w)
  /\ Js.prop "fallback_mode" (Js.prop "data" (fst result)) = Js.JBool true
  /\ Js.prop "circuit_breaker_state" (Js.prop "data" (fst result))
     = Js.JString "OPEN".
Proof.
  intros Hok Hopen Hlate Hfails result.
  unfold breakerConsistent in Hok. rewrite Hopen in Hok.
  apply andb_prop in Hok. destruct Hok as [Hok Hcount].
  apply andb_prop in Hok. destruct Hok as [Hth Hrt].
  apply Z.eqb_eq in Hth. apply Z.eqb_eq in Hrt. apply Z.leb_le in Hcount.
  assert (Hadmit : evalState shouldAttemptDuixCall (tick w) = true).
  { unfold evalState. rewrite run_shouldAttempt_recovered; [reflexivity| |].
    - exact Hopen.
    - change (duixApiCircuitBreaker (tick w)) with (duixApiCircuitBreaker w).
      rewrite Hrt. exact Hlate. }
  destruct (exhausted_call_summary question apiUrl appId clientToken w
              Hfails Hadmit)
    as (_ & _ & _ & Hsent & Hbreaker & Hmode & Hreport & _).
  fold result in Hsent, Hbreaker, Hmode, Hreport.
  unfold admittedBreaker in Hbreaker. rewrite Hopen in Hbreaker.
  cbn [failures failureThreshold recoveryTimeoutMs state] in Hbreaker.
  rewrite Hth in Hbreaker.
  destruct (Z.leb_spec 5 (failures (duixApiCircuitBreaker w) + 1)) as [_|Hlt];
    [|lia].
  rewrite Hreport, Hbreaker. repeat split; assumption.
Qed.

(** X10. The fallback of an exhausted call always reports status 503 and
    an unsuccessful call, whatever the upstream answered; its
    [error_info.last_error] is taken from the last attempt alone: the code
    of a network failure, or its message when it has no code, and
    [ERR_BAD_RESPONSE] for a reply with a status from 500 to 599. For a
    reply with a status from 600 on it is the code the installed client
    gives outside its table, or the message when it gives none. *)
Theorem exhaustion_report question apiUrl appId clientToken (w : World) :
  alwaysFails w ->
  evalState shouldAttemptDuixCall (tick w) = true ->
  let result :=
    runState (callDUIXServiceWithToken question apiUrl appId clientToken) w in
  let data := Js.prop "data" (fst result) in
  let info := Js.prop "error_info" data in
  let last :=
    upstream w (length (sent w) + Z.to_nat (maxRetries - 1))
      (duixRequest apiUrl appId clientToken baseTimeout maxRetries) in
  Js.prop "api_status" data = Js.JNumber (Js.Num 503)
  /\ Js.prop "api_call_successful" data = Js.JBool false
  /\ Js.prop "error" info = Js.JString "DUIX API unavailable"
  /\ Js.prop "circuit_breaker_state" info
     = Js.prop "circuit_breaker_state" data
  /\ Js.prop "last_error" info
     = Js.JString
         match last with
         | Axios.Failed (Some code) message =>
             if String.eqb code "" then message else code
         | Axios.Failed None message => message
         | Axios.Replied status _ =>
             if status <? 600 then "ERR_BAD_RESPONSE"
             else
               let message := "Request failed with status code " ++ Js.show status in
               match clientCode w status with
               | Some code => if String.eqb code "" then message else code
               | None => message
               end
         end.
Proof.
  intros Hfails Hadmit result data info last.
  destruct (run_call_exhausted question apiUrl appId clientToken w Hfails Hadmit)
    as (error & Hsettle & Hrun).
  cbv zeta in Hsettle, Hrun. fold result in Hrun. fold last in Hsettle.
  rewrite (run_createFallbackResponse AWS_REGION) in Hrun.
  subst info data. rewrite Hrun. cbn [fst].
  split; [reflexivity|]. split; [reflexivity|]. split; [reflexivity|].
  split; [reflexivity|].
  change (Js.prop "last_error" _) with (Js.JString (errorCodeOf error)).
  f_equal.
  pose proof (Hfails (length (sent w) + Z.to_nat (maxRetries - 1))%nat
                (duixRequest apiUrl appId clientToken baseTimeout maxRetries))
    as Hlast.
  fold last in Hlast.
  destruct last as [status body | code message];
    cbn [Axios.settle failing Axios.validateStatus Server.duixRequest]
      in Hsettle, Hlast.
  - apply Z.leb_le in Hlast.
    destruct (Z.ltb_spec status 500) as [Hlt | _]; [lia|].
    injection Hsettle as <-. unfold errorCodeOf. cbn [Axios.code Axios.message].
    destruct (Z.ltb_spec status 600) as [Hclass | Hclass].
    + assert (Hq : status / 100 = 5)
        by (symmetry; apply Z.div_unique with (r := status - 500); lia).
      rewrite Hq. reflexivity.
    + assert (Hq : 6 <= status / 100)
        by (apply Z.div_le_lower_bound; lia).
      destruct (status / 100 - 4) as [|p|p] eqn:Hdiv; [lia | | reflexivity].
      destruct p; try reflexivity. lia.
  - injection Hsettle as <-. unfold errorCodeOf. cbn [Axios.code Axios.message].
    destruct code as [code|]; reflexivity.
Qed.

End ExecutorProperties.

Lemma retry_then_success_witness :
  let body := Js.JObject [("concurrent", Js.JNumber (Js.Num 1))] in
  let w := startWorld (fun k => 1000 + 100 * Z.of_nat k) initialCircuitBreaker
             (fun n _ => if Nat.eqb n 0
                         then Axios.Failed (Some "ETIMEDOUT") "timeout"
                         else Axios.Replied 200 body) in
  let result :=
    runState (callDUIXServiceWithToken true None None "v18.0.0"
                "hi" "https://api.duix.com" "app" "abc") w in
  map Axios.timeout (sent (snd result)) = [17000; 19000]
  /\ slept (snd result) = [inject_Z 2000]
  /\ failures (duixApiCircuitBreaker (snd result)) = 0
  /\ Js.prop "concurrent_info" (Js.prop "data" (fst result)) = body.
Proof.
  intros body w result.
  assert (Hadmit : evalState shouldAttemptDuixCall (tick w) = true)
    by reflexivity.
  assert (Hbelow : Z.of_nat 1 < maxRetries true) by reflexivity.
  assert (Hfail : forall i, (i < 1)%nat ->
            failing (upstream w (length (sent w) + i)
                       (duixRequest true None None "v18.0.0"
                          "https://api.duix.com" "app" "abc"
                          (baseTimeout true) (Z.of_nat i + 1))) = true).
  { intros i Hi. destruct i as [|i]; [reflexivity | lia]. }
  assert (Hreply : upstream w (length (sent w) + 1)
                     (duixRequest true None None "v18.0.0"
                        "https://api.duix.com" "app" "abc"
                        (baseTimeout true) (Z.of_nat 1 + 1))
                   = Axios.Replied 200 body) by reflexivity.
  assert (Hstatus : 200 < 500) by lia.
  destruct (retry_then_success true None None "v18.0.0"
              "hi" "https://api.duix.com" "app" "abc" w 1 200 body
              Hadmit Hbelow Hfail Hreply Hstatus)
    as (Hsent & Hslept & Hcount & _ & Hinfo & _).
  fold result in Hsent, Hslept, Hcount, Hinfo.
  split; [rewrite Hsent; reflexivity|].
  split; [rewrite Hslept; reflexivity|].
  split; [exact Hcount | exact Hinfo].
Defined.

Lemma executor_bounded_witness :
  let w := startWorld (fun k => 1000 + 100 * Z.of_nat k) initialCircuitBreaker
             (fun n _ => if Nat.eqb n 0 then Axios.Replied 502 Js.JNull
                         else Axios.Replied 404 Js.JNull) in
  let after :=
    execState (callDUIXServiceWithToken false None None "v18.0.0"
                 "hi" "https://api.duix.com" "app" "abc") w in
  breakerConsistent (duixApiCircuitBreaker after) = true
  /\ (length (sent after) <= 3)%nat.
Proof.
  intros w after.
  assert (Hok : breakerConsistent (duixApiCircuitBreaker w) = true)
    by reflexivity.
  destruct (executor_bounded false None None "v18.0.0"
              "hi" "https://api.duix.com" "app" "abc" w Hok)
    as (Hok' & requests & pauses & Hsent & Hcount & _).
  fold after in Hok', Hsent.
  split; [exact Hok'|].
  rewrite Hsent. cbn [sent w startWorld app]. exact Hcount.
Defined.

Lemma exhaustion_waits_witness :
  let w := mkWorld (fun k => 1000 + 100 * Z.of_nat k) 0 initialCircuitBreaker
             (fun _ _ => Axios.Replied 503 Js.JNull) []
             (fun _ => (1 # 2)%Q) 0 [] (fun _ => None) in
  slept (execState (callDUIXServiceWithToken false None None "v18.0.0"
                      "hi" "https://api.duix.com" "app" "abc") w)
  = [(5000 # 2)%Q; (9000 # 2)%Q].
Proof.
  intros w.
  assert (Hfails : alwaysFails w) by (intros n cfg; reflexivity).
  assert (Hadmit : evalState shouldAttemptDuixCall (tick w) = true)
    by reflexivity.
  assert (Hrandom : forall n, (0 <= random w n)%Q /\ (random w n < 1)%Q).
  { intros n. cbn [random w]. split; unfold Qle, Qlt; cbn; lia. }
  destruct (exhaustion_waits false None None "v18.0.0"
              "hi" "https://api.duix.com" "app" "abc" w Hfails Hadmit Hrandom)
    as (Hslept & _).
  rewrite Hslept. reflexivity.
Defined.

Lemma five_exhausted_calls_open_witness :
  let w := startWorld (fun k => 1000 + 100 * Z.of_nat k) initialCircuitBreaker
             (fun _ _ => Axios.Failed (Some "ECONNREFUSED") "refused") in
  let after :=
    execState
      (times 5 (callDUIXServiceWithToken true None None "v18.0.0"
                  "hi" "https://api.duix.com" "app" "abc")) w in
  state (duixApiCircuitBreaker after) = OPEN
  /\ length (sent after) = 10%nat
  /\ sent (execState (callDUIXServiceWithToken true None None "v18.0.0"
                        "hi" "https://api.duix.com" "app" "abc") after)
     = sent after.
Proof.
  intros w after.
  assert (Hinit : duixApiCircuitBreaker w = initialCircuitBreaker)
    by reflexivity.
  assert (Hfails : alwaysFails w) by (intros n cfg; reflexivity).
  destruct (five_exhausted_calls_open true None None "v18.0.0"
              "hi" "https://api.duix.com" "app" "abc" w Hinit Hfails)
    as (Hstate & _ & Hsent & Hsixth).
  fold after in Hstate, Hsent, Hsixth.
  split; [exact Hstate|]. split; [exact Hsent|].
  assert (Hwait : clock after (S (ticks after))
                  - lastFailureTime (duixApiCircuitBreaker after) <= 60000)
    by (vm_compute; discriminate).
  exact (proj1 (Hsixth Hwait)).
Defined.

Lemma failed_probe_call_reopens_witness :
  let w := startWorld (fun k => 100000 + 100 * Z.of_nat k)
             (mkBreaker 5 0 OPEN 5 60000)
             (fun _ _ => Axios.Replied 500 Js.JNull) in
  let result :=
    runState (callDUIXServiceWithToken true None None "v18.0.0"
                "hi" "https://api.duix.com" "app" "abc") w in
  state (duixApiCircuitBreaker (snd result)) = OPEN
  /\ failures (duixApiCircuitBreaker (snd result)) = 6
  /\ lastFailureTime (duixApiCircuitBreaker (snd result)) = 100600.
Proof.
  intros w result.
  assert (Hok : breakerConsistent (duixApiCircuitBreaker w) = true)
    by reflexivity.
  assert (Hopen : state (duixApiCircuitBreaker w) = OPEN) by reflexivity.
  assert (Hlate : 60000 < clock w (S (ticks w))
                          - lastFailureTime (duixApiCircuitBreaker w))
    by reflexivity.
  assert (Hfails : alwaysFails w) by (intros n cfg; reflexivity).
  destruct (failed_probe_call_reopens true None None "v18.0.0"
              "hi" "https://api.duix.com" "app" "abc" w Hok Hopen Hlate Hfails)
    as (_ & Hstate & Hcount & Hlast & _).
  fold result in Hstate, Hcount, Hlast.
  split; [exact Hstate|]. split; [exact Hcount | exact Hlast].
Defined.

Lemma exhaustion_report_witness :
  let w := startWorld (fun k => 1000 + 100 * Z.of_nat k) initialCircuitBreaker
             (fun _ _ => Axios.Replied 502 Js.JNull) in
  let data :=
    Js.prop "data"
      (evalState (callDUIXServiceWithToken true None None "v18.0.0"
                    "hi" "https://api.duix.com" "app" "abc") w) in
  Js.prop "api_status" data = Js.JNumber (Js.Num 503)
  /\ Js.prop "last_error" (Js.prop "error_info" data)
     = Js.JString "ERR_BAD_RESPONSE".
Proof.
  intros w data.
  assert (Hfails : alwaysFails w) by (intros n cfg; reflexivity).
  assert (Hadmit : evalState shouldAttemptDuixCall (tick w) = true)
    by reflexivity.
  destruct (exhaustion_report true None None "v18.0.0"
              "hi" "https://api.duix.com" "app" "abc" w Hfails Hadmit)
    as (Hstatus & _ & _ & _ & Hlast).
  split; [exact Hstatus | exact Hlast].
Defined.

(** ** Connection profiles under every environment *)

(** X11. A profile validates certificates exactly when it is not built for
    [duix_api] and either the process is in production or
    [DISABLE_SSL_VALIDATION] is not ['true']; in production the variable
    changes nothing in the profile. The identity check follows
    [rejectUnauthorized]: a validating profile reports every identity
    failure, returned or thrown, and the others accept every certificate,
    so the branch of the [catch] that would tolerate a failure for
    [duix_api] is never taken. *)
Theorem profile_validation_switch IS_PRODUCTION DISABLE_SSL_VALIDATION
  process_version strategy :
  let profile := createHTTPSAgent IS_PRODUCTION DISABLE_SSL_VALIDATION
                   process_version strategy in
  let disabled :=
    match DISABLE_SSL_VALIDATION with
    | Some v => String.eqb v "true"
    | None => false
    end in
  Agent.rejectUnauthorized profile
    = negb (String.eqb strategy "duix_api") && (IS_PRODUCTION || negb disabled)
  /\ (forall other,
       createHTTPSAgent true DISABLE_SSL_VALIDATION process_version strategy
       = createHTTPSAgent true other process_version strategy)
  /\ Agent.checkServerIdentity profile IdentityOk = None
  /\ forall err,
       Agent.checkServerIdentity profile (IdentityError err)
         = (if Agent.rejectUnauthorized profile then Some err else None)
       /\ Agent.checkServerIdentity profile (IdentityThrows err)
          = (if Agent.rejectUnauthorized profile then Some err else None).
Proof.
  cbv zeta. unfold createHTTPSAgent.
  cbn [Agent.rejectUnauthorized Agent.checkServerIdentity].
  split.
  { destruct IS_PRODUCTION, DISABLE_SSL_VALIDATION as [v|],
      (String.eqb strategy "duix_api"); cbn;
      try reflexivity; destruct (String.eqb v "true"); reflexivity. }
  split; [intros other; reflexivity|].
  destruct IS_PRODUCTION, (String.eqb strategy "duix_api"); cbn;
    try (split; [reflexivity | intros err; split; reflexivity]);
    destruct DISABLE_SSL_VALIDATION as [v|]; cbn;
    try destruct (String.eqb v "true"); cbn;
    (split; [reflexivity | intros err; split; reflexivity]).
Qed.

(** ** Token timestamps *)

(** X12. The signer checks neither the key nor the lifetime. Its [iat] is
    the second the clock reading falls in
    ([iat * 1000 <= now < iat * 1000 + 1000]); the lifetime is
    [TOKEN_EXPIRY] when the argument is omitted. For a key the library
    takes and a lifetime of a whole number of seconds, zero and negative
    ones too, production always returns a token, with [exp] the exact
    sum; outside production a token is returned exactly when the expiry
    lies at most 8.64e15 ms from the epoch, and otherwise the log line
    throws a [RangeError]. Whatever the lifetime and the key, no token is
    returned outside production when a date of the log line is invalid. *)
Theorem token_timestamps IS_PRODUCTION TOKEN_EXPIRY privateKey appId appKey
  sigExp (seconds : Z) (w : World) :
  appKey <> "" ->
  privateKey appKey = false ->
  let lifetime := match sigExp with Some e => e | None => TOKEN_EXPIRY end in
  let now := clock w (ticks w) in
  let iat := now / 1000 in
  let claims := Jwt.mkPayload appId iat (Js.Num (iat + seconds)) in
  lifetime = Js.Num seconds ->
  Z.abs now <= 8640000000000000 ->
  iat <> 0 ->
  Z.abs seconds <= 2 ^ 52 ->
  iat * 1000 <= now < iat * 1000 + 1000
  /\ evalState (createDUIXToken IS_PRODUCTION TOKEN_EXPIRY privateKey appId
                  appKey sigExp) w
     = (if IS_PRODUCTION
           || (Z.abs ((iat + seconds) * 1000) <=? 8640000000000000)
        then inl (Jwt.mkToken Jwt.HS256 claims (Jwt.HMAC Jwt.HS256 appKey claims))
        else inr (Js.mkError "RangeError" "Invalid time value"))
  /\ forall anyKey anyLifetime,
       logDatesValid now
         (match anyLifetime with Some e => e | None => TOKEN_EXPIRY end)
       = false ->
       evalState (createDUIXToken false TOKEN_EXPIRY privateKey appId anyKey
                    anyLifetime) w
       = inr (Js.mkError "RangeError" "Invalid time value").
Proof.
  intros Hkey Hsecret lifetime now iat claims Hlifetime Hnow Hiat Hseconds.
  split.
  { subst iat.
    pose proof (Z.div_mod now 1000 ltac:(lia)) as Hdiv.
    pose proof (Z.mod_pos_bound now 1000 ltac:(lia)) as Hmod.
    lia. }
  split.
  { unfold evalState. rewrite run_createDUIXToken.
    fold lifetime now iat. rewrite Hlifetime.
    destruct (logDatesValid_seconds now seconds Hnow Hseconds)
      as (Hsum & Hvalid).
    fold iat in Hsum, Hvalid. rewrite Hsum, Hvalid.
    destruct (IS_PRODUCTION
              || (Z.abs ((iat + seconds) * 1000) <=? 8640000000000000));
      [|reflexivity].
    rewrite run_sign by assumption. reflexivity. }
  intros anyKey anyLifetime Hinvalid.
  unfold evalState. rewrite run_createDUIXToken. cbn [orb].
  fold now. rewrite Hinvalid. reflexivity.
Qed.

Lemma token_timestamps_witness :
  evalState (createDUIXToken true (Js.Num (-1800)) (fun _ => false) "app"
               "secret" None)
    (startWorld (fun _ => (-1)) initialCircuitBreaker
       (fun _ _ => Axios.Failed None ""))
  = inl (Jwt.mkToken Jwt.HS256 (Jwt.mkPayload "app" (-1) (Js.Num (-1801)))
           (Jwt.HMAC Jwt.HS256 "secret"
              (Jwt.mkPayload "app" (-1) (Js.Num (-1801))))).
Proof.
  assert (Hkey : "secret" <> "") by discriminate.
  destruct (token_timestamps true (Js.Num (-1800)) (fun _ => false) "app"
              "secret" None (-1800)
              (startWorld (fun _ => (-1)) initialCircuitBreaker
                 (fun _ _ => Axios.Failed None ""))
              Hkey eq_refl eq_refl ltac:(vm_compute; discriminate)
              ltac:(vm_compute; discriminate) ltac:(vm_compute; discriminate))
    as (_ & Hrun & _).
  exact Hrun.
Defined.

(** ** Credentials and errors *)

Lemma env_or_not_empty (x : option string) (fallback : string) :
  fallback <> "" -> env_or x fallback <> "".
Proof.
  intros Hfallback. unfold env_or.
  destruct x as [value|]; [|exact Hfallback].
  destruct (String.eqb_spec value "") as [_ | Hvalue]; assumption.
Qed.

(** X13. The key and the lifetime the gateway signs with: the key is
    never empty, so the gateway's own signing never fails for want of a
    key: with a key the library takes, in production it always returns a
    token, and outside production it fails only when a date of the log
    line is invalid. A [TOKEN_EXPIRY] that is missing, unreadable or 0
    gives 1800 seconds, any other whole number, negative ones too, is
    kept. In production the module goes on after its start only when
    both credentials are set in the environment, and then signs with
    exactly those. *)
Theorem gateway_credentials production ENV_DUIX_APP_ID ENV_DUIX_APP_KEY
  parsedTokenExpiry privateKey (w : World) :
  let appId := Routes.DUIX_APP_ID ENV_DUIX_APP_ID in
  let key := Routes.DUIX_APP_KEY ENV_DUIX_APP_KEY in
  let lifetime := Routes.TOKEN_EXPIRY parsedTokenExpiry in
  let now := clock w (ticks w) in
  let claims := Jwt.mkPayload appId (now / 1000)
                  (Js.add (Js.Num (now / 1000)) lifetime) in
  key <> ""
  /\ Js.truthy (Js.JNumber lifetime) = true
  /\ (parsedTokenExpiry = Js.NaN \/ parsedTokenExpiry = Js.Num 0 ->
      lifetime = Js.Num 1800)
  /\ (forall z, z <> 0 -> parsedTokenExpiry = Js.Num z -> lifetime = Js.Num z)
  /\ (privateKey key = false ->
      Z.abs now <= 8640000000000000 -> now / 1000 <> 0 ->
      evalState (createDUIXToken production lifetime privateKey appId key None) w
      = (if production || logDatesValid now lifetime
         then inl (Jwt.mkToken Jwt.HS256 claims (Jwt.HMAC Jwt.HS256 key claims))
         else inr (Js.mkError "RangeError" "Invalid time value")))
  /\ (Routes.startup true ENV_DUIX_APP_ID ENV_DUIX_APP_KEY = Listening ->
      ENV_DUIX_APP_ID = Some appId /\ ENV_DUIX_APP_KEY = Some key)
  /\ (Routes.startup true ENV_DUIX_APP_ID ENV_DUIX_APP_KEY <> Listening ->
      Routes.startup true ENV_DUIX_APP_ID ENV_DUIX_APP_KEY = Exited 1)
  /\ Routes.startup false ENV_DUIX_APP_ID ENV_DUIX_APP_KEY = Listening.
Proof.
  intros appId key lifetime now claims.
  assert (Hkey : key <> "")
    by (apply env_or_not_empty; discriminate).
  split; [exact Hkey|].
  split.
  { subst lifetime. unfold Routes.TOKEN_EXPIRY.
    destruct (Js.truthy (Js.JNumber parsedTokenExpiry)) eqn:Hparsed;
      [exact Hparsed | reflexivity]. }
  split.
  { intros [-> | ->]; reflexivity. }
  split.
  { intros z Hz ->. subst lifetime. unfold Routes.TOKEN_EXPIRY.
    rewrite truthy_Num.
    destruct (Z.eqb_spec z 0); [contradiction | reflexivity]. }
  split.
  { intros Hsecret _ Hiat.
    unfold evalState. rewrite run_createDUIXToken.
    fold now. destruct (production || logDatesValid now lifetime);
      [|reflexivity].
    rewrite run_sign by assumption. reflexivity. }
  split.
  { subst appId key.
    unfold Routes.startup, Routes.DUIX_APP_ID, Routes.DUIX_APP_KEY, env_set, env_or.
    destruct ENV_DUIX_APP_ID as [i|], ENV_DUIX_APP_KEY as [k|]; cbn;
      try discriminate.
    - destruct (String.eqb i ""), (String.eqb k ""); cbn; try discriminate.
      intros _. split; reflexivity.
    - destruct (String.eqb i ""); discriminate. }
  split.
  { unfold Routes.startup.
    destruct (negb (env_set ENV_DUIX_APP_ID) || negb (env_set ENV_DUIX_APP_KEY));
      [reflexivity | intros H; contradiction H; reflexivity]. }
  reflexivity.
Qed.

Lemma gateway_credentials_witness :
  exists t,
    evalState (createDUIXToken false (Routes.TOKEN_EXPIRY Js.NaN)
                 (fun _ => false) (Routes.DUIX_APP_ID None)
                 (Routes.DUIX_APP_KEY None) None)
      (startWorld (fun _ => 1700000000123) initialCircuitBreaker
         (fun _ _ => Axios.Failed None ""))
    = inl t
    /\ Jwt.appId (Jwt.claims t) = "1377185422953811968"
    /\ Jwt.iat (Jwt.claims t) = 1700000000
    /\ Js.eq (Jwt.exp (Jwt.claims t)) (Js.Num 1700001800) = true.
Proof.
  destruct (gateway_credentials false None None Js.NaN (fun _ => false)
              (startWorld (fun _ => 1700000000123) initialCircuitBreaker
                 (fun _ _ => Axios.Failed None "")))
    as (_ & _ & _ & _ & Hsigned & _).
  rewrite (Hsigned eq_refl ltac:(vm_compute; discriminate)
             ltac:(vm_compute; discriminate)).
  eexists. split; [vm_compute; reflexivity|].
  split; [reflexivity|]. split; [reflexivity | vm_compute; reflexivity].
Defined.

(** X14. [handleError] always answers 500 with the fixed text, an
    [errorId] that is the clock reading in base 36, and a timestamp; in
    production the answer is the same for every error, so neither the
    message nor the code of the error reaches the client, and outside
    production both are added as [details] and [code]. *)
Theorem handleError_sanitized (message message' : string)
  (code code' : Js.value) (w : World) :
  let production := runState (Routes.handleError true message code) w in
  let development := runState (Routes.handleError false message code) w in
  statusCode (fst production) = 500
  /\ statusCode (fst development) = 500
  /\ production = runState (Routes.handleError true message' code') w
  /\ Js.keys_of (json (fst production)) = ["error"; "errorId"; "timestamp"]
  /\ Js.prop "error" (json (fst production))
     = Js.JString "Internal server error"
  /\ Js.prop "errorId" (json (fst production))
     = Js.JString (toString36 (clock w (ticks w)))
  /\ Js.prop "errorId" (json (fst development))
     = Js.JString (toString36 (clock w (ticks w)))
  /\ Js.prop "details" (json (fst development)) = Js.JString message
  /\ Js.prop "code" (json (fst development)) = code
  /\ snd production = tick (tick w)
  /\ snd development = tick (tick w).
Proof.
  cbv zeta. repeat split.
Qed.

(** ** Routes *)

Section RouteProperties.

Variable DISABLE_SSL_VALIDATION : option string.
Variable AWS_REGION : option string.
Variable process_version : string.
Variable ENV_DUIX_APP_ID : option string.
Variable ENV_DUIX_APP_KEY : option string.
Variable parsedTokenExpiry : Js.number.
Variable process_uptime : Js.value.
Variable compact : Jwt.token -> string.
Variable HeaderString : Js.value -> string.
Variable ParamString : Js.value -> string.
Variable privateKey : string -> bool.

Local Abbreviation DUIX_APP_ID := (Routes.DUIX_APP_ID ENV_DUIX_APP_ID).
Local Abbreviation DUIX_APP_KEY := (Routes.DUIX_APP_KEY ENV_DUIX_APP_KEY).
Local Abbreviation TOKEN_EXPIRY := (Routes.TOKEN_EXPIRY parsedTokenExpiry).
Local Abbreviation signRoute production :=
  (Routes.signRoute production ENV_DUIX_APP_ID ENV_DUIX_APP_KEY
     parsedTokenExpiry compact privateKey).
Local Abbreviation testLatency production :=
  (Routes.testLatency production DISABLE_SSL_VALIDATION AWS_REGION
     process_version ENV_DUIX_APP_ID HeaderString).
Local Abbreviation executor production :=
  (callDUIXServiceWithToken production DISABLE_SSL_VALIDATION AWS_REGION
     process_version).

(** X15. [GET /api/duix/sign] in production answers 403 for every query
    and does nothing else: no clock is read and nothing is signed. Outside
    production, when the dates of the signer's log line are valid and the
    library takes the key, it answers 200 with the token of the gateway's
    own application, signed with the gateway's key at the second of the
    clock reading, and echoes a [conversationId] that is given; when none
    is given the id is a fresh clock reading in decimal. When a date is
    invalid, as for a [TOKEN_EXPIRY] beyond the last date, the signer
    throws and the route answers 500 through [handleError], without a
    token. *)
Theorem sign_route (query : Js.object) (w : World) :
  let refused := runState (signRoute true query) w in
  let answered := runState (signRoute false query) w in
  let now := clock w (ticks w) in
  let claims := Jwt.mkPayload DUIX_APP_ID (now / 1000)
                  (Js.add (Js.Num (now / 1000)) TOKEN_EXPIRY) in
  let conversationId := Js.get "conversationId" query in
  statusCode (fst refused) = 403
  /\ Js.prop "success" (json (fst refused)) = Js.JBool false
  /\ snd refused = w
  /\ (logDatesValid now TOKEN_EXPIRY = true ->
      privateKey DUIX_APP_KEY = false -> now / 1000 <> 0 ->
      statusCode (fst answered) = 200
      /\ Js.prop "sign" (json (fst answered))
         = Js.JString
             (compact (Jwt.mkToken Jwt.HS256 claims
                         (Jwt.HMAC Jwt.HS256 DUIX_APP_KEY claims)))
      /\ Js.prop "conversationId" (json (fst answered))
         = (if Js.truthy conversationId then conversationId
            else Js.JString (Js.show (clock w (S (ticks w)))))
      /\ snd answered
         = (if Js.truthy conversationId then tick w else tick (tick w)))
  /\ (logDatesValid now TOKEN_EXPIRY = false ->
      statusCode (fst answered) = 500
      /\ Js.prop "error" (json (fst answered))
         = Js.JString "Internal server error"
      /\ Js.prop "details" (json (fst answered))
         = Js.JString "Invalid time value"
      /\ Js.prop "sign" (json (fst answered)) = Js.JUndefined
      /\ snd answered = Nat.iter 3 tick w).
Proof.
  intros refused answered now claims conversationId.
  split; [reflexivity|]. split; [reflexivity|]. split; [reflexivity|].
  assert (Hkey : DUIX_APP_KEY <> "")
    by (apply env_or_not_empty; discriminate).
  split.
  - intros Hvalid Hsecret Hiat.
    assert (Hanswered :
      answered
      = runState
          (conversation <-
             (if Js.truthy conversationId then ret conversationId
              else t <- Date_now ;; ret (Js.JString (Js.show t))) ;;
           ret (mkResponse 200
                  (Js.JObject
                     [ ("success", Js.JBool true);
                       ("sign",
                        Js.JString
                          (compact (Jwt.mkToken Jwt.HS256 claims
                                      (Jwt.HMAC Jwt.HS256 DUIX_APP_KEY claims))));
                       ("conversationId", conversation);
                       ("warning",
                        Js.JString
                          "Development only - use client-side token generation in production") ])))
          (tick w)).
    { subst answered. unfold Routes.signRoute.
      rewrite run_bind.
      rewrite createDUIXToken_signed by assumption.
      reflexivity. }
    rewrite Hanswered.
    destruct (Js.truthy conversationId); repeat split.
  - intros Hinvalid.
    assert (Hanswered :
      answered
      = runState (Routes.handleError false "Invalid time value" Js.JUndefined)
          (tick w)).
    { subst answered. unfold Routes.signRoute.
      rewrite run_bind, run_createDUIXToken. cbn [orb].
      fold now. rewrite Hinvalid. reflexivity. }
    rewrite Hanswered. repeat split.
Qed.

(** X16. [POST /api/test-latency] checks the question before the token: a
    question that is absent, not a string or empty is answered 400 with
    the message about the question whatever the token is, and a missing
    token with a good question is answered 400 with the message about the
    token. Either way the route only reads the clock twice: no request is
    sent and the breaker is not touched. *)
Theorem test_latency_validation production (body : Js.object) (w : World) :
  let question := Js.get "question" body in
  let token := Js.get "token" body in
  let answer := runState (testLatency production body) w in
  let latency := Js.JNumber (Js.Num (clock w (S (ticks w)) - clock w (ticks w))) in
  (match question with Js.JString q => q = "" | _ => True end ->
   answer
   = (mkResponse 400
        (Js.JObject
           [ ("success", Js.JBool false);
             ("error",
              Js.JString "Question parameter is required and must be a string");
             ("latency", latency) ]),
      tick (tick w)))
  /\ (forall q, question = Js.JString q -> q <> "" ->
      Js.truthy token = false ->
      answer
      = (mkResponse 400
           (Js.JObject
              [ ("success", Js.JBool false);
                ("error",
                 Js.JString
                   "Token is required - clients must provide JWT tokens");
                ("latency", latency) ]),
         tick (tick w))).
Proof.
  intros question token answer latency. subst answer.
  unfold Routes.testLatency. rewrite run_bind, run_Date_now. cbn [fst snd].
  fold question token.
  split.
  - destruct question as [| |b|n|q|ms|l|o]; intros Hbad; try reflexivity.
    subst q. reflexivity.
  - intros q -> Hq Htoken.
    destruct (String.eqb_spec q "") as [Hempty | _]; [contradiction|].
    rewrite Htoken. reflexivity.
Qed.

(** A question and a token that pass the checks are handed to the
    executor, and its answer is wrapped. *)
Lemma run_testLatency_forward production (body : Js.object) (w : World)
  (q clientToken : string) :
  Js.get "question" body = Js.JString q -> q <> "" ->
  Js.get "token" body = Js.JString clientToken -> clientToken <> "" ->
  let called :=
    runState (executor production q Routes.DUIX_API_URL DUIX_APP_ID clientToken)
      (tick w) in
  runState (testLatency production body) w
  = (mkResponse 200
       (Js.JObject
          [ ("success", Js.JBool true);
            ("question", Js.JString q);
            ("response", Js.prop "data" (fst called));
            ("latency",
             Js.JNumber
               (Js.Num (clock (snd called) (ticks (snd called))
                        - clock w (ticks w))));
            ("timestamp",
             Js.JIsoDate (clock (snd called) (S (ticks (snd called)))));
            ("session_id", Js.prop "session_id" (fst called)) ]),
     tick (tick (snd called))).
Proof.
  intros Hquestion Hq Htoken Hclient called.
  unfold Routes.testLatency. rewrite run_bind, run_Date_now. cbn [fst snd].
  rewrite Hquestion, Htoken.
  destruct (String.eqb_spec q "") as [Hempty | _]; [contradiction|].
  cbn [Js.truthy negb].
  destruct (String.eqb_spec clientToken "") as [Hempty | _]; [contradiction|].
  cbn [negb]. rewrite run_bind. fold called.
  destruct called as [response after]. reflexivity.
Qed.

(** X17. A request with a question and a token that are non-empty strings
    is always answered 200 with [success: true], carrying the [data] and
    the [session_id] of the executor's answer; this holds even when every
    attempt of the executor fails: the route then still reports success,
    with the fallback inside ([fallback_mode: true], status 503), after
    the executor has sent all its requests and recorded one failure. *)
Theorem test_latency_degrades_to_success production (body : Js.object)
  (w : World) (q clientToken : string) :
  Js.get "question" body = Js.JString q -> q <> "" ->
  Js.get "token" body = Js.JString clientToken -> clientToken <> "" ->
  let answer := runState (testLatency production body) w in
  let called :=
    runState (executor production q Routes.DUIX_API_URL DUIX_APP_ID clientToken)
      (tick w) in
  let response := Js.prop "response" (json (fst answer)) in
  statusCode (fst answer) = 200
  /\ Js.prop "success" (json (fst answer)) = Js.JBool true
  /\ Js.prop "question" (json (fst answer)) = Js.JString q
  /\ response = Js.prop "data" (fst called)
  /\ Js.prop "session_id" (json (fst answer)) = Js.prop "session_id" (fst called)
  /\ (alwaysFails w ->
      evalState shouldAttemptDuixCall (tick (tick w)) = true ->
      Js.prop "fallback_mode" response = Js.JBool true
      /\ Js.prop "api_status" response = Js.JNumber (Js.Num 503)
      /\ length (sent (snd answer))
         = (length (sent w) + Z.to_nat (maxRetries production))%nat
      /\ failures (duixApiCircuitBreaker (snd answer))
         = failures (duixApiCircuitBreaker w) + 1).
Proof.
  intros Hquestion Hq Htoken Hclient answer called response.
  pose proof (run_testLatency_forward production body w q clientToken
                Hquestion Hq Htoken Hclient) as Hrun.
  cbv zeta in Hrun. fold called answer in Hrun.
  subst response. rewrite Hrun. cbn [fst snd statusCode json].
  split; [reflexivity|]. split; [reflexivity|]. split; [reflexivity|].
  split; [reflexivity|]. split; [reflexivity|].
  intros Hfails Hadmit.
  destruct (exhausted_call_summary production DISABLE_SSL_VALIDATION AWS_REGION
              process_version q Routes.DUIX_API_URL DUIX_APP_ID clientToken
              (tick w) Hfails Hadmit)
    as (_ & _ & _ & Hsent & Hbreaker & Hmode & _ & Hstatus).
  fold called in Hsent, Hbreaker, Hmode, Hstatus.
  change (Js.prop "response" _) with (Js.prop "data" (fst called)).
  split; [exact Hmode|]. split; [exact Hstatus|].
  destruct (iter_tick_parts 2 (snd called))
    as (Hsent2 & _ & _ & _ & _ & _ & Hbreaker2).
  change (tick (tick (snd called))) with (Nat.iter 2 tick (snd called)).
  rewrite Hsent2, Hbreaker2, Hsent, Hbreaker.
  split; [reflexivity|].
  cbn [failures]. unfold admittedBreaker.
  change (duixApiCircuitBreaker (tick w)) with (duixApiCircuitBreaker w).
  destruct (state (duixApiCircuitBreaker w)); reflexivity.
Qed.

(** X18. A token that is truthy but not a string passes the checks of
    [POST /api/test-latency]. Outside production the executor fails on it
    before its breaker check: the route answers 500 through [handleError],
    with the message of the [TypeError] as [details], having sent nothing.
    In production the same request is handed to the executor with the
    string the HTTP client makes of the token, and is answered 200. *)
Theorem test_latency_token_not_a_string (body : Js.object) (w : World)
  (q : string) :
  Js.get "question" body = Js.JString q -> q <> "" ->
  Js.truthy (Js.get "token" body) = true ->
  match Js.get "token" body with Js.JString _ => False | _ => True end ->
  let development := runState (testLatency false body) w in
  let production := runState (testLatency true body) w in
  statusCode (fst development) = 500
  /\ Js.prop "details" (json (fst development))
     = Js.JString "clientToken.substring is not a function"
  /\ snd development = Nat.iter 4 tick w
  /\ statusCode (fst production) = 200
  /\ Js.prop "response" (json (fst production))
     = Js.prop "data"
         (evalState
            (executor true q Routes.DUIX_API_URL DUIX_APP_ID
               (HeaderString (Js.get "token" body)))
            (tick w)).
Proof.
  intros Hquestion Hq Htruthy Hkind development production.
  subst development production.
  unfold Routes.testLatency. rewrite !run_bind, !run_Date_now. cbn [fst snd].
  rewrite Hquestion.
  destruct (String.eqb_spec q "") as [Hempty | _]; [contradiction|].
  rewrite Htruthy. cbn [negb].
  destruct (Js.get "token" body) as [| |b|n|s|ms|l|o];
    try contradiction;
    (split; [reflexivity|]; split; [reflexivity|]; split; [reflexivity|];
     rewrite run_bind; unfold evalState;
     match goal with
     | |- context [runState (callDUIXServiceWithToken ?a ?b ?c ?d ?e ?f ?g ?h) ?v] =>
         destruct (runState (callDUIXServiceWithToken a b c d e f g h) v)
           as [response after]
     end; split; reflexivity).
Qed.

End RouteProperties.

Lemma sign_route_witness :
  let sign lifetime :=
    Routes.signRoute false None None lifetime (fun _ => "jwt") (fun _ => false)
      [] in
  let w := startWorld (fun k => 1700000000123 + Z.of_nat k)
             initialCircuitBreaker (fun _ _ => Axios.Failed None "") in
  (statusCode (evalState (sign Js.NaN) w) = 200
   /\ Js.prop "conversationId" (json (evalState (sign Js.NaN) w))
      = Js.JString "1700000000124")
  /\ statusCode (evalState (sign (Js.Num 9999999999999)) w) = 500.
Proof.
  intros sign w. split.
  - destruct (sign_route None None Js.NaN (fun _ => "jwt") (fun _ => false)
                [] w)
      as (_ & _ & _ & Hsigned & _).
    destruct (Hsigned ltac:(vm_compute; reflexivity) eq_refl
                ltac:(vm_compute; discriminate))
      as (Hstatus & _ & Hconversation & _).
    split; [exact Hstatus | exact Hconversation].
  - destruct (sign_route None None (Js.Num 9999999999999) (fun _ => "jwt")
                (fun _ => false) [] w)
      as (_ & _ & _ & _ & Hthrown).
    destruct (Hthrown ltac:(vm_compute; reflexivity)) as (Hstatus & _).
    exact Hstatus.
Defined.

Lemma test_latency_validation_witness :
  statusCode
    (evalState
       (Routes.testLatency true None None "v18.0.0" None (fun _ => "")
          [ ("question", Js.JNumber (Js.Num 7)) ])
       (startWorld (fun k => 1000 + Z.of_nat k) initialCircuitBreaker
          (fun _ _ => Axios.Replied 200 Js.JNull))) = 400
  /\ Js.prop "error"
       (json
          (evalState
             (Routes.testLatency true None None "v18.0.0" None (fun _ => "")
                [ ("question", Js.JString "hi"); ("token", Js.JString "") ])
             (startWorld (fun k => 1000 + Z.of_nat k) initialCircuitBreaker
                (fun _ _ => Axios.Replied 200 Js.JNull))))
     = Js.JString "Token is required - clients must provide JWT tokens".
Proof.
  split.
  - unfold evalState.
    rewrite (proj1 (test_latency_validation None None "v18.0.0" None
                      (fun _ => "") true
                      [ ("question", Js.JNumber (Js.Num 7)) ] _) I).
    reflexivity.
  - unfold evalState.
    rewrite (proj2 (test_latency_validation None None "v18.0.0" None
                      (fun _ => "") true
                      [ ("question", Js.JString "hi"); ("token", Js.JString "") ]
                      _) "hi" eq_refl ltac:(discriminate) eq_refl).
    reflexivity.
Defined.


Lemma test_latency_degrades_to_success_witness :
  let w := startWorld (fun k => 1000 + 100 * Z.of_nat k) initialCircuitBreaker
             (fun _ _ => Axios.Failed (Some "ENOTFOUND") "getaddrinfo") in
  let answer :=
    runState
      (Routes.testLatency true None None "v18.0.0" None (fun _ => "")
         [ ("question", Js.JString "hi"); ("token", Js.JString "abc") ]) w in
  statusCode (fst answer) = 200
  /\ Js.prop "success" (json (fst answer)) = Js.JBool true
  /\ Js.prop "fallback_mode" (Js.prop "response" (json (fst answer)))
     = Js.JBool true
  /\ length (sent (snd answer)) = 2%nat.
Proof.
  intros w answer.
  assert (Hq : "hi" <> "") by discriminate.
  assert (Htoken : "abc" <> "") by discriminate.
  destruct (test_latency_degrades_to_success None None "v18.0.0" None
              (fun _ => "") true
              [ ("question", Js.JString "hi"); ("token", Js.JString "abc") ]
              w "hi" "abc" eq_refl Hq eq_refl Htoken)
    as (Hstatus & Hsuccess & _ & _ & _ & Hdown).
  fold answer in Hstatus, Hsuccess, Hdown.
  assert (Hfails : alwaysFails w) by (intros n cfg; reflexivity).
  assert (Hadmit : evalState shouldAttemptDuixCall (tick (tick w)) = true)
    by reflexivity.
  destruct (Hdown Hfails Hadmit) as (Hmode & _ & Hsent & _).
  split; [exact Hstatus|]. split; [exact Hsuccess|].
  split; [exact Hmode | exact Hsent].
Defined.

Lemma test_latency_token_not_a_string_witness :
  let w := startWorld (fun k => 1000 + 100 * Z.of_nat k) initialCircuitBreaker
             (fun _ _ => Axios.Replied 200 Js.JNull) in
  let answer :=
    runState
      (Routes.testLatency false None None "v18.0.0" None (fun _ => "5")
         [ ("question", Js.JString "hi"); ("token", Js.JNumber (Js.Num 5)) ])
      w in
  statusCode (fst answer) = 500 /\ sent (snd answer) = [].
Proof.
  intros w answer.
  assert (Hq : "hi" <> "") by discriminate.
  destruct (test_latency_token_not_a_string None None "v18.0.0" None
              (fun _ => "5")
              [ ("question", Js.JString "hi"); ("token", Js.JNumber (Js.Num 5)) ]
              w "hi" eq_refl Hq eq_refl I)
    as (Hstatus & _ & Hworld & _).
  fold answer in Hstatus, Hworld.
  split; [exact Hstatus|]. rewrite Hworld. reflexivity.
Defined.

Section SessionRouteProperties.

Variable production : bool.
Variable DISABLE_SSL_VALIDATION : option string.
Variable AWS_REGION : option string.
Variable process_version : string.
Variable ENV_DUIX_APP_ID : option string.
Variable ENV_DUIX_APP_KEY : option string.
Variable parsedTokenExpiry : Js.number.
Variable process_uptime : Js.value.
Variable compact : Jwt.token -> string.
Variable HeaderString : Js.value -> string.
Variable ParamString : Js.value -> string.
Variable privateKey : string -> bool.

Local Abbreviation DUIX_APP_ID := (Routes.DUIX_APP_ID ENV_DUIX_APP_ID).
Local Abbreviation DUIX_APP_KEY := (Routes.DUIX_APP_KEY ENV_DUIX_APP_KEY).
Local Abbreviation TOKEN_EXPIRY := (Routes.TOKEN_EXPIRY parsedTokenExpiry).
Local Abbreviation hybridRequest :=
  (Routes.hybridRequest production DISABLE_SSL_VALIDATION AWS_REGION
     process_version HeaderString).
Local Abbreviation concurrentSessions :=
  (Routes.concurrentSessions production DISABLE_SSL_VALIDATION AWS_REGION
     process_version ENV_DUIX_APP_ID HeaderString ParamString).
Local Abbreviation stopSession :=
  (Routes.stopSession production DISABLE_SSL_VALIDATION AWS_REGION
     process_version HeaderString ParamString).
Local Abbreviation statusProbe :=
  (Routes.statusProbe production DISABLE_SSL_VALIDATION process_version
     ENV_DUIX_APP_ID compact).
Local Abbreviation statusRoute :=
  (Routes.statusRoute production DISABLE_SSL_VALIDATION process_version
     ENV_DUIX_APP_ID ENV_DUIX_APP_KEY parsedTokenExpiry process_uptime compact
     privateKey).

(** The status a session route answers with, from what the upstream does
    with its one request. *)
Local Abbreviation relayed outcome :=
  (match outcome with
   | Axios.Replied status _ => if status =? 200 then 200 else 503
   | Axios.Failed _ _ => 503
   end).

Ltac relay_cases request :=
  match goal with
  | |- context [upstream ?w ?n ?cfg] =>
      let st := fresh "status" in
      let rp := fresh "reply" in
      destruct (upstream w n cfg) as [st rp | ? ?];
      unfold request;
      cbn [Axios.settle Axios.validateStatus Routes.hybridRequest];
      [ destruct (Z.ltb_spec st 500);
        cbn [Axios.status Axios.data];
        destruct (Z.eqb_spec st 200);
        try lia; cbn
      | cbn ]
  end.

(** X19. [GET /api/duix/concurrent-sessions] never consults or changes the
    breaker. Without a token it answers 400 and does nothing. With one it
    sends exactly one request, for the [appId] of the query or else the
    gateway's own, and never retries: it answers 200 with the upstream
    body only when the upstream answers 200, and 503 for every other
    reply, a 4xx included, and for every failure. *)
Theorem concurrent_sessions_relay (query : Js.object) (w : World) :
  let token := Js.get "token" query in
  let appId := Js.or (Js.get "appId" query) (Js.JString DUIX_APP_ID) in
  let request :=
    hybridRequest Routes.GET_CONCURRENT_LIST
      [ ("appId", Routes.paramOf ParamString appId) ] token in
  let answer := runState (concurrentSessions query) w in
  let outcome := upstream w (length (sent w)) request in
  duixApiCircuitBreaker (snd answer) = duixApiCircuitBreaker w
  /\ slept (snd answer) = slept w
  /\ (Js.get "appId" query = Js.JUndefined ->
      Axios.params request = [ ("appId", DUIX_APP_ID) ])
  /\ (Js.truthy token = false ->
      statusCode (fst answer) = 400 /\ snd answer = w)
  /\ (Js.truthy token = true ->
      sent (snd answer) = (sent w ++ [request])%list
      /\ statusCode (fst answer) = relayed outcome
      /\ Js.prop "success" (json (fst answer))
         = Js.JBool (statusCode (fst answer) =? 200)
      /\ forall body, outcome = Axios.Replied 200 body ->
           Js.prop "data" (json (fst answer)) = body).
Proof.
  intros token appId request answer outcome.
  subst answer outcome. unfold Routes.concurrentSessions.
  fold token appId. fold request.
  destruct (Js.truthy token) eqn:Htoken; cbn [negb].
  - rewrite run_bind, run_axios. cbn [fst snd].
    repeat split; try discriminate.
    + relay_cases request; reflexivity.
    + relay_cases request; reflexivity.
    + intros Habsent. subst request appId. rewrite Habsent. reflexivity.
    + relay_cases request; reflexivity.
    + relay_cases request; reflexivity.
    + relay_cases request; reflexivity.
    + intros body0 Hreply. rewrite Hreply. reflexivity.
  - rewrite run_ret. cbn [fst snd].
    repeat split; try discriminate.
    intros Habsent. subst request appId. rewrite Habsent. reflexivity.
Qed.

(** X20. [POST /api/duix/stop-session] needs both a token and a session
    id: when either is missing it answers 400 and does nothing. Otherwise
    it sends exactly one request for that id, never consults or changes
    the breaker, and answers 200 with the upstream body only when the
    upstream answers 200, and 503 otherwise. *)
Theorem stop_session_relay (body : Js.object) (w : World) :
  let token := Js.get "token" body in
  let uuid := Js.get "uuid" body in
  let request :=
    hybridRequest Routes.SESSION_STOP
      [ ("uuid", Routes.paramOf ParamString uuid) ] token in
  let answer := runState (stopSession body) w in
  let outcome := upstream w (length (sent w)) request in
  duixApiCircuitBreaker (snd answer) = duixApiCircuitBreaker w
  /\ slept (snd answer) = slept w
  /\ (Js.truthy token = false \/ Js.truthy uuid = false ->
      statusCode (fst answer) = 400 /\ snd answer = w)
  /\ (Js.truthy token = true -> Js.truthy uuid = true ->
      sent (snd answer) = (sent w ++ [request])%list
      /\ statusCode (fst answer) = relayed outcome
      /\ Js.prop "success" (json (fst answer))
         = Js.JBool (statusCode (fst answer) =? 200)
      /\ forall reply, outcome = Axios.Replied 200 reply ->
           Js.prop "data" (json (fst answer)) = reply).
Proof.
  intros token uuid request answer outcome.
  subst answer outcome. unfold Routes.stopSession.
  fold token uuid. fold request.
  destruct (Js.truthy token) eqn:Htoken, (Js.truthy uuid) eqn:Huuid;
    cbn [negb orb].
  - rewrite run_bind, run_axios. cbn [fst snd].
    split; [relay_cases request; reflexivity|].
    split; [relay_cases request; reflexivity|].
    split; [intros [H | H]; discriminate H|].
    intros _ _.
    split; [relay_cases request; reflexivity|].
    split; [relay_cases request; reflexivity|].
    split; [relay_cases request; reflexivity|].
    intros reply Hreply. rewrite Hreply. reflexivity.
  - rewrite run_ret. repeat split; discriminate.
  - rewrite run_ret. repeat split; discriminate.
  - rewrite run_ret. repeat split; discriminate.
Qed.

(** The signer reads the clock once or twice and touches nothing else. *)
Lemma createDUIXToken_world IS_PRODUCTION lifetime secret appId appKey sigExp
  (w : World) :
  snd (runState (createDUIXToken IS_PRODUCTION lifetime secret appId appKey
                   sigExp) w) = tick w
  \/ snd (runState (createDUIXToken IS_PRODUCTION lifetime secret appId appKey
                      sigExp) w) = tick (tick w).
Proof.
  rewrite run_createDUIXToken.
  destruct (IS_PRODUCTION || logDatesValid _ _); [|left; reflexivity].
  destruct (sign_world secret
              (Jwt.mkPayload appId (clock w (ticks w) / 1000)
                 (Js.add (Js.Num (clock w (ticks w) / 1000))
                    match sigExp with Some e => e | None => lifetime end))
              appKey (tick w)) as [-> | ->]; [left | right]; reflexivity.
Qed.

(** X21. [GET /api/status] always answers 200 with [status: operational],
    whatever the upstream does, and leaves the breaker alone. When the
    signer returns its token, which it does with a key the library takes
    in production and, outside, when the dates of its log line are
    valid, the route sends one probe; [duix_api_status] is [healthy] for
    a 200, [degraded] for any other status below 500 and [unhealthy] for
    a status from 500 on or a failure. When the signer throws, no probe
    is sent and the status is [unhealthy]. The [ssl_validation] it
    reports is that of the environment, true in production, while the
    agent of its own probe never validates certificates. *)
Theorem status_route (w : World) :
  let now := clock w (S (ticks w)) in
  let claims := Jwt.mkPayload DUIX_APP_ID (now / 1000)
                  (Js.add (Js.Num (now / 1000)) TOKEN_EXPIRY) in
  let probe :=
    statusProbe (Jwt.mkToken Jwt.HS256 claims
                   (Jwt.HMAC Jwt.HS256 DUIX_APP_KEY claims)) in
  let signed := production || logDatesValid now TOKEN_EXPIRY in
  let answer := runState statusRoute w in
  let disabled :=
    match DISABLE_SSL_VALIDATION with
    | Some v => String.eqb v "true"
    | None => false
    end in
  statusCode (fst answer) = 200
  /\ Js.prop "status" (json (fst answer)) = Js.JString "operational"
  /\ duixApiCircuitBreaker (snd answer) = duixApiCircuitBreaker w
  /\ Js.prop "ssl_validation" (json (fst answer))
     = Js.JBool (production || negb disabled)
  /\ Agent.rejectUnauthorized (Axios.httpsAgent probe) = false
  /\ (signed = false ->
      sent (snd answer) = sent w
      /\ Js.prop "duix_api_status" (json (fst answer)) = Js.JString "unhealthy"
      /\ Js.prop "response_time_ms" (json (fst answer))
         = Js.JNumber (Js.Num (clock w (2 + ticks w) - clock w (ticks w))))
  /\ (signed = true ->
      Z.abs now <= 8640000000000000 -> now / 1000 <> 0 ->
      privateKey DUIX_APP_KEY = false ->
      sent (snd answer) = (sent w ++ [probe])%list
      /\ Js.prop "duix_api_status" (json (fst answer))
         = Js.JString
             match upstream w (length (sent w)) probe with
             | Axios.Replied status _ =>
                 if status =? 200 then "healthy"
                 else if status <? 500 then "degraded" else "unhealthy"
             | Axios.Failed _ _ => "unhealthy"
             end
      /\ Js.prop "response_time_ms" (json (fst answer))
         = Js.JNumber (Js.Num (clock w (2 + ticks w) - clock w (ticks w)))).
Proof.
  intros now claims probe signed answer disabled.
  assert (Hkey : DUIX_APP_KEY <> "")
    by (apply env_or_not_empty; discriminate).
  assert (Hdisabled :
    match DISABLE_SSL_VALIDATION with
    | Some v => negb (String.eqb v "true")
    | None => true
    end = negb disabled)
    by (subst disabled; destruct DISABLE_SSL_VALIDATION; reflexivity).
  assert (Hrest :
    forall (duixStatus : string) (v : World),
      runState
        (endTime <- Date_now ;;
         t_stamp <- Date_now ;;
         ret (mkResponse 200
                (Js.JObject
                   [ ("status", Js.JString "operational");
                     ("timestamp", Js.JIsoDate t_stamp);
                     ("environment",
                      Js.JString
                        (if production then "production" else "development"));
                     ("ssl_validation",
                      Js.JBool
                        (production
                         || match DISABLE_SSL_VALIDATION with
                            | Some v => negb (String.eqb v "true")
                            | None => true
                            end));
                     ("ssl_validation_details", Js.JObject
                       [ ("disable_ssl_validation",
                          Js.of_option DISABLE_SSL_VALIDATION);
                         ("is_production", Js.JBool production);
                         ("node_tls_reject_unauthorized", Js.JUndefined) ]);
                     ("duix_api_status", Js.JString duixStatus);
                     ("response_time_ms",
                      Js.JNumber (Js.Num (endTime - clock w (ticks w))));
                     ("version", Js.JString "1.0.0");
                     ("uptime", process_uptime) ]))) v
      = (mkResponse 200
           (Js.JObject
              [ ("status", Js.JString "operational");
                ("timestamp", Js.JIsoDate (clock v (S (ticks v))));
                ("environment",
                 Js.JString
                   (if production then "production" else "development"));
                ("ssl_validation", Js.JBool (production || negb disabled));
                ("ssl_validation_details", Js.JObject
                  [ ("disable_ssl_validation",
                     Js.of_option DISABLE_SSL_VALIDATION);
                    ("is_production", Js.JBool production);
                    ("node_tls_reject_unauthorized", Js.JUndefined) ]);
                ("duix_api_status", Js.JString duixStatus);
                ("response_time_ms",
                 Js.JNumber (Js.Num (clock v (ticks v) - clock w (ticks w))));
                ("version", Js.JString "1.0.0");
                ("uptime", process_uptime) ]),
         tick (tick v))).
  { intros duixStatus v. rewrite Hdisabled. reflexivity. }
  assert (Hprobe :
    forall token (v : World),
      runState
        (settled <- axios (statusProbe token) ;;
         ret match settled with
             | inl response =>
                 if Axios.status response =? 200 then "healthy" else "degraded"
             | inr _ => "unhealthy"
             end) v
      = (match upstream v (length (sent v)) (statusProbe token) with
         | Axios.Replied status _ =>
             if status =? 200 then "healthy"
             else if status <? 500 then "degraded" else "unhealthy"
         | Axios.Failed _ _ => "unhealthy"
         end,
         mkWorld (clock v) (ticks v) (duixApiCircuitBreaker v)
           (upstream v) (sent v ++ [statusProbe token]) (random v) (draws v)
           (slept v) (clientCode v))).
  { intros token v. rewrite run_bind, run_axios. cbn [fst snd]. rewrite run_ret.
    f_equal.
    destruct (upstream v (length (sent v)) (statusProbe token))
      as [status reply | c m];
      cbn [Axios.settle Axios.validateStatus Routes.statusProbe];
      [|reflexivity].
    destruct (Z.ltb_spec status 500); cbn [Axios.status];
      destruct (Z.eqb_spec status 200); try lia; reflexivity. }
  assert (Hshape :
    exists (duixStatus : string) (v : World),
      answer
      = runState
          (endTime <- Date_now ;;
           t_stamp <- Date_now ;;
           ret (mkResponse 200
                  (Js.JObject
                     [ ("status", Js.JString "operational");
                       ("timestamp", Js.JIsoDate t_stamp);
                       ("environment",
                        Js.JString
                          (if production then "production" else "development"));
                       ("ssl_validation",
                        Js.JBool
                          (production
                           || match DISABLE_SSL_VALIDATION with
                              | Some v => negb (String.eqb v "true")
                              | None => true
                              end));
                       ("ssl_validation_details", Js.JObject
                         [ ("disable_ssl_validation",
                            Js.of_option DISABLE_SSL_VALIDATION);
                           ("is_production", Js.JBool production);
                           ("node_tls_reject_unauthorized", Js.JUndefined) ]);
                       ("duix_api_status", Js.JString duixStatus);
                       ("response_time_ms",
                        Js.JNumber (Js.Num (endTime - clock w (ticks w))));
                       ("version", Js.JString "1.0.0");
                       ("uptime", process_uptime) ]))) v
      /\ duixApiCircuitBreaker v = duixApiCircuitBreaker w).
  { subst answer. unfold Routes.statusRoute.
    rewrite run_bind, run_Date_now. cbn [fst snd].
    rewrite run_bind.
    pose proof (createDUIXToken_world production TOKEN_EXPIRY privateKey
                  DUIX_APP_ID DUIX_APP_KEY None (tick w)) as Hworld.
    destruct (runState
                (createDUIXToken production TOKEN_EXPIRY privateKey DUIX_APP_ID
                   DUIX_APP_KEY None) (tick w)) as [made v] eqn:Hmade.
    cbn [fst snd] in Hworld |- *.
    rewrite run_bind.
    destruct made as [token | thrown].
    - rewrite Hprobe. cbn [fst snd].
      do 2 eexists. split; [reflexivity|].
      cbn [duixApiCircuitBreaker].
      destruct Hworld as [-> | ->]; reflexivity.
    - rewrite run_ret. cbn [fst snd].
      do 2 eexists. split; [reflexivity|].
      destruct Hworld as [-> | ->]; reflexivity. }
  destruct Hshape as (duixStatus & v & Hanswer & Hbreaker).
  rewrite Hrest in Hanswer.
  split; [rewrite Hanswer; reflexivity|].
  split; [rewrite Hanswer; reflexivity|].
  split; [rewrite Hanswer; exact Hbreaker|].
  split; [rewrite Hanswer; reflexivity|].
  split.
  { unfold Routes.statusProbe, createHTTPSAgent. cbn.
    destruct production; [reflexivity|].
    apply Bool.andb_false_r. }
  clear duixStatus v Hanswer Hbreaker.
  split.
  - intros Hunsigned.
    assert (Hanswer :
      answer
      = (mkResponse 200
           (Js.JObject
              [ ("status", Js.JString "operational");
                ("timestamp", Js.JIsoDate (clock w (3 + ticks w)));
                ("environment",
                 Js.JString
                   (if production then "production" else "development"));
                ("ssl_validation", Js.JBool (production || negb disabled));
                ("ssl_validation_details", Js.JObject
                  [ ("disable_ssl_validation",
                     Js.of_option DISABLE_SSL_VALIDATION);
                    ("is_production", Js.JBool production);
                    ("node_tls_reject_unauthorized", Js.JUndefined) ]);
                ("duix_api_status", Js.JString "unhealthy");
                ("response_time_ms",
                 Js.JNumber
                   (Js.Num (clock w (2 + ticks w) - clock w (ticks w))));
                ("version", Js.JString "1.0.0");
                ("uptime", process_uptime) ]),
         Nat.iter 4 tick w)).
    { subst answer. unfold Routes.statusRoute.
      rewrite run_bind, run_Date_now. cbn [fst snd].
      rewrite run_bind, run_createDUIXToken.
      change (clock (tick w) (ticks (tick w))) with (clock w (S (ticks w))).
      fold now. fold signed. rewrite Hunsigned. cbn [fst snd].
      rewrite run_bind, run_ret. cbn [fst snd].
      rewrite Hrest. reflexivity. }
    rewrite Hanswer. repeat split.
  - intros Hsigned Hnow Hiat Hsecret.
    assert (Hanswer :
      answer
      = (mkResponse 200
           (Js.JObject
              [ ("status", Js.JString "operational");
                ("timestamp", Js.JIsoDate (clock w (3 + ticks w)));
                ("environment",
                 Js.JString
                   (if production then "production" else "development"));
                ("ssl_validation", Js.JBool (production || negb disabled));
                ("ssl_validation_details", Js.JObject
                  [ ("disable_ssl_validation",
                     Js.of_option DISABLE_SSL_VALIDATION);
                    ("is_production", Js.JBool production);
                    ("node_tls_reject_unauthorized", Js.JUndefined) ]);
                ("duix_api_status",
                 Js.JString
                   match upstream w (length (sent w)) probe with
                   | Axios.Replied status _ =>
                       if status =? 200 then "healthy"
                       else if status <? 500 then "degraded" else "unhealthy"
                   | Axios.Failed _ _ => "unhealthy"
                   end);
                ("response_time_ms",
                 Js.JNumber
                   (Js.Num (clock w (2 + ticks w) - clock w (ticks w))));
                ("version", Js.JString "1.0.0");
                ("uptime", process_uptime) ]),
         mkWorld (clock w) (4 + ticks w) (duixApiCircuitBreaker w)
           (upstream w) (sent w ++ [probe]) (random w) (draws w) (slept w)
           (clientCode w))).
    { subst answer. unfold Routes.statusRoute.
      rewrite run_bind, run_Date_now. cbn [fst snd].
      rewrite run_bind.
      rewrite createDUIXToken_signed; try assumption.
      cbn [fst snd]. fold claims. fold probe.
      rewrite run_bind, Hprobe. cbn [fst snd].
      rewrite Hrest. reflexivity. }
    rewrite Hanswer. repeat split.
Qed.

End SessionRouteProperties.

Lemma status_route_witness :
  let status production lifetime :=
    Routes.statusRoute production None "v18.0.0" None None lifetime Js.JNull
      (fun _ => "jwt") (fun _ => false) in
  let w := startWorld (fun k => 1700000000123 + Z.of_nat k)
             initialCircuitBreaker (fun _ _ => Axios.Replied 404 Js.JNull) in
  (length (sent (execState (status true Js.NaN) w)) = 1%nat
   /\ Js.prop "duix_api_status" (json (evalState (status true Js.NaN) w))
      = Js.JString "degraded")
  /\ (sent (execState (status false (Js.Num 9999999999999)) w) = []
      /\ Js.prop "duix_api_status"
           (json (evalState (status false (Js.Num 9999999999999)) w))
         = Js.JString "unhealthy").
Proof.
  intros status w. split.
  - destruct (status_route true None "v18.0.0" None None Js.NaN Js.JNull
                (fun _ => "jwt") (fun _ => false) w)
      as (_ & _ & _ & _ & _ & _ & Hsigned).
    destruct (Hsigned eq_refl ltac:(vm_compute; discriminate)
                ltac:(vm_compute; discriminate) eq_refl)
      as (Hsent & Hstatus & _).
    split; [|exact Hstatus].
    unfold execState. unfold status. rewrite Hsent. reflexivity.
  - destruct (status_route false None "v18.0.0" None None
                (Js.Num 9999999999999) Js.JNull
                (fun _ => "jwt") (fun _ => false) w)
      as (_ & _ & _ & _ & _ & Hthrown & _).
    destruct (Hthrown ltac:(vm_compute; reflexivity))
      as (Hsent & Hstatus & _).
    split; [exact Hsent | exact Hstatus].
Defined.

(** ** The in-memory rate limiter *)

Lemma sameKey_eq (a b : option string) : sameKey a b = true <-> a = b.
Proof.
  destruct a as [x|], b as [y|]; cbn; split; intros H;
    try discriminate; try reflexivity.
  - apply String.eqb_eq in H. congruence.
  - injection H as ->. apply String.eqb_refl.
Qed.

Lemma sameKey_neq (a b : option string) : a <> b -> sameKey a b = false.
Proof.
  intros Hne. destruct (sameKey a b) eqn:H; [|reflexivity].
  apply sameKey_eq in H. contradiction.
Qed.

Lemma Map_get_set_same (ip : option string) (v : list Z) (m : RequestCounts) :
  Map_get ip (Map_set ip v m) = Some v.
Proof.
  induction m as [|[k x] m IH]; cbn [Map_set Map_get].
  - rewrite (proj2 (sameKey_eq ip ip) eq_refl). reflexivity.
  - destruct (sameKey ip k) eqn:Hk; cbn [Map_get]; rewrite Hk;
      [reflexivity | exact IH].
Qed.

Lemma Map_get_set_other (ip other : option string) (v : list Z)
  (m : RequestCounts) :
  other <> ip -> Map_get other (Map_set ip v m) = Map_get other m.
Proof.
  intros Hne.
  induction m as [|[k x] m IH]; cbn [Map_set Map_get].
  - rewrite (sameKey_neq other ip Hne). reflexivity.
  - destruct (sameKey ip k) eqn:Hk; cbn [Map_get].
    + apply sameKey_eq in Hk. subst k.
      rewrite (sameKey_neq other ip Hne). reflexivity.
    + destruct (sameKey other k); [reflexivity | exact IH].
Qed.

(** One request through the middleware, as a function of the map, the
    address and the clock reading. *)
Lemma run_rateLimitFallback (requestCounts : RequestCounts) (req : Request)
  (w : World) :
  let ip := clientAddress req in
  let now := clock w (ticks w) in
  let present :=
    match Map_get ip requestCounts with
    | Some _ => requestCounts
    | None => Map_set ip [] requestCounts
    end in
  let requests :=
    filter (fun time => now - 900000 <? time)
      match Map_get ip present with
      | Some times => times
      | None => []
      end in
  runState (rateLimitFallback requestCounts req) w
  = (if 100 <=? Z.of_nat (length requests)
     then (Some (mkResponse 429
                   (Js.JObject [ ("error", Js.JString "Too many requests") ])),
           present)
     else (None, Map_set ip (requests ++ [now]) present),
     tick w).
Proof.
  cbv zeta. unfold rateLimitFallback.
  rewrite run_bind, run_Date_now. cbn [fst snd].
  change (15 * 60 * 1000) with 900000.
  destruct (100 <=? _); reflexivity.
Qed.

(** The two ways a request goes through the middleware. *)
Lemma rateLimitFallback_cases (requestCounts : RequestCounts) (req : Request)
  (w : World) :
  let ip := clientAddress req in
  let now := clock w (ticks w) in
  let recorded :=
    match Map_get ip requestCounts with Some times => times | None => [] end in
  let young := filter (fun time => now - 900000 <? time) recorded in
  let answer := evalState (rateLimitFallback requestCounts req) w in
  ((100 <= length young)%nat ->
   fst answer
     = Some (mkResponse 429
               (Js.JObject [ ("error", Js.JString "Too many requests") ]))
   /\ snd answer = requestCounts)
  /\ ((length young < 100)%nat ->
      fst answer = None
      /\ Map_get ip (snd answer) = Some (young ++ [now])%list)
  /\ (forall other, other <> ip ->
        Map_get other (snd answer) = Map_get other requestCounts).
Proof.
  intros ip now recorded young answer.
  subst answer. unfold evalState. rewrite run_rateLimitFallback.
  cbv zeta. fold ip now. cbn [fst].
  assert (Hpresent :
    match Map_get ip
            match Map_get ip requestCounts with
            | Some _ => requestCounts
            | None => Map_set ip [] requestCounts
            end
    with
    | Some times => times
    | None => []
    end = recorded).
  { subst recorded. destruct (Map_get ip requestCounts) as [times|] eqn:Hget.
    - rewrite Hget. reflexivity.
    - rewrite Map_get_set_same. reflexivity. }
  rewrite Hpresent. fold young.
  destruct (Z.leb_spec 100 (Z.of_nat (length young))) as [Hfull | Hroom];
    cbn [fst snd].
  - split; [|split].
    + intros _. split; [reflexivity|].
      destruct (Map_get ip requestCounts) as [times|] eqn:Hget; [reflexivity|].
      subst young recorded. cbn in Hfull. lia.
    + intros Hlt. lia.
    + intros other Hother.
      destruct (Map_get ip requestCounts); [reflexivity|].
      apply Map_get_set_other. exact Hother.
  - split; [|split].
    + intros Hge. lia.
    + intros _. split; [reflexivity | apply Map_get_set_same].
    + intros other Hother. rewrite Map_get_set_other by exact Hother.
      destruct (Map_get ip requestCounts); [reflexivity|].
      apply Map_get_set_other. exact Hother.
Qed.


(** X22. The middleware answers 429 exactly when the address already has
    100 recorded requests younger than 15 minutes, and then records
    nothing; otherwise it lets the request through and records it after
    the younger ones, dropping the older. The record of every other
    address is untouched either way. *)
Theorem rate_limit_step (requestCounts : RequestCounts) (req : Request)
  (w : World) :
  let ip := clientAddress req in
  let now := clock w (ticks w) in
  let recorded :=
    match Map_get ip requestCounts with Some times => times | None => [] end in
  let young := filter (fun time => now - 900000 <? time) recorded in
  let served := runState (rateLimitFallback requestCounts req) w in
  snd served = tick w
  /\ (fst (fst served) <> None <-> (100 <= length young)%nat)
  /\ ((100 <= length young)%nat ->
      fst (fst served)
        = Some (mkResponse 429
                  (Js.JObject [ ("error", Js.JString "Too many requests") ]))
      /\ snd (fst served) = requestCounts)
  /\ ((length young < 100)%nat ->
      fst (fst served) = None
      /\ Map_get ip (snd (fst served)) = Some (young ++ [now])%list)
  /\ (forall other, other <> ip ->
        Map_get other (snd (fst served)) = Map_get other requestCounts).
Proof.
  intros ip now recorded young served.
  destruct (rateLimitFallback_cases requestCounts req w)
    as (Hfull & Hroom & Hother).
  unfold evalState in Hfull, Hroom, Hother.
  fold ip now recorded young served in Hfull, Hroom, Hother.
  split.
  { subst served. rewrite run_rateLimitFallback. reflexivity. }
  split.
  { destruct (Nat.le_gt_cases 100 (length young)) as [Hge | Hlt].
    - destruct (Hfull Hge) as [-> _]. split; [intros _; exact Hge | discriminate].
    - destruct (Hroom Hlt) as [-> _]. split; [intros H; contradiction | lia]. }
  split; [exact Hfull|]. split; [exact Hroom | exact Hother].
Qed.

Lemma rate_limit_step_witness :
  let req := mkRequest [] false None (Some "10.0.0.1") None in
  let served :=
    runState (rateLimitFallback [(Some "10.0.0.1", [100; 950000])] req)
      (startWorld (fun _ => 1000000) initialCircuitBreaker
         (fun _ _ => Axios.Failed None "")) in
  fst (fst served) = None
  /\ Map_get (Some "10.0.0.1") (snd (fst served)) = Some [950000; 1000000].
Proof.
  intros req served.
  destruct (rate_limit_step [(Some "10.0.0.1", [100; 950000])] req
              (startWorld (fun _ => 1000000) initialCircuitBreaker
                 (fun _ _ => Axios.Failed None "")))
    as (_ & _ & _ & Hroom & _).
  apply Hroom. cbn. lia.
Defined.

Lemma run_rateLimitAll_cons (requestCounts : RequestCounts) (req : Request)
  (later : list Request) (w : World) :
  let served := runState (rateLimitFallback requestCounts req) w in
  let rest := runState (rateLimitAll (snd (fst served)) later) (snd served) in
  runState (rateLimitAll requestCounts (req :: later)) w
  = ((fst (fst served) :: fst (fst rest), snd (fst rest)), snd rest).
Proof.
  cbv zeta. cbn [rateLimitAll]. rewrite run_bind, run_bind, run_ret.
  reflexivity.
Qed.

(** X23. However many requests come, from whatever addresses and at
    whatever times, the middleware never keeps more than 100 times for an
    address. *)
Theorem rate_limit_capacity (reqs : list Request) :
  forall (requestCounts : RequestCounts) (w : World),
    (forall ip times, Map_get ip requestCounts = Some times ->
       (length times <= 100)%nat) ->
    forall ip times,
      Map_get ip (snd (evalState (rateLimitAll requestCounts reqs) w))
        = Some times ->
      (length times <= 100)%nat.
Proof.
  induction reqs as [|req later IH]; intros requestCounts w Hcap ip times.
  - cbn. apply Hcap.
  - unfold evalState. rewrite run_rateLimitAll_cons. cbn [fst snd].
    apply IH. clear ip times. intros ip times.
    destruct (rateLimitFallback_cases requestCounts req w)
      as (Hfull & Hroom & Hother).
    unfold evalState in Hfull, Hroom, Hother.
    set (now := clock w (ticks w)) in *.
    set (young :=
           filter (fun time => now - 900000 <? time)
             match Map_get (clientAddress req) requestCounts with
             | Some t => t
             | None => []
             end) in *.
    destruct (Nat.le_gt_cases 100 (length young)) as [Hge | Hlt].
    + destruct (Hfull Hge) as [_ ->]. apply Hcap.
    + destruct (Hroom Hlt) as [_ Hstored].
      destruct (sameKey ip (clientAddress req)) eqn:Hkey.
      * apply sameKey_eq in Hkey. subst ip. rewrite Hstored.
        intros Htimes. injection Htimes as <-.
        rewrite length_app. cbn [length]. lia.
      * assert (Hne : ip <> clientAddress req).
        { intros ->. rewrite (proj2 (sameKey_eq _ _) eq_refl) in Hkey.
          discriminate. }
        rewrite (Hother ip Hne). apply Hcap.
Qed.

Lemma rate_limit_capacity_witness :
  let final :=
    snd (evalState
           (rateLimitAll []
              [ mkRequest [] false None (Some "10.0.0.1") None;
                mkRequest [] false None None (Some "10.0.0.2");
                mkRequest [] false None (Some "10.0.0.1") None ])
           (startWorld (fun k => 1000 * Z.of_nat k) initialCircuitBreaker
              (fun _ _ => Axios.Failed None ""))) in
  Map_get (Some "10.0.0.1") final = Some [0; 2000]
  /\ (length [0; 2000] <= 100)%nat.
Proof.
  intros final.
  assert (Hget : Map_get (Some "10.0.0.1") final = Some [0; 2000])
    by reflexivity.
  split; [exact Hget|].
  refine (rate_limit_capacity _ [] _ _ (Some "10.0.0.1") [0; 2000] Hget).
  intros ip times Hnone. discriminate Hnone.
Defined.

Lemma filter_all {A : Type} (f : A -> bool) (l : list A) :
  (forall x, In x l -> f x = true) -> filter f l = l.
Proof.
  induction l as [|x l IH]; intros Hall; [reflexivity|].
  cbn [filter]. rewrite (Hall x (or_introl eq_refl)).
  f_equal. apply IH. intros y Hy. apply Hall. right. exact Hy.
Qed.

(** A run of requests from one address whose recorded times all stay
    younger than 15 minutes: they pass until 100 are recorded. *)
Lemma rateLimitAll_burst (ip : option string) (reqs : list Request) :
  forall (requestCounts : RequestCounts) (w : World) (times : list Z),
    Forall (fun req => clientAddress req = ip) reqs ->
    match Map_get ip requestCounts with Some t => t | None => [] end = times ->
    (length times <= 100)%nat ->
    (forall e i, In e times -> (i < length reqs)%nat ->
       clock w (ticks w + i) - 900000 < e) ->
    (forall i j, (i < j < length reqs)%nat ->
       clock w (ticks w + j) - 900000 < clock w (ticks w + i)) ->
    fst (evalState (rateLimitAll requestCounts reqs) w)
    = (repeat None (Nat.min (length reqs) (100 - length times))
       ++ repeat
            (Some (mkResponse 429
                     (Js.JObject [ ("error", Js.JString "Too many requests") ])))
            (length reqs - (100 - length times)))%list.
Proof.
  induction reqs as [|req later IH];
    intros requestCounts w times Hfrom Hrecorded Hcap Hyoung Hclose.
  - reflexivity.
  - inversion Hfrom as [|? ? Hip Hlater]; subst.
    unfold evalState. rewrite run_rateLimitAll_cons. cbn [fst snd].
    destruct (rateLimitFallback_cases requestCounts req w)
      as (Hfull & Hroom & _).
    unfold evalState in Hfull, Hroom.
    rewrite run_rateLimitFallback in *. cbn [snd] in *.
    set (now := clock w (ticks w)) in *.
    set (times :=
           match Map_get (clientAddress req) requestCounts with
           | Some t => t
           | None => []
           end) in *.
    assert (Hall : filter (fun time => now - 900000 <? time) times = times).
    { apply filter_all. intros e He. apply Z.ltb_lt.
      specialize (Hyoung e O He ltac:(cbn; lia)).
      rewrite Nat.add_0_r in Hyoung. exact Hyoung. }
    rewrite Hall in Hfull, Hroom.
    assert (Hshift : forall i, clock (tick w) (ticks (tick w) + i)
                               = clock w (ticks w + S i)).
    { intros i. cbn [tick clock ticks]. f_equal. lia. }
    destruct (Nat.le_gt_cases 100 (length times)) as [Hge | Hlt].
    + destruct (Hfull Hge) as [Hverdict Hsame].
      match type of Hverdict with fst ?p = _ => set (served := p) in * end.
      rewrite Hverdict, Hsame.
      change (fst (fst (runState (rateLimitAll requestCounts later) (tick w))))
        with (fst (evalState (rateLimitAll requestCounts later) (tick w))).
      rewrite (IH requestCounts (tick w) times Hlater eq_refl Hcap).
      * replace (100 - length times)%nat with 0%nat by lia.
        cbn [length]. rewrite !Nat.min_0_r, !Nat.sub_0_r. reflexivity.
      * intros e i He Hi. rewrite Hshift. apply Hyoung; [exact He | cbn; lia].
      * intros i j Hij. rewrite !Hshift. apply Hclose. cbn. lia.
    + destruct (Hroom Hlt) as [Hverdict Hstored].
      match type of Hverdict with fst ?p = _ => set (served := p) in * end.
      rewrite Hverdict.
      change (fst (fst (runState (rateLimitAll (snd served) later) (tick w))))
        with (fst (evalState (rateLimitAll (snd served) later) (tick w))).
      rewrite (IH (snd served) (tick w) (times ++ [now])%list Hlater).
      * rewrite length_app. cbn [length].
        replace (100 - length times)%nat
          with (S (100 - (length times + 1)))%nat by lia.
        cbn [Nat.min repeat Nat.sub app]. reflexivity.
      * rewrite Hstored. reflexivity.
      * rewrite length_app. cbn [length]. lia.
      * intros e i He Hi. rewrite Hshift. apply in_app_or in He.
        destruct He as [He | [<- | []]].
        -- apply Hyoung; [exact He | cbn; lia].
        -- subst now. specialize (Hclose O (S i) ltac:(cbn; lia)).
           rewrite Nat.add_0_r in Hclose. exact Hclose.
      * intros i j Hij. rewrite !Hshift. apply Hclose. cbn. lia.
Qed.

(** X24. From an empty record, requests of one address whose clock
    readings all lie within 15 minutes of one another are let through up
    to the hundredth, and every further one is answered 429. *)
Theorem rate_limit_burst (ip : option string) (reqs : list Request)
  (w : World) :
  Forall (fun req => clientAddress req = ip) reqs ->
  (forall i j, (i < j < length reqs)%nat ->
     clock w (ticks w + j) - 900000 < clock w (ticks w + i)) ->
  fst (evalState (rateLimitAll [] reqs) w)
  = (repeat None (Nat.min (length reqs) 100)
     ++ repeat
          (Some (mkResponse 429
                   (Js.JObject [ ("error", Js.JString "Too many requests") ])))
          (length reqs - 100))%list.
Proof.
  intros Hfrom Hclose.
  rewrite (rateLimitAll_burst ip reqs [] w [] Hfrom eq_refl).
  - reflexivity.
  - cbn. lia.
  - intros e i [].
  - exact Hclose.
Qed.

Lemma rate_limit_burst_witness :
  let req := mkRequest [] false None (Some "10.0.0.1") None in
  let w := startWorld (fun k => 1000 * Z.of_nat k) initialCircuitBreaker
             (fun _ _ => Axios.Failed None "") in
  nth_error (fst (evalState (rateLimitAll [] (repeat req 102)) w)) 99
    = Some None
  /\ nth_error (fst (evalState (rateLimitAll [] (repeat req 102)) w)) 100
     = Some (Some (mkResponse 429
                     (Js.JObject [ ("error", Js.JString "Too many requests") ]))).
Proof.
  intros req w.
  assert (Hfrom : Forall (fun r => clientAddress r = Some "10.0.0.1")
                    (repeat req 102)).
  { apply Forall_forall. intros r Hr. apply repeat_spec in Hr. subst r.
    reflexivity. }
  assert (Hclose : forall i j, (i < j < length (repeat req 102))%nat ->
            clock w (ticks w + j) - 900000 < clock w (ticks w + i)).
  { intros i j Hij. rewrite repeat_length in Hij. cbn [clock ticks w startWorld].
    lia. }
  rewrite (rate_limit_burst (Some "10.0.0.1") (repeat req 102) w Hfrom Hclose).
  rewrite repeat_length. split; reflexivity.
Defined.
